(** * hypothetical: classical and nonparametric hypothesis tests

    A shallow embedding of the numeric core of [hypothetical/hypothesis.py],
    [hypothetical/nonparametric.py] and the legacy [hypy/nonparametric.py],
    followed by the properties of the specification that were checked
    against it.

    Numbers.  Python integers are [Z].  A Python or numpy float is an element
    of [float K]: either a finite value of an exact field [K], or one of the
    IEEE special values [PInf], [NInf], [NaN].  Arithmetic on finite values
    is exact (rounding is not modelled, nor is the sign of zero); the special
    values follow IEEE 754, which is how numpy turns a division by zero or
    the square root of a negative number into [inf] or [nan] instead of
    raising.  Rank, count and mean computations stay rational and are
    carried out over [K = Q], where every definition evaluates; the formulas
    of [BinomialTest] and [tTest] take square roots and are read over
    [K = R].

    Exceptions.  A call that can raise returns a [result]. *)

From Stdlib Require Import String Bool List ZArith QArith Qabs Qminmax.
From Stdlib Require Import Lia Lqa Reals Lra Psatz.
Import ListNotations.

(* ================================================================== *)
(** * Exceptions *)

Inductive exn : Type :=
| ValueError (msg : string)
| ZeroDivisionError
| OverflowError
| TypeError.

Inductive result (A : Type) : Type :=
| Ok (a : A)
| Raise (e : exn).

Arguments Ok {A} a.
Arguments Raise {A} e.

Definition bind {A B : Type} (m : result A) (f : A -> result B) : result B :=
  match m with
  | Ok a => f a
  | Raise e => Raise e
  end.

Notation "x <- m ;; k" := (bind m (fun x => k))
  (at level 61, m at next level, right associativity).

(** [if cond: raise e] *)
Definition raise_if (cond : bool) (e : exn) : result unit :=
  if cond then Raise e else Ok tt.

(* ================================================================== *)
(** * Floats *)

Inductive float (K : Type) : Type :=
| Fin (x : K)
| PInf
| NInf
| NaN.

Arguments Fin {K} x.
Arguments PInf {K}.
Arguments NInf {K}.
Arguments NaN {K}.

(** The exact field the finite floats live in. *)
Class Arith (K : Type) : Type := {
  kofZ : Z -> K;
  kadd : K -> K -> K;
  kopp : K -> K;
  kmul : K -> K -> K;
  kdiv : K -> K -> K;          (* only ever applied to a non-zero divisor *)
  kabs : K -> K;
  keqb : K -> K -> bool;
  kltb : K -> K -> bool
}.

Section FloatOps.
Context {K : Type} {A : Arith K}.

Definition of_int (z : Z) : float K := Fin (kofZ z).

Definition is_zero (x : K) : bool := keqb x (kofZ 0).
Definition is_neg (x : K) : bool := kltb x (kofZ 0).

Definition fneg (a : float K) : float K :=
  match a with
  | Fin x => Fin (kopp x)
  | PInf => NInf
  | NInf => PInf
  | NaN => NaN
  end.

Definition fabs (a : float K) : float K :=
  match a with
  | Fin x => Fin (kabs x)
  | PInf | NInf => PInf
  | NaN => NaN
  end.

Definition fadd (a b : float K) : float K :=
  match a, b with
  | NaN, _ | _, NaN => NaN
  | Fin x, Fin y => Fin (kadd x y)
  | PInf, NInf | NInf, PInf => NaN
  | PInf, _ | _, PInf => PInf
  | NInf, _ | _, NInf => NInf
  end.

Definition fsub (a b : float K) : float K := fadd a (fneg b).

(** [inf * x] for a finite [x]; [negative] is the sign of the infinity. *)
Definition inf_times (negative : bool) (x : K) : float K :=
  if is_zero x then NaN
  else if xorb negative (is_neg x) then NInf else PInf.

Definition fmul (a b : float K) : float K :=
  match a, b with
  | NaN, _ | _, NaN => NaN
  | Fin x, Fin y => Fin (kmul x y)
  | Fin x, PInf | PInf, Fin x => inf_times false x
  | Fin x, NInf | NInf, Fin x => inf_times true x
  | PInf, PInf | NInf, NInf => PInf
  | PInf, NInf | NInf, PInf => NInf
  end.

(** numpy's [/] ([true_divide]): a zero divisor gives [nan] or an
    infinity (and a RuntimeWarning), never an exception. *)
Definition fdiv (a b : float K) : float K :=
  match a, b with
  | NaN, _ | _, NaN => NaN
  | Fin x, Fin y =>
      if is_zero y
      then (if is_zero x then NaN else if is_neg x then NInf else PInf)
      else Fin (kdiv x y)
  | Fin _, (PInf | NInf) => Fin (kofZ 0)
  | PInf, Fin y => if is_neg y then NInf else PInf
  | NInf, Fin y => if is_neg y then PInf else NInf
  | (PInf | NInf), (PInf | NInf) => NaN
  end.

(** Python's [/] on two Python numbers raises on a zero divisor. *)
Definition py_truediv (a b : float K) : result (float K) :=
  match b with
  | Fin y => if is_zero y then Raise ZeroDivisionError else Ok (fdiv a b)
  | _ => Ok (fdiv a b)
  end.

Definition feq (a b : float K) : bool :=
  match a, b with
  | Fin x, Fin y => keqb x y
  | PInf, PInf | NInf, NInf => true
  | _, _ => false
  end.

Definition flt (a b : float K) : bool :=
  match a, b with
  | NaN, _ | _, NaN => false
  | Fin x, Fin y => kltb x y
  | _, NInf | PInf, _ => false
  | NInf, _ | _, PInf => true
  end.

Definition fle (a b : float K) : bool := flt a b || feq a b.

(** [np.minimum] and [np.maximum] propagate [nan]. *)
Definition np_minimum (a b : float K) : float K :=
  match a, b with
  | NaN, _ | _, NaN => NaN
  | _, _ => if flt b a then b else a
  end.

Definition np_maximum (a b : float K) : float K :=
  match a, b with
  | NaN, _ | _, NaN => NaN
  | _, _ => if flt a b then b else a
  end.

(** [a ** k] for an integer [k]; [a ** 0] is [1.0] for every [a]. *)
Definition fpow_pos (a : float K) (k : positive) : float K :=
  Pos.iter (fmul a) (of_int 1) k.

Definition fpow (a : float K) (k : Z) : float K :=
  match k with
  | Z0 => of_int 1
  | Zpos k => fpow_pos a k
  | Zneg k => fdiv (of_int 1) (fpow_pos a k)
  end.

(** The least magnitude that rounds past the largest double. *)
Definition overflow_threshold : Z := 2 ^ 1024 - 2 ^ 970.

(** Python's [float ** int] raises ZeroDivisionError for [0.0] to a
    negative power, and OverflowError when the power of a finite base is
    too large for a double (a power that underflows is [0.0], without an
    exception). *)
Definition py_pow (a : float K) (k : Z) : result (float K) :=
  match a with
  | Fin x =>
      if is_zero x && (k <? 0)%Z then Raise ZeroDivisionError
      else match fpow a k with
           | Fin v => if kltb (kabs v) (kofZ overflow_threshold)
                      then Ok (Fin v) else Raise OverflowError
           | _ => Raise OverflowError
           end
  | _ => Ok (fpow a k)
  end.

(** [np.sum] of a float array. *)
Definition fsum (l : list (float K)) : float K :=
  fold_right fadd (of_int 0) l.

End FloatOps.

#[export] Instance Q_arith : Arith Q := {|
  kofZ := inject_Z;
  kadd := Qplus;
  kopp := Qopp;
  kmul := Qmult;
  kdiv := Qdiv;
  kabs := Qabs;
  keqb := Qeq_bool;
  kltb := fun x y => negb (Qle_bool y x)
|}.

#[export] Instance R_arith : Arith R := {|
  kofZ := IZR;
  kadd := Rplus;
  kopp := Ropp;
  kmul := Rmult;
  kdiv := Rdiv;
  kabs := Rabs;
  keqb := fun x y => if Req_dec_T x y then true else false;
  kltb := fun x y => if Rlt_dec x y then true else false
|}.

(** [np.sqrt]: [nan] below zero. *)
Definition np_sqrt (a : float R) : float R :=
  match a with
  | Fin x => if Rlt_dec x 0 then NaN else Fin (sqrt x)
  | PInf => PInf
  | NInf => NaN
  | NaN => NaN
  end.

(** [np.finfo(float).eps] *)
Definition eps : R := (/ 2 ^ 52)%R.

(* ================================================================== *)
(** * numpy and scipy helpers on rational data *)

Local Open Scope Q_scope.

Definition Qltb (x y : Q) : bool := negb (Qle_bool y x).

(** [np.sum] of a finite float array. *)
Definition np_sum (a : list Q) : Q := fold_right Qplus 0 a.

Definition sum_Z (a : list Z) : Z := fold_right Z.add 0%Z a.

(** Elementwise product of two arrays of the same length. *)
Fixpoint np_multiply (a b : list Q) : list Q :=
  match a, b with
  | x :: a', y :: b' => x * y :: np_multiply a' b'
  | _, _ => []
  end.

(** Elementwise difference of two arrays of the same length. *)
Fixpoint np_subtract (a b : list Q) : list Q :=
  match a, b with
  | x :: a', y :: b' => x - y :: np_subtract a' b'
  | _, _ => []
  end.

Definition count_lt (a : list Q) (x : Q) : nat :=
  length (filter (fun y => Qltb y x) a).

Definition count_le (a : list Q) (x : Q) : nat :=
  length (filter (fun y => Qle_bool y x) a).

(** [scipy.stats.rankdata(a, 'average')].  scipy sorts the data, takes
    [count] as the cumulative number of elements up to the end of each
    group of equal values, and returns, for an element of group [d],
    [.5 * (count[d] + count[d - 1] + 1)]: [count[d]] is the number of
    elements [<=] it and [count[d - 1]] the number of elements [<] it.  The
    tied values share the mean of the places [count[d-1] + 1 .. count[d]]
    they occupy in sorted order (lemma [tied_places] below). *)
Definition rankdata (a : list Q) : list Q :=
  map (fun x =>
         (1 # 2) * inject_Z (Z.of_nat (count_le a x) + Z.of_nat (count_lt a x) + 1))
      a.

Fixpoint insert_sorted (x : Q) (l : list Q) : list Q :=
  match l with
  | [] => [x]
  | y :: t => if Qle_bool x y then x :: l else y :: insert_sorted x t
  end.

Definition sorted (a : list Q) : list Q := fold_right insert_sorted [] a.

Fixpoint drop_repeats (l : list Q) : list Q :=
  match l with
  | [] => []
  | x :: t =>
      match t with
      | [] => [x]
      | y :: _ => if Qeq_bool x y then drop_repeats t else x :: drop_repeats t
      end
  end.

(** [np.unique(a)]: the distinct values, ascending. *)
Definition np_unique (a : list Q) : list Q := drop_repeats (sorted a).

(** [np.unique(a, return_counts=True)[1]] *)
Definition np_unique_counts (a : list Q) : list Z :=
  map (fun v => Z.of_nat (length (filter (Qeq_bool v) a))) (np_unique a).

(* ================================================================== *)
(** * hypothetical/nonparametric.py *)

(** Arithmetic on an int64 array wraps around. *)
Definition wrap_int64 (z : Z) : Z := ((z + 2 ^ 63) mod 2 ^ 64 - 2 ^ 63)%Z.

(** [np.sum] of an int64 array. *)
Definition sum_int64 (l : list Z) : Z := wrap_int64 (sum_Z l).

(** [tie_correction(rank_array)].  The counts are an int64 array, so the
    cubes, the differences and their [np.sum] wrap around; the sum is a numpy
    scalar, so the division is numpy's.  The denominator is computed on
    Python integers, which do not wrap; it is read here as it is while it
    fits an int64, that is for fewer than [2^21] ranks (beyond, what the
    division does with it depends on the numpy version).  The quotient is
    exact. *)
Definition tie_correction (rank_array : list Q) : result (float Q) :=
  let tied_groups := np_unique_counts rank_array in
  let tied_groups := filter (fun t => (1 <? t)%Z) tied_groups in
  let shape0 := Z.of_nat (length rank_array) in
  let corr :=
    fsub (of_int 1)
         (fdiv (of_int (sum_int64
                          (map (fun t => wrap_int64 (wrap_int64 (t ^ 3) - t))
                               tied_groups)))
               (of_int (shape0 ^ 3 - shape0)%Z)) in
  Ok corr.

Module KruskalWallis.

(** A row of [design_matrix]: the group id and the observed value. *)
Definition row : Type := (Q * Q)%type.

(** [_rank]: the design matrix with the ranks of its value column stacked
    on as a third column. *)
Definition _rank (design_matrix : list row) : list (row * Q) :=
  let ranks := rankdata (map snd design_matrix) in
  combine design_matrix ranks.

End KruskalWallis.

Module MannWhitney.

(** The attributes set by [__init__] up to [meanrank]; [sigma], [z_value],
    [p_value] and [effect_size] go through [np.sqrt] and [norm.cdf] and are
    not part of the rational model. *)
Record t : Type := {
  y1 : list Q;
  y2 : list Q;
  n1 : Z;
  n2 : Z;
  n : Z;
  continuity : bool;
  _ranks : list Q;
  u_statistic : Q;
  meanrank : Q
}.

Definition _rank (y1 y2 : list Q) (n1 : Z) : list Q :=
  let ranks := y1 ++ y2 in
  let ranks := rankdata ranks in
  let ranks := firstn (Z.to_nat n1) ranks in
  ranks.

Definition u (n1 n2 : Z) (_ranks : list Q) : Q :=
  let u1 := inject_Z (n1 * n2) + inject_Z (n1 * (n1 + 1)) / 2 - np_sum _ranks in
  let u2 := inject_Z (n1 * n2) - u1 in
  let u := Qmin u1 u2 in
  u.

Definition mu (n1 n2 : Z) (continuity : bool) : Q :=
  let mu_rank :=
    inject_Z (n1 * n2) / 2 + (1 # 2) * (if continuity then 1 else 0) in
  mu_rank.

(** [__init__(y1, y2, group=None, continuity)].  With [y2] left at [None]
    the call [len(self.y2)] raises.  The [group] path, which splits [y1]
    with numpy_indexed, is not modelled. *)
Definition __init__ (y1 : list Q) (y2 : option (list Q)) (continuity : bool)
  : result t :=
  match y2 with
  | None => Raise TypeError
  | Some y2 =>
      let n1 := Z.of_nat (length y1) in
      let n2 := Z.of_nat (length y2) in
      let n := (n1 + n2)%Z in
      let _ranks := _rank y1 y2 n1 in
      let u_statistic := u n1 n2 _ranks in
      let meanrank := mu n1 n2 continuity in
      Ok {| y1 := y1; y2 := y2; n1 := n1; n2 := n2; n := n;
            continuity := continuity; _ranks := _ranks;
            u_statistic := u_statistic; meanrank := meanrank |}
  end.

End MannWhitney.

Module WilcoxonTest.

(** The attributes set by [__init__] up to [V]; [z], [p] and [effect_size]
    go through [np.sqrt] and [norm.cdf] and are not part of the rational
    model. *)
Record t : Type := {
  paired : bool;
  median : Q;
  y1 : list Q;
  n : Z;
  V : Q
}.

Definition v_statistic (paired : bool) (median : Q) (y1 : list Q) : Q :=
  let y_median_signed :=
    if paired then y1 else map (fun y => y - median) y1 in
  let y_median_unsigned := map Qabs y_median_signed in
  let ranks_signed := rankdata y_median_signed in
  let ranks_unsigned := rankdata y_median_unsigned in
  let z := map (fun r => if Qltb 0 r then 1 else 0) ranks_signed in
  let v := np_sum (np_multiply ranks_unsigned z) in
  v.

Definition __init__ (y1 : list Q) (y2 : option (list Q)) (paired : bool)
           (mu : Q) : result t :=
  y1' <- (if paired then
            match y2 with
            | None => Raise (ValueError "sample 2 is missing for paired test")
            | Some y2 =>
                _ <- raise_if (negb (length y1 =? length y2)%nat)
                       (ValueError "samples must have same length for paired test") ;;
                Ok (np_subtract y1 y2)
            end
          else Ok y1) ;;
  let n := Z.of_nat (length y1') in
  let V := v_statistic paired mu y1' in
  Ok {| paired := paired; median := mu; y1 := y1'; n := n; V := V |}.

End WilcoxonTest.

(** What the two entry points return: one of the two test objects. *)
Inductive test_result : Type :=
| WilcoxonResult (w : WilcoxonTest.t)
| MannWhitneyResult (m : MannWhitney.t).

(** [mann_whitney(y1, y2, group=None, continuity)]: without a second sample
    the call is handed to [WilcoxonTest(y1=y1)]. *)
Definition mann_whitney (y1 : list Q) (y2 : option (list Q)) (continuity : bool)
  : result test_result :=
  match y2 with
  | None =>
      res <- WilcoxonTest.__init__ y1 None false 0 ;;
      Ok (WilcoxonResult res)
  | Some _ =>
      res <- MannWhitney.__init__ y1 y2 continuity ;;
      Ok (MannWhitneyResult res)
  end.

(** [wilcoxon_test(y1, y2, paired, mu)]: two samples that are not paired are
    handed to [MannWhitney(y1=y1, y2=y2)], with its default continuity
    correction. *)
Definition wilcoxon_test (y1 : list Q) (y2 : option (list Q)) (paired : bool)
           (mu : Q) : result test_result :=
  match y2, paired with
  | Some _, false =>
      res <- MannWhitney.__init__ y1 y2 true ;;
      Ok (MannWhitneyResult res)
  | _, _ =>
      res <- WilcoxonTest.__init__ y1 y2 paired mu ;;
      Ok (WilcoxonResult res)
  end.

(* ================================================================== *)
(** * hypy/nonparametric.py (legacy variants) *)

Module Hypy.

Module MannWhitney.

Definition _u (n1 n2 : Z) (_ranks : list Q) : Q :=
  let u1 := inject_Z (n1 * n2) + inject_Z (n1 * (n1 + 1)) / 2 - np_sum _ranks in
  let u2 := inject_Z (n1 * n2) - u1 in
  let u := Qmin u1 u2 in
  u.

End MannWhitney.

Module WilcoxonTest.

Definition _one_sample_test (y1 : list Q) (mu : Q) : Q :=
  let y_mu_signed := map (fun y => y - mu) y1 in
  let y_mu_unsigned := map Qabs y_mu_signed in
  let ranks_signed := rankdata y_mu_signed in
  let ranks_unsigned := rankdata y_mu_unsigned in
  let z := map (fun r => if Qltb 0 r then 1 else 0) ranks_signed in
  let v := np_sum (np_multiply ranks_unsigned z) in
  v.

End WilcoxonTest.

End Hypy.

(* ================================================================== *)
(** * hypothetical/hypothesis.py *)

Definition str_in (s : string) (options : list string) : bool :=
  existsb (String.eqb s) options.

(** [np.arange(lo, hi)] on integers. *)
Definition np_arange (lo hi : Z) : list Z :=
  map (fun i => (lo + Z.of_nat i)%Z) (seq 0 (Z.to_nat (hi - lo))).

Module ChiSquareTest.

(** [np.array(observed)]: [int64] when every entry is a Python int,
    [float64] as soon as one of them is a float. *)
Inductive ndarray : Type :=
| IntArray (a : list Z)
| FloatArray (a : list (float Q)).

Definition shape0 (a : ndarray) : Z :=
  match a with
  | IntArray l => Z.of_nat (length l)
  | FloatArray l => Z.of_nat (length l)
  end.

Definition astype_float (a : ndarray) : list (float Q) :=
  match a with
  | IntArray l => map of_int l
  | FloatArray l => l
  end.

(** [np.mean]: a float whatever the dtype, [nan] for an empty array. *)
Definition np_mean (a : ndarray) : float Q :=
  fdiv (fsum (astype_float a)) (of_int (shape0 a)).

(** The C cast from [double] to [int64]: truncation toward zero; what a
    non-finite value or one outside the int64 range gives is left to the
    platform, [INT64_MIN] on the usual ones.  (The value cast is the exact
    one: the rounding of a mean beyond [2^53] to a double is not
    modelled.) *)
Definition to_int64 (v : float Q) : Z :=
  match v with
  | Fin q =>
      let z := Z.quot (Qnum q) (Zpos (Qden q)) in
      if ((- 2 ^ 63 <=? z) && (z <? 2 ^ 63))%Z then z else (- 2 ^ 63)%Z
  | _ => (- 2 ^ 63)%Z
  end.

(** [np.full_like(a, fill_value)]: the shape and the dtype of [a]. *)
Definition np_full_like (a : ndarray) (fill_value : float Q) : ndarray :=
  match a with
  | IntArray l => IntArray (map (fun _ => to_int64 fill_value) l)
  | FloatArray l => FloatArray (map (fun _ => fill_value) l)
  end.

(** The attributes set by [__init__]; [p_value] is
    [chi2.cdf(chi_square, degrees_of_freedom)], a scipy call on two of
    them, and is left out. *)
Record t : Type := {
  observed : ndarray;
  expected : ndarray;
  degrees_of_freedom : Z;
  continuity_correction : bool;
  n : Z;
  chi_square : float Q
}.

Fixpoint cells (continuity : bool) (obs exp : list (float Q)) : list (float Q) :=
  match obs, exp with
  | o :: obs', e :: exp' =>
      fdiv (fpow (fsub (fabs (fsub o e))
                       (fmul (Fin (1 # 2)) (of_int (if continuity then 1 else 0))))
                 2)
           e
      :: cells continuity obs' exp'
  | _, _ => []
  end.

Definition _chisquare_value (observed expected : ndarray) (continuity : bool)
  : float Q :=
  let x2 := fsum (cells continuity (astype_float observed) (astype_float expected)) in
  x2.

Definition __init__ (observed : ndarray) (expected : option ndarray)
           (continuity : bool) (degrees_freedom : Z) : result t :=
  expected <-
    match expected with
    | None =>
        let obs_mean := np_mean observed in
        Ok (np_full_like observed obs_mean)
    | Some expected =>
        _ <- raise_if (negb (shape0 observed =? shape0 expected)%Z)
               (ValueError "number of observations must be of the same length as expected values.") ;;
        Ok expected
    end ;;
  let n := shape0 observed in
  let chi_square := _chisquare_value observed expected continuity in
  Ok {| observed := observed; expected := expected;
        degrees_of_freedom := degrees_freedom;
        continuity_correction := continuity;
        n := n; chi_square := chi_square |}.

End ChiSquareTest.

(** [scipy.special.comb(N, k)] as a float: the binomial coefficient, [0]
    outside [0 <= k <= N]. *)
Fixpoint choose (n k : nat) : Z :=
  match n, k with
  | _, O => 1
  | O, S _ => 0
  | S n', S k' => choose n' k' + choose n' (S k')
  end%Z.

Definition comb (N k : Z) : float R :=
  if ((0 <=? k) && (k <=? N))%Z
  then of_int (choose (Z.to_nat N) (Z.to_nat k))
  else of_int 0.

Module BinomialTest.

Record interval : Type := {
  probability_of_success : float R;
  lower_bound : float R;
  upper_bound : float R
}.

Record arcsine_interval : Type := {
  arcsine_bounds : interval;
  probability_variance : float R
}.

Record t : Type := {
  n : Z;
  x : Z;
  p : float R;
  q : float R;
  alpha : float R;
  alternative : string;
  continuity : bool;
  p_value : float R;
  z : float R;
  clopper_pearson_interval : interval;
  wilson_score_interval : interval;
  agresti_coull_interval : interval;
  arcsine_transform_interval : arcsine_interval
}.

(** One term [comb(n, k) * p ** k * q ** (n - k)] of the arrays built in
    [_p_value]. *)
Definition term (n : Z) (p q : float R) (k : Z) : float R :=
  fmul (fmul (comb n k) (fpow p k)) (fpow q (n - k)).

(** [_p_value].  The powers under the array sums are numpy's and never
    raise; the two powers of the scalar [y] are Python's [float ** int] and
    can.  The terms are exact reals here, while the code compares rounded
    doubles in the mask [p_othertail <= y]: where two terms are equal or
    nearly so (as [n = 9], [x = 0], [p = 0.1]) the mask of the code and this
    one can select different terms, and the code's terms overflow for large
    [n].  Only whether the call returns or raises is relied on below. *)
Definition _p_value (n x : Z) (p q : float R) (alternative : string)
  : result (float R) :=
  let successes := np_arange 0 (x + 1) in
  let pval := fsum (map (term n p q) successes) in
  if (alternative =? "two-sided")%string then
    let other_tail := np_arange (x + 1) (n + 1) in
    px <- py_pow p x ;;
    qx <- py_pow q (n - x) ;;
    let y := fmul (fmul (comb n x) px) qx in
    let p_othertail := map (term n p q) other_tail in
    let p_othertail := fsum (filter (fun v => fle v y) p_othertail) in
    Ok (fadd pval p_othertail)
  else Ok pval.

Section Scipy.
(** [scipy.stats.norm.ppf], [scipy.stats.beta.ppf], [np.sin] and
    [np.arcsin]. *)
Variable norm_ppf : float R -> float R.
Variable beta_ppf : float R -> float R -> float R -> float R.
Variables np_sin np_arcsin : float R -> float R.

Definition _clopper_pearson_interval (n x : Z) (alpha : float R)
  : result interval :=
  p <- py_truediv (of_int x) (of_int n) ;;
  let lower_bound :=
    beta_ppf (fdiv alpha (of_int 2)) (of_int x) (of_int (n - x + 1)) in
  let upper_bound :=
    beta_ppf (fsub (of_int 1) (fdiv alpha (of_int 2)))
             (of_int (x + 1)) (of_int (n - x)) in
  Ok {| probability_of_success := p;
        lower_bound := lower_bound; upper_bound := upper_bound |}.

(** The argument of the square root in the continuity-corrected
    branch. *)
Definition radicand (n : Z) (p q z : float R) (inv_n : float R) : float R :=
  fadd (fadd (fadd (fsub (fpow z 2) inv_n)
                   (fmul (fmul (fmul (of_int 4) (of_int n)) p) q))
             (fsub (fmul (of_int 4) p) (of_int 2)))
       (of_int 1).

(** [_wilson_score_interval].  Only the branch with the continuity
    correction clips, and [np.minimum] and [np.maximum] let a [nan]
    through.  The bounds are exact reals here; the bounds of the other
    branch, which the code does not clip, can leave [0, 1] by a rounding
    error at [p = 0] or [p = 1]. *)
Definition _wilson_score_interval (n : Z) (p q z : float R)
           (continuity : bool) : result interval :=
  let p' :=
    fdiv (fadd p (fdiv (fpow z 2) (fmul (of_int 2) (of_int n))))
         (fadd (of_int 1) (fdiv (fpow z 2) (of_int n))) in
  if continuity then
    inv_n <- py_truediv (of_int 1) (of_int n) ;;
    let root := np_sqrt (radicand n p q z inv_n) in
    let lower :=
      fdiv (fsub (fadd (fmul (fmul (of_int 2) (of_int n)) p) (fpow z 2))
                 (fmul z root))
           (fmul (of_int 2) (fadd (of_int n) (fpow z 2))) in
    let upper :=
      fdiv (fadd (fadd (fmul (fmul (of_int 2) (of_int n)) p) (fpow z 2))
                 (fmul z root))
           (fmul (of_int 2) (fadd (of_int n) (fpow z 2))) in
    let upper_bound := np_minimum (of_int 1) upper in
    let lower_bound := np_maximum (of_int 0) lower in
    Ok {| probability_of_success := p';
          lower_bound := lower_bound; upper_bound := upper_bound |}
  else
    pqn <- py_truediv (fmul p q) (of_int n) ;;
    let bound :=
      fmul (fdiv z (fadd (of_int 1) (fdiv (fpow z 2) (of_int n))))
           (np_sqrt (fadd pqn
                          (fdiv (fpow z 2)
                                (fmul (of_int 4) (fpow (of_int n) 2))))) in
    let upper_bound := fadd p' bound in
    let lower_bound := fsub p' bound in
    Ok {| probability_of_success := p';
          lower_bound := lower_bound; upper_bound := upper_bound |}.

Definition _agresti_coull_interval (n x : Z) (z : float R) : interval :=
  let nbar := fadd (of_int n) (fpow z 2) in
  let p := fmul (fdiv (of_int 1) nbar)
                (fadd (of_int x) (fdiv (fpow z 2) (of_int 2))) in
  let bound := fmul z (np_sqrt (fmul (fdiv p nbar) (fsub (of_int 1) p))) in
  {| probability_of_success := p;
     lower_bound := fsub p bound; upper_bound := fadd p bound |}.

Definition _arcsine_transform_interval (n : Z) (z : float R)
           (clopper_pearson_interval : interval) : result arcsine_interval :=
  let p := probability_of_success clopper_pearson_interval in
  p_var <- py_truediv (fmul p (fsub (of_int 1) p)) (of_int n) ;;
  let shift := fdiv z (fmul (of_int 2) (np_sqrt (of_int n))) in
  let lower_bound := fpow (np_sin (fsub (np_arcsin (np_sqrt p)) shift)) 2 in
  let upper_bound := fpow (np_sin (fadd (np_arcsin (np_sqrt p)) shift)) 2 in
  Ok {| arcsine_bounds :=
          {| probability_of_success := p;
             lower_bound := lower_bound; upper_bound := upper_bound |};
        probability_variance := p_var |}.

Definition __init__ (n x : Z) (p : float R) (alternative : string)
           (alpha : float R) (continuity : bool) : result t :=
  _ <- raise_if (x >? n)%Z
         (ValueError "number of successes cannot be greater than number of trials.") ;;
  _ <- raise_if (flt (of_int 1) p)
         (ValueError "expected probability of success cannot be greater than 1.") ;;
  _ <- raise_if (negb (str_in alternative ["two-sided"; "greater"; "lesser"]%string))
         (ValueError "'alternative must be one of 'two-sided' (default), 'greater', or 'lesser'.") ;;
  let q := fsub (of_int 1) p in
  p_value <- _p_value n x p q alternative ;;
  let z := norm_ppf (fsub (of_int 1) (fdiv alpha (of_int 2))) in
  clopper_pearson <- _clopper_pearson_interval n x alpha ;;
  wilson_score <- _wilson_score_interval n p q z continuity ;;
  let agresti_coull := _agresti_coull_interval n x z in
  arcsine_transform <- _arcsine_transform_interval n z clopper_pearson ;;
  Ok {| n := n; x := x; p := p; q := q; alpha := alpha;
        alternative := alternative; continuity := continuity;
        p_value := p_value; z := z;
        clopper_pearson_interval := clopper_pearson;
        wilson_score_interval := wilson_score;
        agresti_coull_interval := agresti_coull;
        arcsine_transform_interval := arcsine_transform |}.

End Scipy.

End BinomialTest.

Module tTest.

Record sample_stats : Type := {
  obs : Z;
  variance : float R;
  mean : float R
}.

(** [np.mean] and [np.var] (population variance) of a float vector; both
    are [nan] for an empty one. *)
Definition np_mean (a : list (float R)) : float R :=
  fdiv (fsum a) (of_int (Z.of_nat (length a))).

Definition np_var (a : list (float R)) : float R :=
  let arrmean := np_mean a in
  let x := map (fun v => fsub v arrmean) a in
  let x := map (fun d => fmul d d) x in
  fdiv (fsum x) (of_int (Z.of_nat (length a))).

Definition _sample_stats (sample_vector : list (float R)) : sample_stats :=
  {| obs := Z.of_nat (length sample_vector);
     variance := np_var sample_vector;
     mean := np_mean sample_vector |}.

Fixpoint subtract (a b : list (float R)) : list (float R) :=
  match a, b with
  | u :: a', v :: b' => fsub u v :: subtract a' b'
  | _, _ => []
  end.

Definition _paired (y1 y2 : list (float R)) : result (list (float R)) :=
  _ <- raise_if (negb (length y1 =? length y2)%nat)
         (ValueError "paired samples must have the same number of observations") ;;
  let x := subtract y1 y2 in
  Ok x.

(** [sample_statistics] holds the statistics of the first sample under the
    key [_y1_summary_stat_name] and, exactly when [self.y2] is not [None],
    those of the second under ['Sample 2']: the two entries are the
    arguments [stats1] and [stats2] below. *)
Definition _degrees_of_freedom (stats1 : sample_stats)
           (stats2 : option sample_stats) (var_equal : bool)
  : result (float R) :=
  let n1 := obs stats1 in
  let s1 := variance stats1 in
  let v1 := (n1 - 1)%Z in
  match stats2 with
  | Some stats2 =>
      let n2 := obs stats2 in
      let s2 := variance stats2 in
      let v2 := (n2 - 1)%Z in
      if var_equal then Ok (of_int (n1 + n2 - 2))
      else
        a <- py_truediv s1 (of_int n1) ;;
        b <- py_truediv s2 (of_int n2) ;;
        Ok (fdiv (fpow (fadd a b) 2)
                 (fadd (fdiv (fpow a 2) (of_int v1))
                       (fdiv (fpow b 2) (of_int v2))))
  | None => Ok (of_int v1)
  end.

Definition _test_statistic (stats1 : sample_stats)
           (stats2 : option sample_stats) (var_equal : bool)
           (mu : option (float R)) : result (float R) :=
  let n1 := obs stats1 in
  let s1 := variance stats1 in
  let ybar1 := mean stats1 in
  match stats2 with
  | Some stats2 =>
      let n2 := obs stats2 in
      let s2 := variance stats2 in
      let ybar2 := mean stats2 in
      if var_equal then
        pooled <- py_truediv
                    (fadd (fmul (fsub (of_int n1) (of_int 1)) s1)
                          (fmul (fsub (of_int n2) (of_int 1)) s2))
                    (fsub (of_int (n1 + n2)) (of_int 2)) ;;
        let sp := np_sqrt pooled in
        i1 <- py_truediv (of_int 1) (of_int n1) ;;
        i2 <- py_truediv (of_int 1) (of_int n2) ;;
        Ok (fdiv (fsub ybar1 ybar2) (fmul sp (np_sqrt (fadd i1 i2))))
      else
        a <- py_truediv s1 (of_int n1) ;;
        b <- py_truediv s2 (of_int n2) ;;
        Ok (fdiv (fsub ybar1 ybar2) (np_sqrt (fadd a b)))
  | None =>
      let mu := match mu with
                | None => of_int 0
                | Some mu => mu
                end in
      a <- py_truediv s1 (of_int n1) ;;
      Ok (fdiv (fsub ybar1 mu) (np_sqrt a))
  end.

Record t : Type := {
  paired : bool;
  alpha : float R;
  alternative : string;
  mu : option (float R);
  method : string;
  var_equal : bool;
  test_description : string;
  y1 : list (float R);
  y2 : option (list (float R));
  _y1_summary_stat_name : string;
  sample_statistics_y1 : sample_stats;
  sample_statistics_y2 : option sample_stats;
  parameter : float R;
  t_statistic : float R;
  p_value : float R;
  confidence_interval : float R * float R
}.

Section Scipy.
(** [scipy.stats.t.cdf] and [scipy.stats.t.ppf]. *)
Variable t_cdf : float R -> float R -> float R.
Variable t_ppf : float R -> float R -> float R.

Definition _pvalue (t_statistic parameter : float R) (alternative : string)
  : float R :=
  let p := t_cdf t_statistic parameter in
  let p := if (alternative =? "two-sided")%string then fmul p (of_int 2)
           else if (alternative =? "greater")%string then fsub (of_int 1) p
           else p in
  let p := if flt (of_int 1) p && flt p (of_int 2) then fsub (of_int 2) p
           else p in
  let p := if feq p (of_int 2) then Fin eps else p in
  p.

Definition _conf_int (stats1 : sample_stats) (stats2 : option sample_stats)
           (alpha parameter : float R) (alternative : string)
  : result (float R * float R) :=
  let xn := obs stats1 in
  let xvar := variance stats1 in
  let xbar := mean stats1 in
  bounds <-
    match stats2 with
    | Some stats2 =>
        let yn := obs stats2 in
        let yvar := variance stats2 in
        let ybar := mean stats2 in
        a <- py_truediv xvar (of_int xn) ;;
        b <- py_truediv yvar (of_int yn) ;;
        let half :=
          fmul (t_ppf (fdiv alpha (of_int 2)) parameter) (np_sqrt (fadd a b)) in
        Ok (fadd (fsub xbar ybar) half, fsub (fsub xbar ybar) half)
    | None =>
        a <- py_truediv xvar (of_int xn) ;;
        let half := fmul (Fin (196 / 100)%R) (np_sqrt a) in
        Ok (fadd xbar half, fsub xbar half)
    end ;;
  let low_interval := fst bounds in
  let high_interval := snd bounds in
  let intervals :=
    if (alternative =? "greater")%string then (PInf, high_interval)
    else if (alternative =? "less")%string then (NInf, low_interval)
    else (low_interval, high_interval) in
  Ok intervals.

(** [__init__(y1, y2, group=None, mu, var_equal, paired, alternative,
    alpha)].  The [group] path, which splits [y1] with numpy_indexed, is
    not modelled. *)
Definition __init__ (y1 : list (float R)) (y2 : option (list (float R)))
           (mu : option (float R)) (var_equal paired : bool)
           (alternative : string) (alpha : float R) : result t :=
  _ <- raise_if (negb (str_in alternative ["two-sided"; "greater"; "less"]%string))
         (ValueError "alternative must be one of 'two-sided', 'greater', or 'lesser'") ;;
  let method :=
    (if var_equal then "Student's t-test" else "Welch's t-test")%string in
  design <-
    match paired, y2 with
    | true, None =>
        Raise (ValueError "second sample is missing for paired test")
    | true, Some y2 =>
        d <- _paired y1 y2 ;;
        Ok ("Paired t-test", "Sample Difference", d, None)%string
    | false, None =>
        Ok ("One-Sample t-test", "Sample 1", y1, None)%string
    | false, Some y2 =>
        Ok ("Two-Sample " ++ method, "Sample 1", y1, Some y2)%string
    end ;;
  let '(test_description, name, y1, y2) := design in
  let stats1 := _sample_stats y1 in
  let stats2 := option_map _sample_stats y2 in
  parameter <- _degrees_of_freedom stats1 stats2 var_equal ;;
  t_statistic <- _test_statistic stats1 stats2 var_equal mu ;;
  let p_value := _pvalue t_statistic parameter alternative in
  confidence_interval <- _conf_int stats1 stats2 alpha parameter alternative ;;
  Ok {| paired := paired; alpha := alpha; alternative := alternative;
        mu := mu; method := method; var_equal := var_equal;
        test_description := test_description;
        y1 := y1; y2 := y2; _y1_summary_stat_name := name;
        sample_statistics_y1 := stats1; sample_statistics_y2 := stats2;
        parameter := parameter; t_statistic := t_statistic;
        p_value := p_value; confidence_interval := confidence_interval |}.

End Scipy.

End tTest.

(* ================================================================== *)
(** * The statements of the specification, written out *)

(** The V statistic as the specification words it: the ranks of the absolute
    differences, summed over the indices whose signed difference is
    positive. *)
Definition positive_rank_sum (signed : list Q) : Q :=
  np_sum (np_multiply (rankdata (map Qabs signed))
                      (map (fun d => if Qltb 0 d then 1 else 0) signed)).

(** [n (n + 1) / 2] *)
Definition triangular (n : nat) : Q :=
  inject_Z (Z.of_nat n * (Z.of_nat n + 1)) / 2.

(** Ascending order. *)
Inductive ascending : list Q -> Prop :=
| ascending_nil : ascending []
| ascending_cons x l : Forall (Qle x) l -> ascending l -> ascending (x :: l).

(** The number of pairs [(a, b)], [a] from [y1] and [b] from [y2], with
    [a < b]; a tie counts one half. *)
Definition pairs_below (y1 y2 : list Q) : Q :=
  np_sum (map (fun a =>
                 inject_Z (Z.of_nat (length (filter (Qltb a) y2)))
                 + (1 # 2) * inject_Z (Z.of_nat (length (filter (Qeq_bool a) y2))))
              y1).

Local Open Scope R_scope.

(** The argument of the square root in the continuity-corrected Wilson
    bounds, over the reals. *)
Definition wilson_radicand (n : Z) (p z : R) : R :=
  z * z - 1 / IZR n + 4 * IZR n * p * (1 - p) + (4 * p - 2) + 1.

(** The tail rule of the t-test: the CDF value doubled for the two-sided
    alternative, its complement for [greater]. *)
Definition tail_probability (alternative : string) (p0 : R) : R :=
  if (alternative =? "two-sided")%string then 2 * p0
  else if (alternative =? "greater")%string then 1 - p0
  else p0.

(** The wrap-around correction: a value strictly between 1 and 2 becomes 2
    minus it, the value 2 becomes machine epsilon. *)
Definition wrap_around (v : R) : R :=
  match Rlt_dec 1 v, Rlt_dec v 2 with
  | left _, left _ => 2 - v
  | _, _ => if Req_dec_T v 2 then eps else v
  end.

(** The samples the statistics of a t-test are computed from: the
    differences for a paired test, the samples as given otherwise. *)
Definition design_of (y1 : list (float R)) (y2 : option (list (float R)))
           (paired : bool) (d1 : list (float R)) (d2 : option (list (float R)))
  : Prop :=
  match paired, y2 with
  | true, Some s => length y1 = length s /\ d1 = tTest.subtract y1 s /\ d2 = None
  | true, None => False
  | false, _ => d1 = y1 /\ d2 = y2
  end.

(** No sample is empty, and a pooled test has more than two observations in
    all. *)
Definition enough_data (d1 : list (float R)) (d2 : option (list (float R)))
           (var_equal : bool) : Prop :=
  d1 <> [] /\
  match d2 with
  | None => True
  | Some s => s <> [] /\ (var_equal = true -> (length d1 + length s <> 2)%nat)
  end.

Local Close Scope R_scope.

(* ================================================================== *)
(** * Ranks *)

Section Counting.
Context {A B : Type} (r : A -> B -> bool).

Lemma list_sum_map_add (f g : A -> nat) (l : list A) :
  list_sum (map (fun x => f x + g x)%nat l)
  = (list_sum (map f l) + list_sum (map g l))%nat.
Proof. induction l as [|a l IH]; simpl; [reflexivity | rewrite IH; lia]. Qed.

Lemma list_sum_map_const (c : nat) (l : list A) :
  list_sum (map (fun _ => c) l) = (c * length l)%nat.
Proof. induction l as [|a l IH]; simpl; [lia | rewrite IH; lia]. Qed.

Lemma filter_split_length (f : A -> bool) (l : list A) :
  (length (filter f l) + length (filter (fun x => negb (f x)) l))%nat
  = length l.
Proof.
  induction l as [|a l IH]; simpl; [reflexivity|].
  destruct (f a); simpl; lia.
Qed.

Lemma count_cons_col (a : A) (l1 : list A) (l2 : list B) :
  list_sum (map (fun y => length (filter (fun x => r x y) (a :: l1))) l2)
  = (length (filter (r a) l2)
     + list_sum (map (fun y => length (filter (fun x => r x y) l1)) l2))%nat.
Proof.
  induction l2 as [|b l2 IH]; simpl; [reflexivity|].
  simpl in IH. rewrite IH. destruct (r a b); simpl; lia.
Qed.

(** The pairs related by [r] can be counted by rows or by columns. *)
Lemma double_count (l1 : list A) (l2 : list B) :
  list_sum (map (fun x => length (filter (r x) l2)) l1)
  = list_sum (map (fun y => length (filter (fun x => r x y) l1)) l2).
Proof.
  induction l1 as [|a l1 IH].
  - simpl. induction l2; simpl; auto.
  - rewrite count_cons_col. simpl. rewrite IH. reflexivity.
Qed.
End Counting.

Lemma Qhalf (x : Q) : x / 2 == x * (1 # 2).
Proof. field. Qed.

Lemma count_le_gt (a : list Q) (x : Q) :
  (count_le a x + length (filter (Qltb x) a))%nat = length a.
Proof. unfold count_le, Qltb. apply filter_split_length. Qed.

Lemma rank_counts_total (a : list Q) :
  list_sum (map (fun x => count_le a x + count_lt a x + 1)%nat a)
  = (length a * length a + length a)%nat.
Proof.
  rewrite (list_sum_map_add (fun x => count_le a x + count_lt a x)%nat
                            (fun _ => 1%nat) a).
  rewrite list_sum_map_const.
  rewrite (list_sum_map_add (count_le a) (count_lt a) a).
  assert (H : list_sum (map (count_lt a) a)
              = list_sum (map (fun x => length (filter (Qltb x) a)) a)).
  { unfold count_lt. symmetry. apply (double_count Qltb a a). }
  rewrite H, <- list_sum_map_add.
  rewrite (map_ext _ (fun _ => length a) (count_le_gt a)).
  rewrite list_sum_map_const. lia.
Qed.

Lemma np_sum_halves (f : Q -> nat) (b : list Q) :
  np_sum (map (fun x => (1 # 2) * inject_Z (Z.of_nat (f x))) b)
  == (1 # 2) * inject_Z (Z.of_nat (list_sum (map f b))).
Proof.
  induction b as [|x b IH]; simpl.
  - reflexivity.
  - rewrite IH, Nat2Z.inj_add, inject_Z_plus. ring.
Qed.

Lemma rankdata_counts (a : list Q) :
  rankdata a
  = map (fun x =>
           (1 # 2) * inject_Z (Z.of_nat (count_le a x + count_lt a x + 1))) a.
Proof.
  unfold rankdata. apply map_ext. intros x.
  rewrite !Nat2Z.inj_add. reflexivity.
Qed.

Lemma rankdata_length (a : list Q) : length (rankdata a) = length a.
Proof. unfold rankdata. apply length_map. Qed.

Lemma rankdata_sum (a : list Q) : np_sum (rankdata a) == triangular (length a).
Proof.
  unfold triangular.
  rewrite rankdata_counts, np_sum_halves, rank_counts_total.
  rewrite Nat2Z.inj_add, Nat2Z.inj_mul.
  replace (Z.of_nat (length a) * Z.of_nat (length a) + Z.of_nat (length a))%Z
    with (Z.of_nat (length a) * (Z.of_nat (length a) + 1))%Z by ring.
  field.
Qed.

(** The ranks computed for the docstring of [tie_correction]. *)
Example rankdata_docstring :
  map Qred (rankdata [417 # 100; 558 # 100; 518 # 100; 481 # 100; 417 # 100;
                      441 # 100; 531 # 100; 512 # 100; 554 # 100])
  = [3 # 2; 9; 6; 4; 3 # 2; 3; 7; 5; 8].
Proof. vm_compute. reflexivity. Qed.

(** C2. For every non-empty vector of length [n], the average-rank utility
    returns [n] ranks and their sum is [n (n + 1) / 2], however many ties the
    vector has. *)
Theorem rankdata_sum_invariant (a : list Q) :
  a <> [] ->
  length (rankdata a) = length a /\
  np_sum (rankdata a)
  == inject_Z (Z.of_nat (length a) * (Z.of_nat (length a) + 1)) / 2.
Proof.
  intros _. split.
  - apply rankdata_length.
  - apply rankdata_sum.
Qed.

Lemma rankdata_sum_invariant_witness :
  [4; 7; 7; 8] <> [] /\
  (length (rankdata [4; 7; 7; 8]) = length [4; 7; 7; 8] /\
   np_sum (rankdata [4; 7; 7; 8])
   == inject_Z (Z.of_nat (length [4; 7; 7; 8])
                * (Z.of_nat (length [4; 7; 7; 8]) + 1)) / 2).
Proof.
  split; [discriminate | apply rankdata_sum_invariant; discriminate].
Defined.

(** The rank column that [KruskalWallis._rank] stacks onto the design matrix
    has the same sum. *)
Lemma kruskal_rank_column_sum (design_matrix : list KruskalWallis.row) :
  np_sum (map snd (KruskalWallis._rank design_matrix))
  == triangular (length design_matrix).
Proof.
  unfold KruskalWallis._rank.
  assert (H : map snd (combine design_matrix (rankdata (map snd design_matrix)))
              = rankdata (map snd design_matrix)).
  { generalize (rankdata_length (map snd design_matrix)).
    rewrite length_map.
    generalize (rankdata (map snd design_matrix)).
    induction design_matrix as [|d dm IH]; intros [|r rs] Hlen;
      simpl in *; try discriminate; [reflexivity|].
    f_equal. apply IH. lia. }
  rewrite H, rankdata_sum, length_map. reflexivity.
Qed.

(* ================================================================== *)
(** * Ranks as places in sorted order *)

Lemma Qltb_lt (x y : Q) : Qltb x y = true <-> x < y.
Proof.
  unfold Qltb. rewrite negb_true_iff. split.
  - intros H. apply Qnot_le_lt. intros Hle.
    apply Qle_bool_iff in Hle. congruence.
  - intros H. destruct (Qle_bool y x) eqn:E; [|reflexivity].
    apply Qle_bool_iff in E. lra.
Qed.

(** Insertion keeps every count. *)
Lemma filter_insert_sorted (f : Q -> bool) (x : Q) (l : list Q) :
  length (filter f (insert_sorted x l)) = length (filter f (x :: l)).
Proof.
  induction l as [|y l IH]; [reflexivity|].
  simpl. destruct (Qle_bool x y); [reflexivity|].
  simpl in *. destruct (f y), (f x); simpl in *; lia.
Qed.

Lemma filter_sorted (f : Q -> bool) (a : list Q) :
  length (filter f (sorted a)) = length (filter f a).
Proof.
  induction a as [|x a IH]; [reflexivity|].
  simpl sorted. rewrite filter_insert_sorted. simpl.
  destruct (f x); simpl; rewrite IH; reflexivity.
Qed.

Lemma insert_sorted_Forall (P : Q -> Prop) (x : Q) (l : list Q) :
  P x -> Forall P l -> Forall P (insert_sorted x l).
Proof.
  intros Hx Hl. induction Hl as [|y l Hy Hl IH]; simpl.
  - constructor; [exact Hx | constructor].
  - destruct (Qle_bool x y); repeat constructor; assumption.
Qed.

Lemma insert_sorted_ascending (x : Q) (l : list Q) :
  ascending l -> ascending (insert_sorted x l).
Proof.
  intros Hl. induction Hl as [|y l Hy Hl IH]; simpl.
  - repeat constructor.
  - destruct (Qle_bool x y) eqn:E.
    + apply Qle_bool_iff in E. constructor.
      * constructor; [exact E|].
        eapply Forall_impl; [|exact Hy]. intros z Hz. simpl in Hz. lra.
      * constructor; assumption.
    + assert (Hyx : y <= x).
      { destruct (Qlt_le_dec x y) as [H|H]; [|exact H].
        assert (Qle_bool x y = true) by (apply Qle_bool_iff; lra). congruence. }
      constructor; [|exact IH].
      apply insert_sorted_Forall; assumption.
Qed.

Lemma sorted_ascending (a : list Q) : ascending (sorted a).
Proof.
  induction a as [|x a IH]; simpl; [constructor|].
  apply insert_sorted_ascending. exact IH.
Qed.

Lemma count_none (f : Q -> bool) (l : list Q) :
  Forall (fun y => f y = false) l -> length (filter f l) = 0%nat.
Proof.
  intros H. induction H as [|y l Hy Hl IH]; simpl; [reflexivity|].
  rewrite Hy. exact IH.
Qed.

(** In an ascending list the elements below [x] are the first
    [count_lt], those up to [x] the first [count_le]. *)
Lemma ascending_prefix (l : list Q) (x : Q) :
  ascending l ->
  forall i y, nth_error l i = Some y ->
    (y < x <-> (i < count_lt l x)%nat) /\ (y <= x <-> (i < count_le l x)%nat).
Proof.
  intros Hl. induction Hl as [|h l Hh Hl IH]; intros i y Hi.
  - destruct i; discriminate.
  - unfold count_lt, count_le in *. simpl filter.
    destruct (Qltb h x) eqn:Elt; destruct (Qle_bool h x) eqn:Ele;
      try apply Qltb_lt in Elt; try apply Qle_bool_iff in Ele.
    + destruct i as [|j]; simpl in Hi.
      * injection Hi as <-. simpl. split; split; intros; try lia; lra.
      * specialize (IH j y Hi). simpl. destruct IH as [IH1 IH2].
        split; [rewrite IH1 | rewrite IH2]; lia.
    + exfalso.
      assert (Qle_bool h x = true) by (apply Qle_bool_iff; lra). congruence.
    + assert (Hnlt : ~ h < x) by (intros H; apply Qltb_lt in H; congruence).
      assert (Hnone : length (filter (fun y0 => Qltb y0 x) l) = 0%nat).
      { apply count_none. eapply Forall_impl; [|exact Hh].
        intros z Hz. simpl in Hz.
        destruct (Qltb z x) eqn:E; [|reflexivity].
        apply Qltb_lt in E. lra. }
      rewrite Hnone.
      assert (Hy : h <= y).
      { destruct i as [|j]; simpl in Hi.
        - injection Hi as <-. lra.
        - apply nth_error_In in Hi. rewrite Forall_forall in Hh. auto. }
      split; [split; intros; [lra | lia]|].
      destruct i as [|j]; simpl in Hi.
      * injection Hi as <-. simpl. split; intros; [lia | lra].
      * specialize (IH j y Hi). simpl. destruct IH as [_ IH2].
        rewrite IH2. lia.
    + assert (Hxh : x < h).
      { destruct (Qlt_le_dec x h) as [H|H]; [exact H|].
        assert (Qle_bool h x = true) by (apply Qle_bool_iff; exact H). congruence. }
      assert (Hy : h <= y).
      { destruct i as [|j]; simpl in Hi.
        - injection Hi as <-. lra.
        - apply nth_error_In in Hi. rewrite Forall_forall in Hh. auto. }
      assert (N1 : length (filter (fun y0 => Qltb y0 x) l) = 0%nat).
      { apply count_none. eapply Forall_impl; [|exact Hh].
        intros z Hz. simpl in Hz.
        destruct (Qltb z x) eqn:E; [|reflexivity].
        apply Qltb_lt in E. lra. }
      assert (N2 : length (filter (fun y0 => Qle_bool y0 x) l) = 0%nat).
      { apply count_none. eapply Forall_impl; [|exact Hh].
        intros z Hz. simpl in Hz.
        destruct (Qle_bool z x) eqn:E; [|reflexivity].
        apply Qle_bool_iff in E. lra. }
      rewrite N1, N2. split; split; intros; try lia; lra.
Qed.

(** The places (counted from 1) that the values equal to [x] occupy in
    sorted order are [count_lt a x + 1 .. count_le a x]; their mean is the
    average rank. *)
Lemma tied_places (a : list Q) (x : Q) (i : nat) (y : Q) :
  nth_error (sorted a) i = Some y ->
  (y == x <-> (count_lt a x + 1 <= i + 1 <= count_le a x)%nat).
Proof.
  intros Hi.
  destruct (ascending_prefix (sorted a) x (sorted_ascending a) i y Hi) as [H1 H2].
  unfold count_lt, count_le in *. rewrite !filter_sorted in *.
  split.
  - intros E. split.
    + assert (~ (i < length (filter (fun y0 => Qltb y0 x) a))%nat)
        by (rewrite <- H1; lra). lia.
    + assert (i < length (filter (fun y0 => Qle_bool y0 x) a))%nat
        by (apply H2; lra). lia.
  - intros [Hlo Hhi].
    assert (Hle : y <= x) by (apply H2; lia).
    assert (Hnlt : ~ y < x) by (rewrite H1; lia).
    lra.
Qed.

(* ================================================================== *)
(** * WilcoxonTest *)

Lemma rank_positive (a : list Q) (x : Q) :
  Qltb 0 ((1 # 2) * inject_Z (Z.of_nat (count_le a x) + Z.of_nat (count_lt a x) + 1))
  = true.
Proof.
  unfold Qltb. apply negb_true_iff.
  destruct (Qle_bool _ 0) eqn:E; [|reflexivity].
  apply Qle_bool_iff in E. exfalso.
  assert (H : 1 <= inject_Z (Z.of_nat (count_le a x) + Z.of_nat (count_lt a x) + 1)).
  { change 1 with (inject_Z 1). rewrite <- Zle_Qle. lia. }
  lra.
Qed.

(** [ranks_signed > 0] holds at every index: a rank is at least 1. *)
Lemma rank_indicator_all_ones (a : list Q) :
  map (fun r => if Qltb 0 r then 1 else 0) (rankdata a) = map (fun _ => 1) a.
Proof.
  unfold rankdata. rewrite map_map. apply map_ext. intros x.
  now rewrite rank_positive.
Qed.

Lemma np_multiply_ones (r s : list Q) :
  length r = length s ->
  np_sum (np_multiply r (map (fun _ => 1) s)) == np_sum r.
Proof.
  revert s. induction r as [|x r IH]; intros [|y s] Hlen;
    simpl in *; try discriminate.
  - reflexivity.
  - rewrite IH by lia. ring.
Qed.

(** Whatever the signs of the differences, [v_statistic] adds up every
    rank. *)
Lemma v_statistic_total (paired : bool) (median : Q) (y1 : list Q) :
  WilcoxonTest.v_statistic paired median y1 == triangular (length y1).
Proof.
  unfold WilcoxonTest.v_statistic.
  set (signed := if paired then y1 else map (fun y => y - median) y1).
  assert (Hlen : length signed = length y1).
  { unfold signed. destruct paired; [reflexivity | apply length_map]. }
  rewrite rank_indicator_all_ones.
  rewrite np_multiply_ones by (rewrite rankdata_length, length_map; reflexivity).
  rewrite rankdata_sum, length_map, Hlen. reflexivity.
Qed.

(** C1. On [y1 = [-1, 2, -3]] with [mu = 0] the only positive difference is
    the 2, of rank 2, so the V statistic of the specification is 2; the
    constructor returns 6, the sum of all three ranks, and so does the legacy
    [_one_sample_test]. *)
Theorem v_statistic_ignores_sign :
  exists w,
    WilcoxonTest.__init__ [-1; 2; -3] None false 0 = Ok w /\
    WilcoxonTest.V w == 6 /\
    Hypy.WilcoxonTest._one_sample_test [-1; 2; -3] 0 == 6 /\
    positive_rank_sum (map (fun y => y - 0) [-1; 2; -3]) == 2.
Proof.
  eexists. split; [reflexivity|].
  repeat split; vm_compute; reflexivity.
Qed.

(* ================================================================== *)
(** * MannWhitney *)

Lemma u_le_half (n1 n2 : Z) (ranks : list Q) :
  MannWhitney.u n1 n2 ranks <= inject_Z (n1 * n2) / 2.
Proof.
  unfold MannWhitney.u.
  set (u1 := inject_Z (n1 * n2) + inject_Z (n1 * (n1 + 1)) / 2 - np_sum ranks).
  destruct (Q.min_spec u1 (inject_Z (n1 * n2) - u1)) as [[Hlt Heq] | [Hle Heq]];
    rewrite Heq, Qhalf; lra.
Qed.

(** [_rank] ranks the two samples together and keeps the ranks of the
    first; the ranks of the combined sample add up to [n (n + 1) / 2] with
    [n = n1 + n2]. *)
Lemma mann_whitney_combined_ranks (y1 y2 : list Q) :
  MannWhitney._rank y1 y2 (Z.of_nat (length y1))
  = firstn (length y1) (rankdata (y1 ++ y2)) /\
  np_sum (rankdata (y1 ++ y2)) == triangular (length y1 + length y2).
Proof.
  split.
  - unfold MannWhitney._rank. rewrite Nat2Z.id. reflexivity.
  - rewrite rankdata_sum, length_app. reflexivity.
Qed.

(** The docstring example of [mann_whitney]: U = 10.0, mean rank 13.0. *)
Example mann_whitney_docstring :
  exists mw,
    MannWhitney.__init__
      (map inject_Z [139750; 173200; 79750; 11500; 141500]%Z)
      (Some (map inject_Z [103450; 124750; 137000; 89565; 102580]%Z)) true
    = Ok mw /\
    MannWhitney.u_statistic mw == 10 /\ MannWhitney.meanrank mw == 13.
Proof. eexists. split; [reflexivity|]. split; vm_compute; reflexivity. Qed.

(** C10. For every pair of samples of sizes [n1] and [n2] the U statistic is
    at most [n1 * n2 / 2]; the same holds for the legacy [_u]. *)
Theorem u_statistic_upper_bound (y1 y2 : list Q) (continuity : bool) :
  exists mw,
    MannWhitney.__init__ y1 (Some y2) continuity = Ok mw /\
    MannWhitney.n1 mw = Z.of_nat (length y1) /\
    MannWhitney.n2 mw = Z.of_nat (length y2) /\
    MannWhitney.u_statistic mw
    <= inject_Z (MannWhitney.n1 mw * MannWhitney.n2 mw) / 2 /\
    Hypy.MannWhitney._u (MannWhitney.n1 mw) (MannWhitney.n2 mw)
                        (MannWhitney._ranks mw)
    <= inject_Z (MannWhitney.n1 mw * MannWhitney.n2 mw) / 2.
Proof.
  eexists. split; [reflexivity|]. simpl.
  repeat split; apply u_le_half.
Qed.

(* ================================================================== *)
(** * tie_correction *)

(** The docstring example: 0.9916666666666667. *)
Example tie_correction_docstring :
  exists c,
    tie_correction [3 # 2; 9; 6; 4; 3 # 2; 3; 7; 5; 8] = Ok (Fin c) /\
    c == 119 # 120.
Proof. eexists. split; [vm_compute; reflexivity | reflexivity]. Qed.

(** C7, as the code has it.  For a rank vector of length [N <= 1] the call
    does not fail: no tie group is left, the division is numpy's [0 / 0], and
    the value returned is [nan]. *)
Theorem tie_correction_short_vector (rank_array : list Q) :
  (length rank_array <= 1)%nat -> tie_correction rank_array = Ok NaN.
Proof.
  destruct rank_array as [|x [|y r]]; simpl; intros H; try lia.
  - reflexivity.
  - unfold tie_correction, np_unique_counts, np_unique. simpl.
    rewrite Qeq_bool_refl. reflexivity.
Qed.

Lemma tie_correction_short_vector_witness :
  (length [3 # 2] <= 1)%nat /\ tie_correction [3 # 2] = Ok NaN.
Proof.
  split; [simpl; lia | apply tie_correction_short_vector; simpl; lia].
Defined.

(** C7 as stated fails on the one-element rank vector [[1.0]]: the call
    returns, and no exception is raised. *)
Lemma tie_correction_single_rank_returns :
  (length [1] <= 1)%nat /\
  tie_correction [1] = Ok NaN /\
  forall e, tie_correction [1] <> Raise e.
Proof.
  split; [simpl; lia|]. split; [reflexivity | intros e; discriminate].
Qed.

(* ================================================================== *)
(** * ChiSquareTest *)

(** With [expected] omitted the constructor always succeeds, and the expected
    array is [np.full_like] of the observed one. *)
Lemma expected_default (observed : ChiSquareTest.ndarray) (continuity : bool)
      (degrees_freedom : Z) :
  exists c,
    ChiSquareTest.__init__ observed None continuity degrees_freedom = Ok c /\
    ChiSquareTest.expected c
    = ChiSquareTest.np_full_like observed (ChiSquareTest.np_mean observed).
Proof. eexists. split; reflexivity. Qed.

(** For float data every expected cell is the mean of the observed vector. *)
Lemma expected_default_float (a : list (float Q)) (continuity : bool)
      (degrees_freedom : Z) :
  exists c,
    ChiSquareTest.__init__ (ChiSquareTest.FloatArray a) None continuity
                           degrees_freedom = Ok c /\
    ChiSquareTest.expected c
    = ChiSquareTest.FloatArray
        (repeat (ChiSquareTest.np_mean (ChiSquareTest.FloatArray a)) (length a)).
Proof.
  eexists. split; [reflexivity|]. simpl. f_equal.
  generalize (ChiSquareTest.np_mean (ChiSquareTest.FloatArray a)). intros m.
  induction a; simpl; congruence.
Qed.

(** For integer data every expected cell is the mean cast back to an
    integer. *)
Lemma expected_default_int (a : list Z) (continuity : bool)
      (degrees_freedom : Z) :
  exists c,
    ChiSquareTest.__init__ (ChiSquareTest.IntArray a) None continuity
                           degrees_freedom = Ok c /\
    ChiSquareTest.expected c
    = ChiSquareTest.IntArray
        (repeat (ChiSquareTest.to_int64
                   (ChiSquareTest.np_mean (ChiSquareTest.IntArray a)))
                (length a)).
Proof.
  eexists. split; [reflexivity|]. simpl. f_equal.
  generalize (ChiSquareTest.to_int64
                (ChiSquareTest.np_mean (ChiSquareTest.IntArray a))).
  intros m. induction a; simpl; congruence.
Qed.

(** The statistic against a supplied expected vector:
    [(9.5^2 + 0.5^2 + 9.5^2) / 20 = 9.0375]. *)
Example chisquare_value_example :
  exists c v,
    ChiSquareTest.__init__ (ChiSquareTest.IntArray [10; 20; 30]%Z)
      (Some (ChiSquareTest.IntArray [20; 20; 20]%Z)) true 1 = Ok c /\
    ChiSquareTest.chi_square c = Fin v /\ v == 90375 # 10000.
Proof.
  eexists. eexists. split; [reflexivity|].
  split; [vm_compute; reflexivity | reflexivity].
Qed.

(** C6. [ChiSquareTest([1, 2])]: the observed array is [int64] and its mean
    is 1.5, but [np.full_like] keeps the dtype, so both expected cells are 1
    and not the mean. *)
Theorem expected_truncates_integer_mean :
  exists c m,
    ChiSquareTest.__init__ (ChiSquareTest.IntArray [1; 2]%Z) None true 1 = Ok c /\
    ChiSquareTest.np_mean (ChiSquareTest.IntArray [1; 2]%Z) = Fin m /\
    m == 3 # 2 /\
    ChiSquareTest.expected c = ChiSquareTest.IntArray [1; 1]%Z.
Proof.
  eexists. eexists. split; [reflexivity|].
  split; [vm_compute; reflexivity|]. split; reflexivity.
Qed.

(* ================================================================== *)
(** * Exceptions and floats over the reals *)

Local Open Scope R_scope.

Lemma bind_ok {A B : Type} (m : result A) (f : A -> result B) (b : B) :
  bind m f = Ok b -> exists a, m = Ok a /\ f a = Ok b.
Proof. destruct m as [a|e]; simpl; intros H; [eauto | discriminate]. Qed.

Lemma raise_if_ok (c : bool) (e : exn) (u : unit) :
  raise_if c e = Ok u -> c = false.
Proof. destruct c; simpl; [discriminate | reflexivity]. Qed.

Lemma of_int_R (k : Z) : @of_int R _ k = Fin (IZR k).
Proof. reflexivity. Qed.

Lemma fadd_fin (a b : R) : fadd (Fin a) (Fin b) = Fin (a + b).
Proof. reflexivity. Qed.

Lemma fsub_fin (a b : R) : fsub (Fin a) (Fin b) = Fin (a - b).
Proof. reflexivity. Qed.

Lemma fmul_fin (a b : R) : fmul (Fin a) (Fin b) = Fin (a * b).
Proof. reflexivity. Qed.

Lemma fpow_pos_fin (x : R) (k : positive) :
  fpow_pos (Fin x) k = Fin (x ^ Pos.to_nat k).
Proof.
  unfold fpow_pos. rewrite Pos2Nat.inj_iter.
  induction (Pos.to_nat k) as [|m IH]; simpl.
  - reflexivity.
  - rewrite IH. reflexivity.
Qed.

Lemma fpow_fin (x : R) (k : Z) :
  (0 <= k)%Z -> fpow (Fin x) k = Fin (x ^ Z.to_nat k).
Proof.
  destruct k as [|k|k]; intros H; try lia.
  - reflexivity.
  - simpl. apply fpow_pos_fin.
Qed.

Lemma fpow_2 (x : R) : fpow (Fin x) 2 = Fin (x * x).
Proof. rewrite fpow_fin by lia. simpl. f_equal. ring. Qed.

Lemma fdiv_fin (x y : R) : y <> 0 -> fdiv (Fin x) (Fin y) = Fin (x / y).
Proof.
  intros H. unfold fdiv, is_zero. simpl.
  destruct (Req_dec_T y 0); [contradiction | reflexivity].
Qed.

Lemma py_truediv_ok (a : float R) (y : R) :
  y <> 0 -> py_truediv a (Fin y) = Ok (fdiv a (Fin y)).
Proof.
  intros H. unfold py_truediv, is_zero. simpl.
  destruct (Req_dec_T y 0); [contradiction | reflexivity].
Qed.

Lemma py_truediv_fin (x y : R) :
  y <> 0 -> py_truediv (Fin x) (Fin y) = Ok (Fin (x / y)).
Proof.
  intros H. rewrite py_truediv_ok by exact H.
  rewrite fdiv_fin by exact H. reflexivity.
Qed.

Lemma py_truediv_inv (a : float R) (y : R) (v : float R) :
  py_truediv a (Fin y) = Ok v -> y <> 0.
Proof.
  unfold py_truediv, is_zero. simpl.
  destruct (Req_dec_T y 0); [discriminate | auto].
Qed.

Lemma fsum_fin (l : list R) : fsum (map Fin l) = Fin (fold_right Rplus 0 l).
Proof.
  induction l as [|a l IH]; simpl; [reflexivity | rewrite IH; reflexivity].
Qed.

Lemma fle_fin (a b : R) :
  fle (Fin a) (Fin b) = if Rle_dec a b then true else false.
Proof.
  unfold fle, flt, feq. simpl.
  destruct (Rlt_dec a b), (Req_dec_T a b), (Rle_dec a b); simpl;
    try reflexivity; lra.
Qed.

Lemma np_sqrt_fin (r : R) : 0 <= r -> np_sqrt (Fin r) = Fin (sqrt r).
Proof.
  intros H. unfold np_sqrt. destruct (Rlt_dec r 0); [lra | reflexivity].
Qed.

Lemma np_sqrt_neg (r : R) : r < 0 -> np_sqrt (Fin r) = NaN.
Proof.
  intros H. unfold np_sqrt. destruct (Rlt_dec r 0); [reflexivity | lra].
Qed.

Lemma np_maximum_fin (a b : R) : np_maximum (Fin a) (Fin b) = Fin (Rmax a b).
Proof.
  unfold np_maximum, flt. simpl. unfold Rmax.
  destruct (Rlt_dec a b), (Rle_dec a b); try reflexivity; try lra.
  f_equal. lra.
Qed.

Lemma np_minimum_fin (a b : R) : np_minimum (Fin a) (Fin b) = Fin (Rmin a b).
Proof.
  unfold np_minimum, flt. simpl. unfold Rmin.
  destruct (Rlt_dec b a), (Rle_dec a b); try reflexivity; lra.
Qed.

(** Pushes the arithmetic of finite floats into the reals. *)
Ltac fin_arith :=
  rewrite ?of_int_R;
  repeat first [rewrite fadd_fin | rewrite fsub_fin | rewrite fmul_fin
               | rewrite fpow_2].

(* ================================================================== *)
(** * BinomialTest: the p-value *)

Example choose_5_2 : choose 5 2 = 10%Z.
Proof. reflexivity. Qed.

Lemma arange_bounds (lo hi k : Z) :
  In k (np_arange lo hi) -> (lo <= k < hi)%Z.
Proof.
  unfold np_arange. rewrite in_map_iff. intros [i [<- Hi]].
  apply in_seq in Hi. lia.
Qed.

Lemma pow_unit (p : R) (k : nat) : 0 <= p <= 1 -> 0 <= p ^ k <= 1.
Proof.
  intros Hp. split.
  - apply pow_le. apply Hp.
  - rewrite <- (pow1 k). apply pow_incr. exact Hp.
Qed.

Lemma below_overflow_threshold (v : R) :
  0 <= v <= 1 -> kltb (kabs v) (kofZ overflow_threshold) = true.
Proof.
  intros Hv. simpl.
  assert (H1 : 1 < IZR overflow_threshold) by (apply IZR_lt; reflexivity).
  rewrite Rabs_right by lra.
  destruct (Rlt_dec v (IZR overflow_threshold)); [reflexivity | lra].
Qed.

(** A probability to a power that is not negative neither divides by
    zero nor overflows. *)
Lemma py_pow_unit (p : R) (k : Z) :
  0 <= p <= 1 -> (0 <= k)%Z -> py_pow (Fin p) k = Ok (fpow (Fin p) k).
Proof.
  intros Hp Hk. unfold py_pow.
  replace (k <? 0)%Z with false by (symmetry; apply Z.ltb_ge; lia).
  rewrite andb_false_r, fpow_fin by exact Hk.
  rewrite below_overflow_threshold by (apply pow_unit; exact Hp).
  reflexivity.
Qed.

(** [_p_value] returns on every input with [0 <= x <= n] and
    [0 <= p <= 1]. *)
Lemma p_value_returns (n x : Z) (p : R) (alternative : string) :
  (0 <= x <= n)%Z -> 0 <= p <= 1 ->
  exists v,
    BinomialTest._p_value n x (Fin p) (fsub (of_int 1) (Fin p)) alternative
    = Ok v.
Proof.
  intros Hx Hp. unfold BinomialTest._p_value.
  rewrite py_pow_unit by (exact Hp || lia).
  change (fsub (of_int 1) (Fin p)) with (Fin (1 + - p)).
  rewrite (py_pow_unit (1 + - p)) by (lra || lia).
  destruct (alternative =? "two-sided")%string; eexists; reflexivity.
Qed.

(* ================================================================== *)
(** * BinomialTest: the constructor *)

Lemma wilson_ok (n : Z) (p q z : float R) (continuity : bool) :
  n <> 0%Z ->
  exists w, BinomialTest._wilson_score_interval n p q z continuity = Ok w.
Proof.
  intros Hn. assert (HN : IZR n <> 0) by (apply not_0_IZR; exact Hn).
  unfold BinomialTest._wilson_score_interval. rewrite !of_int_R.
  rewrite !py_truediv_ok by exact HN.
  destruct continuity; eexists; reflexivity.
Qed.

Section BinomialInit.
Variable norm_ppf : float R -> float R.
Variable beta_ppf : float R -> float R -> float R -> float R.
Variables np_sin np_arcsin : float R -> float R.

(** What a successful construction has checked and computed. *)
Lemma binomial_init_inv (n x : Z) (p : float R) (alternative : string)
      (alpha : float R) (continuity : bool) (b : BinomialTest.t) :
  BinomialTest.__init__ norm_ppf beta_ppf np_sin np_arcsin
    n x p alternative alpha continuity = Ok b ->
  (x <= n)%Z /\ n <> 0%Z /\
  BinomialTest._p_value n x p (fsub (of_int 1) p) alternative
  = Ok (BinomialTest.p_value b) /\
  BinomialTest.z b = norm_ppf (fsub (of_int 1) (fdiv alpha (of_int 2))) /\
  BinomialTest._wilson_score_interval n p (fsub (of_int 1) p)
    (BinomialTest.z b) continuity
  = Ok (BinomialTest.wilson_score_interval b).
Proof.
  unfold BinomialTest.__init__. intros H.
  apply bind_ok in H. destruct H as (u1 & H1 & H).
  apply bind_ok in H. destruct H as (u2 & H2 & H).
  apply bind_ok in H. destruct H as (u3 & H3 & H).
  apply bind_ok in H. destruct H as (pv & Hpv & H).
  apply bind_ok in H. destruct H as (cp & Hcp & H).
  apply bind_ok in H. destruct H as (ws & Hws & H).
  apply bind_ok in H. destruct H as (at' & Hat & H).
  injection H as <-. simpl.
  apply raise_if_ok in H1. rewrite Z.gtb_ltb in H1. apply Z.ltb_ge in H1.
  unfold BinomialTest._clopper_pearson_interval in Hcp.
  apply bind_ok in Hcp. destruct Hcp as (ph & Hph & _).
  rewrite of_int_R in Hph. apply py_truediv_inv in Hph.
  repeat split; try assumption.
  intros ->. apply Hph. reflexivity.
Qed.

(** A valid input with at least one trial constructs. *)
Lemma binomial_init_succeeds (n x : Z) (p : R) (alternative : string)
      (alpha : float R) (continuity : bool) :
  (0 <= x <= n)%Z -> (1 <= n)%Z -> 0 <= p <= 1 ->
  str_in alternative ["two-sided"; "greater"; "lesser"]%string = true ->
  exists b, BinomialTest.__init__ norm_ppf beta_ppf np_sin np_arcsin
    n x (Fin p) alternative alpha continuity = Ok b.
Proof.
  intros Hx Hn Hp Halt.
  assert (HN : IZR n <> 0) by (apply not_0_IZR; lia).
  unfold BinomialTest.__init__.
  replace (x >? n)%Z with false
    by (symmetry; rewrite Z.gtb_ltb; apply Z.ltb_ge; lia).
  rewrite Halt.
  change (flt (of_int 1) (Fin p)) with (if Rlt_dec 1 p then true else false).
  destruct (Rlt_dec 1 p) as [Hgt | _]; [lra|].
  simpl raise_if. cbv beta iota delta [bind].
  destruct (p_value_returns n x p alternative Hx Hp) as [pv Hpv].
  rewrite Hpv. cbv beta iota delta [bind].
  unfold BinomialTest._clopper_pearson_interval.
  rewrite !of_int_R. rewrite py_truediv_ok by exact HN.
  cbv beta iota delta [bind].
  destruct (wilson_ok n (Fin p) (fsub (Fin 1) (Fin p))
              (norm_ppf (fsub (Fin 1) (fdiv alpha (Fin 2)))) continuity)
    as [w Hw]; [lia|].
  rewrite Hw. cbv beta iota delta [bind].
  unfold BinomialTest._arcsine_transform_interval.
  rewrite !of_int_R. rewrite py_truediv_ok by exact HN.
  eexists. reflexivity.
Qed.

(** With an empty sample the point estimate [x / n] raises. *)
Lemma binomial_init_no_trials (p : R) (alternative : string)
      (alpha : float R) (continuity : bool) :
  0 <= p <= 1 ->
  str_in alternative ["two-sided"; "greater"; "lesser"]%string = true ->
  BinomialTest.__init__ norm_ppf beta_ppf np_sin np_arcsin
    0 0 (Fin p) alternative alpha continuity = Raise ZeroDivisionError.
Proof.
  intros Hp Halt. unfold BinomialTest.__init__.
  rewrite Halt.
  change (flt (of_int 1) (Fin p)) with (if Rlt_dec 1 p then true else false).
  destruct (Rlt_dec 1 p) as [Hgt | _]; [lra|].
  simpl raise_if. cbv beta iota delta [bind].
  destruct (p_value_returns 0 0 p alternative) as [pv Hpv]; [lia | exact Hp |].
  rewrite Hpv. cbv beta iota delta [bind].
  unfold BinomialTest._clopper_pearson_interval, py_truediv, is_zero.
  simpl. destruct (Req_dec_T 0 0); [reflexivity | contradiction].
Qed.
End BinomialInit.

(* ================================================================== *)
(** * BinomialTest: the Wilson score interval *)

Lemma quotient_in_unit (a d : R) : 0 < d -> 0 <= a -> a <= d -> 0 <= a / d <= 1.
Proof.
  intros Hd Ha Had. unfold Rdiv.
  assert (Hi : 0 < / d) by (apply Rinv_0_lt_compat; exact Hd).
  assert (Hdi : d * / d = 1) by (apply Rinv_r; lra).
  split; nra.
Qed.

(** With the continuity correction, a negative radicand makes both bounds
    [nan]: [np.maximum] and [np.minimum] do not clip it away. *)
Lemma wilson_negative_radicand (n : Z) (p z : R) :
  n <> 0%Z -> wilson_radicand n p z < 0 ->
  exists w,
    BinomialTest._wilson_score_interval
      n (Fin p) (fsub (of_int 1) (Fin p)) (Fin z) true = Ok w /\
    BinomialTest.lower_bound w = NaN /\ BinomialTest.upper_bound w = NaN.
Proof.
  unfold wilson_radicand. intros Hn Hrad.
  assert (HN : IZR n <> 0) by (apply not_0_IZR; exact Hn).
  unfold BinomialTest._wilson_score_interval, BinomialTest.radicand.
  fin_arith.
  rewrite !py_truediv_fin by exact HN. unfold bind. fin_arith.
  rewrite !np_sqrt_neg by exact Hrad.
  eexists. split; [reflexivity|]. simpl. split; reflexivity.
Qed.

Section BinomialClaims.
Variable norm_ppf : float R -> float R.
Variable beta_ppf : float R -> float R -> float R -> float R.
Variables np_sin np_arcsin : float R -> float R.

(** C9. Two constructions with the same [n], [p], [alpha] and continuity
    flag have the same Wilson score interval (point estimate, lower and
    upper bound), whatever their numbers of successes. *)
Theorem wilson_interval_ignores_successes
        (n x1 x2 : Z) (p : float R) (alternative1 alternative2 : string)
        (alpha : float R) (continuity : bool) (b1 b2 : BinomialTest.t) :
  BinomialTest.__init__ norm_ppf beta_ppf np_sin np_arcsin
    n x1 p alternative1 alpha continuity = Ok b1 ->
  BinomialTest.__init__ norm_ppf beta_ppf np_sin np_arcsin
    n x2 p alternative2 alpha continuity = Ok b2 ->
  BinomialTest.wilson_score_interval b1 = BinomialTest.wilson_score_interval b2.
Proof.
  intros H1 H2.
  apply binomial_init_inv in H1. destruct H1 as (_ & _ & _ & Hz1 & Hw1).
  apply binomial_init_inv in H2. destruct H2 as (_ & _ & _ & Hz2 & Hw2).
  rewrite Hz1 in Hw1. rewrite Hz2, Hw1 in Hw2.
  injection Hw2 as Hw2. exact Hw2.
Qed.
End BinomialClaims.

Lemma wilson_interval_ignores_successes_witness :
  exists b1 b2,
    BinomialTest.__init__ (fun _ => Fin (196 / 100)) (fun _ _ _ => NaN)
      (fun a => a) (fun a => a) 10 3 (Fin (1 / 2)) "two-sided" (Fin (5 / 100)) true
    = Ok b1 /\
    BinomialTest.__init__ (fun _ => Fin (196 / 100)) (fun _ _ _ => NaN)
      (fun a => a) (fun a => a) 10 7 (Fin (1 / 2)) "two-sided" (Fin (5 / 100)) true
    = Ok b2 /\
    BinomialTest.wilson_score_interval b1 = BinomialTest.wilson_score_interval b2.
Proof.
  destruct (binomial_init_succeeds (fun _ => Fin (196 / 100)) (fun _ _ _ => NaN)
              (fun a => a) (fun a => a) 10 3 (1 / 2) "two-sided"
              (Fin (5 / 100)) true) as [b1 H1];
    [lia | lia | lra | reflexivity |].
  destruct (binomial_init_succeeds (fun _ => Fin (196 / 100)) (fun _ _ _ => NaN)
              (fun a => a) (fun a => a) 10 7 (1 / 2) "two-sided"
              (Fin (5 / 100)) true) as [b2 H2];
    [lia | lia | lra | reflexivity |].
  exists b1, b2. split; [exact H1|]. split; [exact H2|].
  eapply wilson_interval_ignores_successes; [exact H1 | exact H2].
Defined.

(** C8 fails on the code.  [BinomialTest(n=10, x=0, p=0.0, alpha=0.5)]
    with the continuity correction on is a valid construction; with
    [z = norm.ppf(0.75)], 0.6745 to four places, the radicand is
    [z^2 - 0.1 - 1 < 0], its square root is [nan], [np.maximum] and
    [np.minimum] let the [nan] through, and both bounds of the constructed
    interval are [nan], which is not within [0, 1]. *)
Lemma wilson_interval_nan_bounds :
  exists b,
    BinomialTest.__init__ (fun _ => Fin (6745 / 10000)) (fun _ _ _ => NaN)
      (fun a => a) (fun a => a) 10 0 (Fin 0) "two-sided" (Fin (1 / 2)) true
    = Ok b /\
    BinomialTest.lower_bound (BinomialTest.wilson_score_interval b) = NaN /\
    BinomialTest.upper_bound (BinomialTest.wilson_score_interval b) = NaN.
Proof.
  destruct (binomial_init_succeeds (fun _ => Fin (6745 / 10000))
              (fun _ _ _ => NaN) (fun a => a) (fun a => a) 10 0 0 "two-sided"
              (Fin (1 / 2)) true) as [b H];
    [lia | lia | lra | reflexivity |].
  exists b. split; [exact H|].
  apply binomial_init_inv in H. destruct H as (_ & _ & _ & Hz & Hw).
  rewrite Hz in Hw.
  destruct (wilson_negative_radicand 10 0 (6745 / 10000)) as (w & Hw' & Hlo & Hhi);
    [lia | unfold wilson_radicand; lra |].
  rewrite Hw in Hw'. injection Hw' as <-. split; assumption.
Qed.

(* ================================================================== *)
(** * tTest: the p-value *)

Lemma eps_bounds : 0 < eps <= 1.
Proof.
  unfold eps. split.
  - apply Rinv_0_lt_compat. apply pow_lt. lra.
  - rewrite <- Rinv_1. apply Rinv_le_contravar; [lra|].
    apply pow_R1_Rle. lra.
Qed.

Lemma wrap_around_unit (v : R) : 0 <= v <= 2 -> 0 <= wrap_around v <= 1.
Proof.
  intros Hv. pose proof eps_bounds as He. unfold wrap_around.
  destruct (Rlt_dec 1 v), (Rlt_dec v 2), (Req_dec_T v 2); lra.
Qed.

Lemma tail_probability_range (alternative : string) (p0 : R) :
  0 <= p0 <= 1 -> 0 <= tail_probability alternative p0 <= 2.
Proof.
  intros H. unfold tail_probability.
  destruct (alternative =? "two-sided")%string; [lra|].
  destruct (alternative =? "greater")%string; lra.
Qed.

Section PValue.
Variable t_cdf : float R -> float R -> float R.

Lemma pvalue_fin (t_statistic parameter : float R) (alternative : string)
      (p0 : R) :
  t_cdf t_statistic parameter = Fin p0 ->
  tTest._pvalue t_cdf t_statistic parameter alternative
  = Fin (wrap_around (tail_probability alternative p0)).
Proof.
  intros H. unfold tTest._pvalue, tail_probability. rewrite H.
  set (v := if (alternative =? "two-sided")%string then 2 * p0
            else if (alternative =? "greater")%string then 1 - p0 else p0).
  assert (E : (if (alternative =? "two-sided")%string
               then fmul (Fin p0) (of_int 2)
               else if (alternative =? "greater")%string
                    then fsub (of_int 1) (Fin p0) else Fin p0) = Fin v).
  { unfold v. destruct (alternative =? "two-sided")%string.
    - fin_arith. f_equal. ring.
    - destruct (alternative =? "greater")%string; fin_arith; reflexivity. }
  rewrite E. clearbody v. unfold wrap_around.
  rewrite !of_int_R. simpl flt.
  destruct (Rlt_dec 1 v), (Rlt_dec v 2); simpl andb; cbv iota.
  - rewrite fsub_fin. simpl feq.
    destruct (Req_dec_T (2 - v) 2); [lra | reflexivity].
  - simpl feq. destruct (Req_dec_T v 2); reflexivity.
  - simpl feq. destruct (Req_dec_T v 2); reflexivity.
  - simpl feq. destruct (Req_dec_T v 2); reflexivity.
Qed.

(** A [nan] out of the CDF goes through every branch unchanged. *)
Lemma pvalue_nan_value (t_statistic parameter : float R)
      (alternative : string) :
  t_cdf t_statistic parameter = NaN ->
  tTest._pvalue t_cdf t_statistic parameter alternative = NaN.
Proof.
  intros H. unfold tTest._pvalue. rewrite H.
  destruct (alternative =? "two-sided")%string; [reflexivity|].
  destruct (alternative =? "greater")%string; reflexivity.
Qed.

Lemma pvalue_nan (parameter : float R) (alternative : string) :
  t_cdf NaN parameter = NaN ->
  tTest._pvalue t_cdf NaN parameter alternative = NaN.
Proof.
  intros H. unfold tTest._pvalue. rewrite H.
  destruct (alternative =? "two-sided")%string; [reflexivity|].
  destruct (alternative =? "greater")%string; reflexivity.
Qed.
End PValue.

(* ================================================================== *)
(** * tTest: the constructor *)

Lemma subtract_self (ys : list R) :
  tTest.subtract (map Fin ys) (map Fin ys) = repeat (Fin 0) (length ys).
Proof.
  induction ys as [|y ys IH]; simpl; [reflexivity|].
  rewrite IH. f_equal. f_equal. ring.
Qed.

Lemma paired_self (ys : list R) :
  tTest._paired (map Fin ys) (map Fin ys) = Ok (repeat (Fin 0) (length ys)).
Proof.
  unfold tTest._paired. rewrite Nat.eqb_refl. simpl.
  rewrite subtract_self. reflexivity.
Qed.

Lemma fsum_zeros (m : nat) : fsum (repeat (Fin 0) m) = Fin 0.
Proof.
  induction m as [|m IH]; [reflexivity|].
  change (fsum (repeat (Fin 0) (S m)))
    with (fadd (Fin 0) (fsum (repeat (Fin 0) m))).
  rewrite IH, fadd_fin. f_equal. ring.
Qed.

(** A vector of zero differences has mean 0 and variance 0. *)
Lemma sample_stats_zeros (m : nat) :
  (0 < m)%nat ->
  tTest._sample_stats (repeat (Fin 0) m)
  = {| tTest.obs := Z.of_nat m; tTest.variance := Fin 0; tTest.mean := Fin 0 |}.
Proof.
  intros Hm.
  assert (HM : IZR (Z.of_nat m) <> 0) by (apply not_0_IZR; lia).
  assert (Hmean : tTest.np_mean (repeat (Fin 0) m) = Fin 0).
  { unfold tTest.np_mean. rewrite fsum_zeros, repeat_length, of_int_R.
    rewrite fdiv_fin by exact HM. f_equal. field. exact HM. }
  unfold tTest._sample_stats, tTest.np_var.
  rewrite Hmean, repeat_length. f_equal.
  rewrite !map_repeat. rewrite fsub_fin, fmul_fin.
  replace ((0 - 0) * (0 - 0)) with 0 by ring.
  rewrite fsum_zeros, of_int_R.
  rewrite fdiv_fin by exact HM. f_equal. field. exact HM.
Qed.

(** With mean 0, variance 0 and no [mu], the one-sample statistic is numpy's
    [0 / 0]. *)
Lemma statistic_of_zero_stats (m : Z) (var_equal : bool) :
  m <> 0%Z ->
  tTest._test_statistic
    {| tTest.obs := m; tTest.variance := Fin 0; tTest.mean := Fin 0 |}
    None var_equal None
  = Ok NaN.
Proof.
  intros Hm. assert (HM : IZR m <> 0) by (apply not_0_IZR; exact Hm).
  unfold tTest._test_statistic. simpl tTest.obs. simpl tTest.variance.
  simpl tTest.mean. rewrite !of_int_R.
  rewrite py_truediv_fin by exact HM. cbv beta iota delta [bind].
  replace (0 / IZR m) with 0 by (field; exact HM).
  rewrite np_sqrt_fin by lra. rewrite sqrt_0, fsub_fin.
  replace (0 - 0) with 0 by ring.
  unfold fdiv, is_zero. simpl.
  destruct (Req_dec_T 0 0); [reflexivity | contradiction].
Qed.

Section SingleSample.
Variable t_cdf : float R -> float R -> float R.
Variable t_ppf : float R -> float R -> float R.

(** With one non-empty sample no division raises. *)
Lemma single_sample_tail (stats1 : tTest.sample_stats) (var_equal : bool)
      (mu : option (float R)) (alpha : float R) (alternative : string) :
  tTest.obs stats1 <> 0%Z ->
  exists ts ci,
    tTest._degrees_of_freedom stats1 None var_equal
    = Ok (of_int (tTest.obs stats1 - 1)) /\
    tTest._test_statistic stats1 None var_equal mu = Ok ts /\
    tTest._conf_int t_ppf stats1 None alpha (of_int (tTest.obs stats1 - 1))
                    alternative = Ok ci.
Proof.
  intros Hn.
  assert (HN : IZR (tTest.obs stats1) <> 0) by (apply not_0_IZR; exact Hn).
  unfold tTest._degrees_of_freedom, tTest._test_statistic, tTest._conf_int.
  rewrite !of_int_R. rewrite !py_truediv_ok by exact HN.
  do 2 eexists. repeat split; reflexivity.
Qed.

Lemma ttest_init_inv (y1 : list (float R)) (y2 : option (list (float R)))
      (mu : option (float R)) (var_equal paired : bool)
      (alternative : string) (alpha : float R) (b : tTest.t) :
  tTest.__init__ t_cdf t_ppf y1 y2 mu var_equal paired alternative alpha
  = Ok b ->
  str_in alternative ["two-sided"; "greater"; "less"]%string = true /\
  tTest.alternative b = alternative /\
  tTest.p_value b
  = tTest._pvalue t_cdf (tTest.t_statistic b) (tTest.parameter b) alternative.
Proof.
  unfold tTest.__init__. intros H.
  apply bind_ok in H. destruct H as (u1 & H1 & H).
  apply bind_ok in H. destruct H as ([[[descr name] d1] d2] & Hd & H).
  apply bind_ok in H. destruct H as (df & Hdf & H).
  apply bind_ok in H. destruct H as (ts & Hts & H).
  apply bind_ok in H. destruct H as (ci & Hci & H).
  injection H as <-. simpl.
  apply raise_if_ok in H1. apply negb_false_iff in H1.
  repeat split. exact H1.
Qed.

Lemma init_paired_identical (ys : list R) (var_equal : bool)
      (alternative : string) (alpha : float R) :
  ys <> [] ->
  str_in alternative ["two-sided"; "greater"; "less"]%string = true ->
  exists b,
    tTest.__init__ t_cdf t_ppf (map Fin ys) (Some (map Fin ys)) None
                   var_equal true alternative alpha = Ok b /\
    tTest.sample_statistics_y1 b
    = {| tTest.obs := Z.of_nat (length ys);
         tTest.variance := Fin 0; tTest.mean := Fin 0 |} /\
    tTest.t_statistic b = NaN.
Proof.
  intros Hys Halt.
  assert (Hlen : (0 < length ys)%nat)
    by (destruct ys; [contradiction | simpl; lia]).
  unfold tTest.__init__. rewrite Halt. simpl raise_if.
  cbv beta iota delta [bind]. rewrite paired_self.
  cbv beta iota. rewrite sample_stats_zeros by exact Hlen.
  simpl option_map.
  destruct (single_sample_tail
              {| tTest.obs := Z.of_nat (length ys);
                 tTest.variance := Fin 0; tTest.mean := Fin 0 |}
              var_equal None alpha alternative)
    as (ts & ci & Hdf & Hts & Hci); [simpl; lia|].
  simpl tTest.obs in *.
  rewrite Hdf. rewrite statistic_of_zero_stats by lia.
  rewrite Hci. eexists. split; [reflexivity|]. simpl. split; reflexivity.
Qed.

Lemma init_one_sample (y1 : list (float R)) (mu : option (float R))
      (var_equal : bool) (alternative : string) (alpha : float R) :
  y1 <> [] ->
  str_in alternative ["two-sided"; "greater"; "less"]%string = true ->
  exists b,
    tTest.__init__ t_cdf t_ppf y1 None mu var_equal false alternative alpha
    = Ok b.
Proof.
  intros Hy Halt.
  assert (Hlen : (0 < length y1)%nat)
    by (destruct y1; [contradiction | simpl; lia]).
  unfold tTest.__init__. rewrite Halt. simpl raise_if.
  cbv beta iota delta [bind]. simpl option_map.
  destruct (single_sample_tail (tTest._sample_stats y1) var_equal mu alpha
                               alternative)
    as (ts & ci & Hdf & Hts & Hci); [simpl; lia|].
  rewrite Hdf, Hts, Hci. eexists. reflexivity.
Qed.

(** C4, as the code has it.  In every construction the p-value is computed
    from the CDF value at the statistic and the degrees of freedom.  When
    that value is a number [p0], it is doubled for [two-sided] and replaced
    by [1 - p0] for [greater], then wrapped: a value strictly between 1 and
    2 becomes 2 minus it and the value 2 becomes machine epsilon; for [p0]
    in [0, 1] the result lies in [0, 1].  When the CDF value is [nan], as it
    is at a [nan] statistic, the p-value is [nan]. *)
Theorem pvalue_tail_rule (y1 : list (float R)) (y2 : option (list (float R)))
        (mu : option (float R)) (var_equal paired : bool)
        (alternative : string) (alpha : float R) (b : tTest.t) :
  tTest.__init__ t_cdf t_ppf y1 y2 mu var_equal paired alternative alpha
  = Ok b ->
  (forall p0,
     t_cdf (tTest.t_statistic b) (tTest.parameter b) = Fin p0 ->
     tTest.p_value b = Fin (wrap_around (tail_probability alternative p0)) /\
     (0 <= p0 <= 1 ->
      0 <= wrap_around (tail_probability alternative p0) <= 1)) /\
  (t_cdf (tTest.t_statistic b) (tTest.parameter b) = NaN ->
   tTest.p_value b = NaN).
Proof.
  intros H.
  apply ttest_init_inv in H. destruct H as (_ & _ & Hp).
  split.
  - intros p0 Hcdf. split.
    + rewrite Hp. apply pvalue_fin. exact Hcdf.
    + intros Hp0. apply wrap_around_unit, tail_probability_range. exact Hp0.
  - intros Hcdf. rewrite Hp. apply pvalue_nan_value. exact Hcdf.
Qed.

(** C5, as the code has it.  A paired test of a non-empty vector against
    itself constructs; every difference is zero, so are the mean and the
    variance, and the statistic is numpy's [0 / 0], [nan]; with a CDF that
    returns [nan] at [nan] the p-value is [nan] as well. *)
Theorem paired_identical_vectors (y : list R) (var_equal : bool)
        (alternative : string) (alpha : float R) :
  y <> [] ->
  str_in alternative ["two-sided"; "greater"; "less"]%string = true ->
  (forall parameter, t_cdf NaN parameter = NaN) ->
  exists b,
    tTest.__init__ t_cdf t_ppf (map Fin y) (Some (map Fin y)) None
                   var_equal true alternative alpha = Ok b /\
    tTest.mean (tTest.sample_statistics_y1 b) = Fin 0 /\
    tTest.variance (tTest.sample_statistics_y1 b) = Fin 0 /\
    tTest.t_statistic b = NaN /\
    tTest.p_value b = NaN.
Proof.
  intros Hy Halt Hcdf.
  destruct (init_paired_identical y var_equal alternative alpha Hy Halt)
    as (b & Hb & Hstats & Hts).
  exists b. split; [exact Hb|].
  rewrite Hstats. simpl. repeat split; try exact Hts.
  apply ttest_init_inv in Hb. destruct Hb as (_ & _ & Hp).
  rewrite Hp, Hts. apply pvalue_nan. apply Hcdf.
Qed.
End SingleSample.

Lemma pvalue_tail_rule_witness :
  exists b,
    tTest.__init__ (fun _ _ => Fin (3 / 4)) (fun _ _ => NaN)
      [Fin 1; Fin 3] None None false false "two-sided" (Fin (5 / 100)) = Ok b /\
    (forall p0,
       (fun _ _ : float R => Fin (3 / 4)) (tTest.t_statistic b) (tTest.parameter b)
       = Fin p0 ->
       tTest.p_value b = Fin (wrap_around (tail_probability "two-sided" p0)) /\
       (0 <= p0 <= 1 ->
        0 <= wrap_around (tail_probability "two-sided" p0) <= 1)) /\
    ((fun _ _ : float R => Fin (3 / 4)) (tTest.t_statistic b) (tTest.parameter b)
     = NaN ->
     tTest.p_value b = NaN).
Proof.
  destruct (init_one_sample (fun _ _ => Fin (3 / 4)) (fun _ _ => NaN)
              [Fin 1; Fin 3] None false "two-sided" (Fin (5 / 100)))
    as [b Hb]; [discriminate | reflexivity |].
  exists b. split; [exact Hb|].
  exact (pvalue_tail_rule (fun _ _ => Fin (3 / 4)) (fun _ _ => NaN)
           [Fin 1; Fin 3] None None false false "two-sided" (Fin (5 / 100))
           b Hb).
Defined.

(** C4 as stated fails for [tTest(y1=[1.0, 2.0], y2=[1.0, 2.0],
    paired=True)]: the object is constructed, the statistic is [nan], the
    CDF at [nan] is [nan], and the p-value is [nan], which is no number in
    [0, 1].  The CDF stands in for [scipy.stats.t.cdf] with [nan] at a
    [nan] statistic and one half elsewhere. *)
Lemma pvalue_nan_not_in_unit :
  exists b,
    tTest.__init__
      (fun t _ => match t with NaN => NaN | _ => Fin (1 / 2) end)
      (fun _ _ => NaN)
      (map Fin [1; 2]) (Some (map Fin [1; 2])) None false true "two-sided"
      (Fin (5 / 100)) = Ok b /\
    tTest.p_value b = NaN /\
    ~ (exists v, tTest.p_value b = Fin v /\ 0 <= v <= 1).
Proof.
  destruct (init_paired_identical
              (fun t _ => match t with NaN => NaN | _ => Fin (1 / 2) end)
              (fun _ _ => NaN) [1; 2] false "two-sided" (Fin (5 / 100)))
    as (b & Hb & _ & Hts); [discriminate | reflexivity |].
  exists b. split; [exact Hb|].
  apply ttest_init_inv in Hb. destruct Hb as (_ & _ & Hp).
  assert (Hnan : tTest.p_value b = NaN).
  { rewrite Hp, Hts. apply pvalue_nan. reflexivity. }
  split; [exact Hnan|].
  intros (v & Hv & _). rewrite Hnan in Hv. discriminate.
Qed.

(** The wrap at work: a CDF value of 0.75 doubles to 1.5 and is reported as
    0.5. *)
Example wrap_around_example :
  wrap_around (tail_probability "two-sided" (3 / 4)) = 1 / 2.
Proof.
  unfold wrap_around, tail_probability. simpl.
  destruct (Rlt_dec 1 (2 * (3 / 4))), (Rlt_dec (2 * (3 / 4)) 2); lra.
Qed.

(** [test_one_sample_test] expects the p-value 2.220446049250313e-16: the
    CDF value there is 1.0, its double is exactly 2.0, and the guard returns
    machine epsilon. *)
Example wrap_around_at_two :
  wrap_around (tail_probability "two-sided" 1) = / 2 ^ 52.
Proof.
  unfold wrap_around, tail_probability. simpl.
  destruct (Rlt_dec 1 (2 * 1)), (Rlt_dec (2 * 1) 2),
    (Req_dec_T (2 * 1) 2); try lra; reflexivity.
Qed.

Lemma paired_identical_vectors_witness :
  ([1; 2] <> [] /\
   str_in "two-sided" ["two-sided"; "greater"; "less"]%string = true /\
   (forall parameter, (fun t _ : float R => t) NaN parameter = NaN)) /\
  exists b,
    tTest.__init__ (fun t _ => t) (fun _ _ => NaN)
      (map Fin [1; 2]) (Some (map Fin [1; 2])) None false true "two-sided"
      (Fin (5 / 100)) = Ok b /\
    tTest.mean (tTest.sample_statistics_y1 b) = Fin 0 /\
    tTest.variance (tTest.sample_statistics_y1 b) = Fin 0 /\
    tTest.t_statistic b = NaN /\
    tTest.p_value b = NaN.
Proof.
  assert (Hy : [1; 2] <> (@nil R)) by discriminate.
  assert (Ha : str_in "two-sided" ["two-sided"; "greater"; "less"]%string = true)
    by reflexivity.
  assert (Hc : forall parameter, (fun t _ : float R => t) NaN parameter = NaN)
    by (intros; reflexivity).
  split; [split; [exact Hy | split; [exact Ha | exact Hc]]|].
  exact (paired_identical_vectors (fun t _ => t) (fun _ _ => NaN)
           [1; 2] false "two-sided" (Fin (5 / 100)) Hy Ha Hc).
Defined.

(** C5 as stated fails on [y = [1.0, 2.0]]: the paired differences are
    [[0, 0]] and the statistic computed from them is [nan], not 0. *)
Lemma paired_identical_statistic_is_nan :
  exists d,
    tTest._paired [Fin 1; Fin 2] [Fin 1; Fin 2] = Ok d /\
    tTest._test_statistic (tTest._sample_stats d) None false None = Ok NaN /\
    Ok NaN <> Ok (Fin 0) :> result (float R).
Proof.
  exists (repeat (Fin 0) 2). split; [exact (paired_self [1; 2])|]. split.
  - rewrite sample_stats_zeros by lia. apply statistic_of_zero_stats. lia.
  - discriminate.
Qed.

Local Close Scope R_scope.

(* ================================================================== *)
(** * MannWhitney: U as a count of pairs *)

Lemma np_sum_ext (f g : Q -> Q) (l : list Q) :
  (forall x, f x == g x) -> np_sum (map f l) == np_sum (map g l).
Proof.
  intros H. induction l as [|a l IH]; simpl; [reflexivity|].
  rewrite IH, H. reflexivity.
Qed.

Lemma np_sum_map_plus (f g : Q -> Q) (l : list Q) :
  np_sum (map (fun x => f x + g x) l) == np_sum (map f l) + np_sum (map g l).
Proof.
  induction l as [|a l IH]; simpl; [reflexivity|]. rewrite IH. ring.
Qed.

Lemma np_sum_map_const (c : Q) (l : list Q) :
  np_sum (map (fun _ => c) l) == inject_Z (Z.of_nat (length l)) * c.
Proof.
  induction l as [|a l IH]; [simpl; ring|].
  cbn [map np_sum fold_right length]. fold (np_sum (map (fun _ => c) l)).
  rewrite IH, Nat2Z.inj_succ. unfold Z.succ. rewrite inject_Z_plus. ring.
Qed.

(** Every element of [l] is below [x], equal to it or above it. *)
Lemma count_trichotomy (l : list Q) (x : Q) :
  (count_lt l x + length (filter (Qeq_bool x) l) + length (filter (Qltb x) l))%nat
  = length l.
Proof.
  unfold count_lt. induction l as [|y l IH]; simpl; [reflexivity|].
  destruct (Qltb y x) eqn:E1, (Qeq_bool x y) eqn:E2, (Qltb x y) eqn:E3;
    simpl; try lia; exfalso;
    try apply Qltb_lt in E1; try apply Qltb_lt in E3;
    try apply Qeq_bool_iff in E2; try lra.
  assert (H1 : ~ y < x) by (intros H; apply Qltb_lt in H; congruence).
  assert (H3 : ~ x < y) by (intros H; apply Qltb_lt in H; congruence).
  assert (H2 : ~ x == y) by (intros H; apply Qeq_bool_iff in H; congruence).
  apply H2. lra.
Qed.

Lemma count_le_split (l : list Q) (x : Q) :
  count_le l x = (count_lt l x + length (filter (Qeq_bool x) l))%nat.
Proof.
  pose proof (count_trichotomy l x). pose proof (count_le_gt l x). lia.
Qed.

Lemma count_le_app (a b : list Q) (x : Q) :
  count_le (a ++ b) x = (count_le a x + count_le b x)%nat.
Proof. unfold count_le. rewrite filter_app, length_app. reflexivity. Qed.

Lemma count_lt_app (a b : list Q) (x : Q) :
  count_lt (a ++ b) x = (count_lt a x + count_lt b x)%nat.
Proof. unfold count_lt. rewrite filter_app, length_app. reflexivity. Qed.

(** The ranks kept by [_rank] are those of the first sample within the
    combined one. *)
Lemma rank_first_sample (y1 y2 : list Q) :
  MannWhitney._rank y1 y2 (Z.of_nat (length y1))
  = map (fun x => (1 # 2) * inject_Z (Z.of_nat (count_le (y1 ++ y2) x)
                                    + Z.of_nat (count_lt (y1 ++ y2) x) + 1)) y1.
Proof.
  unfold MannWhitney._rank, rankdata. rewrite Nat2Z.id, map_app.
  rewrite firstn_app, length_map, Nat.sub_diag. simpl firstn at 2.
  rewrite app_nil_r. apply firstn_all2. rewrite length_map. lia.
Qed.

(** The rank sum of the first sample: [n1 (n1 + 1) / 2] from the ranks
    within the sample, plus one for every observation of the second sample
    below and one half for every tie. *)
Lemma first_sample_rank_sum (y1 y2 : list Q) :
  np_sum (MannWhitney._rank y1 y2 (Z.of_nat (length y1)))
  == triangular (length y1)
     + inject_Z (Z.of_nat (length y1) * Z.of_nat (length y2))
     - pairs_below y1 y2.
Proof.
  rewrite rank_first_sample.
  rewrite (np_sum_ext _
             (fun x => (1 # 2) * inject_Z (Z.of_nat (count_le y1 x)
                                           + Z.of_nat (count_lt y1 x) + 1)
                       + (inject_Z (Z.of_nat (length y2))
                          + - (inject_Z (Z.of_nat (length (filter (Qltb x) y2)))
                               + (1 # 2) * inject_Z (Z.of_nat (length (filter (Qeq_bool x) y2))))))).
  - rewrite np_sum_map_plus. fold (rankdata y1). rewrite rankdata_sum.
    rewrite np_sum_map_plus, np_sum_map_const.
    unfold pairs_below.
    assert (E : forall (f : Q -> Q) l, np_sum (map (fun x => - f x) l) == - np_sum (map f l)).
    { intros f l. induction l as [|a l IH]; simpl; [ring | rewrite IH; ring]. }
    rewrite (E (fun x => inject_Z (Z.of_nat (length (filter (Qltb x) y2)))
                         + (1 # 2) * inject_Z (Z.of_nat (length (filter (Qeq_bool x) y2))))).
    rewrite inject_Z_mult. ring.
  - intros x. rewrite count_le_app, count_lt_app.
    pose proof (count_trichotomy y2 x) as Ht.
    pose proof (count_le_split y2 x) as Hs.
    rewrite Hs.
    assert (Hn : Z.of_nat (length y2)
                 = (Z.of_nat (count_lt y2 x) + Z.of_nat (length (filter (Qeq_bool x) y2))
                    + Z.of_nat (length (filter (Qltb x) y2)))%Z) by lia.
    rewrite Hn. rewrite !Nat2Z.inj_add, !inject_Z_plus. ring.
Qed.

Lemma Qeq_bool_sym' (x y : Q) : Qeq_bool x y = Qeq_bool y x.
Proof.
  destruct (Qeq_bool x y) eqn:E1, (Qeq_bool y x) eqn:E2; try reflexivity.
  - apply Qeq_bool_iff in E1. symmetry in E1. apply Qeq_bool_iff in E1. congruence.
  - apply Qeq_bool_iff in E2. symmetry in E2. apply Qeq_bool_iff in E2. congruence.
Qed.

Lemma pairs_below_nat (y1 y2 : list Q) :
  pairs_below y1 y2
  == inject_Z (Z.of_nat (list_sum (map (fun a => length (filter (Qltb a) y2)) y1)))
     + (1 # 2) * inject_Z (Z.of_nat (list_sum (map (fun a => length (filter (Qeq_bool a) y2)) y1))).
Proof.
  unfold pairs_below. induction y1 as [|a y1 IH]; simpl; [ring|].
  rewrite IH, !Nat2Z.inj_add, !inject_Z_plus. ring.
Qed.

Lemma pairs_below_nonneg (y1 y2 : list Q) : 0 <= pairs_below y1 y2.
Proof.
  rewrite pairs_below_nat.
  assert (H : forall n, 0 <= inject_Z (Z.of_nat n)).
  { intros n. change 0 with (inject_Z 0). rewrite <- Zle_Qle. lia. }
  pose proof (H (list_sum (map (fun a => length (filter (Qltb a) y2)) y1))).
  pose proof (H (list_sum (map (fun a => length (filter (Qeq_bool a) y2)) y1))).
  lra.
Qed.

(** Every pair is counted once: as below, as above, or half and half as a
    tie. *)
Lemma pairs_below_swap (y1 y2 : list Q) :
  pairs_below y1 y2 + pairs_below y2 y1
  == inject_Z (Z.of_nat (length y1) * Z.of_nat (length y2)).
Proof.
  rewrite !pairs_below_nat.
  (* counts over y2 x y1 turned into counts over y1 x y2 *)
  rewrite (double_count Qltb y2 y1).
  rewrite (double_count Qeq_bool y2 y1).
  assert (E : list_sum (map (fun a => length (filter (fun b => Qeq_bool b a) y2)) y1)
              = list_sum (map (fun a => length (filter (Qeq_bool a) y2)) y1)).
  { f_equal. apply map_ext. intros a. f_equal. apply filter_ext.
    intros b. apply Qeq_bool_sym'. }
  rewrite E.
  assert (T : (list_sum (map (fun a => length (filter (Qltb a) y2)) y1)
               + list_sum (map (fun a => length (filter (Qeq_bool a) y2)) y1)
               + list_sum (map (fun a => length (filter (fun b => Qltb b a) y2)) y1))%nat
              = (length y2 * length y1)%nat).
  { rewrite <- !list_sum_map_add.
    rewrite (map_ext _ (fun _ => length y2)).
    - apply list_sum_map_const.
    - intros a. pose proof (count_trichotomy y2 a). unfold count_lt in *. lia. }
  set (A := list_sum (map (fun a => length (filter (Qltb a) y2)) y1)) in *.
  set (B := list_sum (map (fun a => length (filter (Qeq_bool a) y2)) y1)) in *.
  set (C := list_sum (map (fun a => length (filter (fun b => Qltb b a) y2)) y1)) in *.
  assert (T' : (Z.of_nat (length y1) * Z.of_nat (length y2)
                = Z.of_nat A + Z.of_nat B + Z.of_nat C)%Z) by lia.
  rewrite T', !inject_Z_plus. ring.
Qed.

(** [u1] is the number of pairs with the first sample below the second,
    [u2] the number of pairs the other way round. *)
Lemma u_is_pair_count (y1 y2 : list Q) :
  MannWhitney.u (Z.of_nat (length y1)) (Z.of_nat (length y2))
                (MannWhitney._rank y1 y2 (Z.of_nat (length y1)))
  == Qmin (pairs_below y1 y2) (pairs_below y2 y1).
Proof.
  unfold MannWhitney.u.
  pose proof (first_sample_rank_sum y1 y2) as Hs.
  pose proof (pairs_below_swap y1 y2) as Hw.
  unfold triangular in Hs.
  set (R := np_sum _) in *.
  set (M := inject_Z (Z.of_nat (length y1) * Z.of_nat (length y2))) in *.
  assert (E1 : M + inject_Z (Z.of_nat (length y1) * (Z.of_nat (length y1) + 1)) / 2 - R
               == pairs_below y1 y2) by (rewrite Hs; ring).
  rewrite E1.
  assert (E2 : M - pairs_below y1 y2 == pairs_below y2 y1) by (rewrite <- Hw; ring).
  rewrite E2. reflexivity.
Qed.

(** X1. The U statistic of two samples counts pairs: it is the smaller of
    the number of pairs [(a, b)], [a] from the first sample and [b] from the
    second, with [a < b], and the number of pairs with [b < a], a tie
    counting one half on either side. *)
Theorem mann_whitney_u_counts_pairs (y1 y2 : list Q) (continuity : bool) :
  exists m,
    MannWhitney.__init__ y1 (Some y2) continuity = Ok m /\
    MannWhitney.u_statistic m == Qmin (pairs_below y1 y2) (pairs_below y2 y1).
Proof.
  eexists. split; [reflexivity|]. simpl. apply u_is_pair_count.
Qed.

(** X2. [mann_whitney] called with two samples returns a Mann-Whitney
    object, and exchanging the samples does not change its U statistic,
    whatever the continuity flags. *)
Theorem mann_whitney_u_symmetric (y1 y2 : list Q) (c c' : bool) :
  exists m m',
    mann_whitney y1 (Some y2) c = Ok (MannWhitneyResult m) /\
    mann_whitney y2 (Some y1) c' = Ok (MannWhitneyResult m') /\
    MannWhitney.u_statistic m == MannWhitney.u_statistic m'.
Proof.
  do 2 eexists. split; [reflexivity|]. split; [reflexivity|]. simpl.
  rewrite !u_is_pair_count. apply Q.min_comm.
Qed.

(** X3. The U statistic is never negative. *)
Theorem mann_whitney_u_nonneg (y1 y2 : list Q) (continuity : bool) :
  exists m,
    MannWhitney.__init__ y1 (Some y2) continuity = Ok m /\
    0 <= MannWhitney.u_statistic m.
Proof.
  eexists. split; [reflexivity|]. simpl. rewrite u_is_pair_count.
  apply Q.min_glb; apply pairs_below_nonneg.
Qed.

Lemma pairs_below_none (y1 y2 : list Q) :
  (forall a b, In a y1 -> In b y2 -> b < a) -> pairs_below y1 y2 == 0.
Proof.
  intros H. unfold pairs_below.
  induction y1 as [|a y1 IH]; simpl; [reflexivity|].
  rewrite IH by (intros; apply H; simpl; auto).
  assert (E1 : length (filter (Qltb a) y2) = 0%nat).
  { apply count_none. apply Forall_forall. intros b Hb.
    apply not_true_is_false. intros Hc.
    apply Qltb_lt in Hc. specialize (H a b (or_introl eq_refl) Hb).
    apply (Qlt_irrefl a). eapply Qlt_trans; eassumption. }
  assert (E2 : length (filter (Qeq_bool a) y2) = 0%nat).
  { apply count_none. apply Forall_forall. intros b Hb.
    apply not_true_is_false. intros Hc.
    apply Qeq_bool_iff in Hc. specialize (H a b (or_introl eq_refl) Hb).
    rewrite Hc in H. apply (Qlt_irrefl b). exact H. }
  rewrite E1, E2. simpl. ring.
Qed.

(** X4. When every observation of the first sample is below every
    observation of the second, U is 0. *)
Theorem mann_whitney_u_separated (y1 y2 : list Q) (continuity : bool) :
  (forall a b, In a y1 -> In b y2 -> a < b) ->
  exists m,
    MannWhitney.__init__ y1 (Some y2) continuity = Ok m /\
    MannWhitney.u_statistic m == 0.
Proof.
  intros H. eexists. split; [reflexivity|]. simpl.
  rewrite u_is_pair_count.
  rewrite (pairs_below_none y2 y1) by (intros; apply H; assumption).
  apply Q.min_r. apply pairs_below_nonneg.
Qed.

Lemma mann_whitney_u_separated_witness :
  (forall a b, In a [1; 2] -> In b [3; 4] -> a < b) /\
  exists m,
    MannWhitney.__init__ [1; 2] (Some [3; 4]) true = Ok m /\
    MannWhitney.u_statistic m == 0.
Proof.
  assert (H : forall a b, In a [1; 2] -> In b [3; 4] -> a < b).
  { intros a b [<- | [<- | []]] [<- | [<- | []]]; reflexivity. }
  split; [exact H|].
  exact (mann_whitney_u_separated [1; 2] [3; 4] true H).
Defined.

(* ================================================================== *)
(** * wilcoxon_test and WilcoxonTest *)

(** X5. [wilcoxon_test] raises exactly when a paired test is asked for
    and the second sample is missing or of another length than the first;
    the exception is then a ValueError.  Two samples that are not paired go
    to the Mann-Whitney test and are never rejected. *)
Theorem wilcoxon_test_raises_iff (y1 : list Q) (y2 : option (list Q))
        (paired : bool) (mu : Q) :
  (forall e, wilcoxon_test y1 y2 paired mu = Raise e -> exists msg, e = ValueError msg) /\
  ((exists e, wilcoxon_test y1 y2 paired mu = Raise e) <->
   paired = true /\
   match y2 with
   | None => True
   | Some y2 => length y1 <> length y2
   end).
Proof.
  unfold wilcoxon_test, WilcoxonTest.__init__, MannWhitney.__init__.
  destruct y2 as [y2|], paired; simpl.
  - destruct (length y1 =? length y2)%nat eqn:E; simpl.
    + apply Nat.eqb_eq in E. split.
      * intros e H. discriminate.
      * split; [intros [e H]; discriminate | intros [_ H]; contradiction].
    + apply Nat.eqb_neq in E. split.
      * intros e H. injection H as <-. eexists. reflexivity.
      * split; [intros _; split; [reflexivity | exact E]
               | intros _; eexists; reflexivity].
  - split; [intros e H; discriminate|].
    split; [intros [e H]; discriminate | intros [H _]; discriminate].
  - split; [intros e H; injection H as <-; eexists; reflexivity|].
    split; [intros _; split; [reflexivity | exact I]
           | intros _; eexists; reflexivity].
  - split; [intros e H; discriminate|].
    split; [intros [e H]; discriminate | intros [H _]; discriminate].
Qed.

(** X6. Whatever the data, the V statistic of a constructed Wilcoxon test
    is [n (n + 1) / 2] for the [n] observations it holds: the sum of all the
    ranks. *)
Theorem wilcoxon_v_is_rank_total (y1 : list Q) (y2 : option (list Q))
        (paired : bool) (mu : Q) (w : WilcoxonTest.t) :
  WilcoxonTest.__init__ y1 y2 paired mu = Ok w ->
  WilcoxonTest.n w = Z.of_nat (length (WilcoxonTest.y1 w)) /\
  WilcoxonTest.V w
  == inject_Z (WilcoxonTest.n w * (WilcoxonTest.n w + 1)) / 2.
Proof.
  unfold WilcoxonTest.__init__. intros H.
  destruct (if paired then _ else _) as [d | e]; [|discriminate].
  simpl in H. injection H as <-. simpl.
  split; [reflexivity | apply v_statistic_total].
Qed.

Lemma wilcoxon_v_is_rank_total_witness :
  exists w,
    WilcoxonTest.__init__ [3; -1; 4] (Some [1; 5; 9]) true 0 = Ok w /\
    WilcoxonTest.n w = Z.of_nat (length (WilcoxonTest.y1 w)) /\
    WilcoxonTest.V w
    == inject_Z (WilcoxonTest.n w * (WilcoxonTest.n w + 1)) / 2.
Proof.
  eexists. split; [reflexivity|].
  exact (wilcoxon_v_is_rank_total [3; -1; 4] (Some [1; 5; 9]) true 0 _ eq_refl).
Defined.

(* ================================================================== *)
(** * Ranks follow the order of the data *)

Lemma filter_count_mono (f g : Q -> bool) (l : list Q) :
  (forall x, f x = true -> g x = true) ->
  (length (filter f l) <= length (filter g l))%nat.
Proof.
  intros H. induction l as [|x l IH]; simpl; [lia|].
  destruct (f x) eqn:E.
  - rewrite (H x E). simpl. lia.
  - destruct (g x); simpl; lia.
Qed.

Lemma count_lt_lt_le (a : list Q) (x : Q) :
  In x a -> (count_lt a x < count_le a x)%nat.
Proof.
  unfold count_lt, count_le. induction a as [|y a IH]; simpl; [tauto|].
  intros [-> | Hin].
  - assert (E1 : Qltb x x = false).
    { apply not_true_is_false. intros H. apply Qltb_lt in H.
      exact (Qlt_irrefl x H). }
    assert (E2 : Qle_bool x x = true) by (apply Qle_bool_iff; apply Qle_refl).
    rewrite E1, E2. simpl.
    assert (length (filter (fun y => Qltb y x) a)
            <= length (filter (fun y => Qle_bool y x) a))%nat.
    { apply filter_count_mono. intros z Hz. apply Qltb_lt in Hz.
      apply Qle_bool_iff. apply Qlt_le_weak. exact Hz. }
    lia.
  - specialize (IH Hin).
    destruct (Qltb y x) eqn:E1.
    + assert (E2 : Qle_bool y x = true).
      { apply Qltb_lt in E1. apply Qle_bool_iff. apply Qlt_le_weak. exact E1. }
      rewrite E2. simpl. lia.
    + destruct (Qle_bool y x); simpl; lia.
Qed.

Lemma rank_strict (a : list Q) (x y : Q) :
  In y a -> x < y ->
  (1 # 2) * inject_Z (Z.of_nat (count_le a x) + Z.of_nat (count_lt a x) + 1)
  < (1 # 2) * inject_Z (Z.of_nat (count_le a y) + Z.of_nat (count_lt a y) + 1).
Proof.
  intros Hy Hxy.
  assert (H1 : (count_le a x <= count_lt a y)%nat).
  { apply filter_count_mono. intros z Hz. apply Qle_bool_iff in Hz.
    apply Qltb_lt. eapply Qle_lt_trans; eassumption. }
  assert (H2 : (count_lt a x <= count_lt a y)%nat).
  { apply filter_count_mono. intros z Hz. apply Qltb_lt in Hz.
    apply Qltb_lt. eapply Qlt_trans; eassumption. }
  pose proof (count_lt_lt_le a y Hy) as H3.
  assert (H : inject_Z (Z.of_nat (count_le a x) + Z.of_nat (count_lt a x) + 1)
              < inject_Z (Z.of_nat (count_le a y) + Z.of_nat (count_lt a y) + 1)).
  { rewrite <- Zlt_Qlt. lia. }
  lra.
Qed.

Lemma rank_tied (a : list Q) (x y : Q) :
  x == y ->
  (1 # 2) * inject_Z (Z.of_nat (count_le a x) + Z.of_nat (count_lt a x) + 1)
  == (1 # 2) * inject_Z (Z.of_nat (count_le a y) + Z.of_nat (count_lt a y) + 1).
Proof.
  intros E.
  assert (H1 : count_le a x = count_le a y).
  { unfold count_le. f_equal. apply filter_ext. intros z.
    destruct (Qle_bool z x) eqn:E1, (Qle_bool z y) eqn:E2; try reflexivity.
    - apply Qle_bool_iff in E1. rewrite E in E1. apply Qle_bool_iff in E1. congruence.
    - apply Qle_bool_iff in E2. rewrite <- E in E2. apply Qle_bool_iff in E2. congruence. }
  assert (H2 : count_lt a x = count_lt a y).
  { unfold count_lt. f_equal. apply filter_ext. intros z.
    destruct (Qltb z x) eqn:E1, (Qltb z y) eqn:E2; try reflexivity.
    - apply Qltb_lt in E1. rewrite E in E1. apply Qltb_lt in E1. congruence.
    - apply Qltb_lt in E2. rewrite <- E in E2. apply Qltb_lt in E2. congruence. }
  rewrite H1, H2. reflexivity.
Qed.

Lemma rank_range (a : list Q) (x : Q) :
  In x a ->
  1 <= (1 # 2) * inject_Z (Z.of_nat (count_le a x) + Z.of_nat (count_lt a x) + 1)
  <= inject_Z (Z.of_nat (length a)).
Proof.
  intros Hx. pose proof (count_lt_lt_le a x Hx) as H.
  assert (Hle : (count_le a x <= length a)%nat) by apply List.filter_length_le.
  assert (L : inject_Z 2
              <= inject_Z (Z.of_nat (count_le a x) + Z.of_nat (count_lt a x) + 1)).
  { rewrite <- Zle_Qle. lia. }
  assert (U : inject_Z (Z.of_nat (count_le a x) + Z.of_nat (count_lt a x) + 1)
              <= inject_Z (2 * Z.of_nat (length a))).
  { rewrite <- Zle_Qle. lia. }
  rewrite inject_Z_mult in U. change (inject_Z 2) with 2 in *.
  split; lra.
Qed.

Lemma in_combine_map {A B C : Type} (g : A -> B) (f : B -> C) (l : list A)
      (x : A) (y : C) :
  In (x, y) (combine l (map f (map g l))) -> In x l /\ y = f (g x).
Proof.
  induction l as [|d l IH]; simpl; [tauto|].
  intros [H | H].
  - injection H as -> <-. split; [left; reflexivity | reflexivity].
  - destruct (IH H) as [H1 H2]. split; [right; exact H1 | exact H2].
Qed.

Lemma in_kruskal_rank (design_matrix : list KruskalWallis.row)
      (r : KruskalWallis.row) (k : Q) :
  In (r, k) (KruskalWallis._rank design_matrix) ->
  In (snd r) (map snd design_matrix) /\
  k = (1 # 2) * inject_Z (Z.of_nat (count_le (map snd design_matrix) (snd r))
                          + Z.of_nat (count_lt (map snd design_matrix) (snd r)) + 1).
Proof.
  unfold KruskalWallis._rank, rankdata. intros H.
  apply in_combine_map in H. destruct H as [H1 H2].
  split; [apply in_map; exact H1 | exact H2].
Qed.

(** X7. In the ranked matrix of [KruskalWallis._rank] a row with a smaller
    value has a smaller rank, and rows with equal values have equal
    ranks. *)
Theorem kruskal_ranks_follow_order (design_matrix : list KruskalWallis.row)
        (r1 r2 : KruskalWallis.row) (k1 k2 : Q) :
  In (r1, k1) (KruskalWallis._rank design_matrix) ->
  In (r2, k2) (KruskalWallis._rank design_matrix) ->
  (snd r1 < snd r2 -> k1 < k2) /\ (snd r1 == snd r2 -> k1 == k2).
Proof.
  intros H1 H2.
  apply in_kruskal_rank in H1. destruct H1 as [I1 ->].
  apply in_kruskal_rank in H2. destruct H2 as [I2 ->].
  split; intros H.
  - apply rank_strict; assumption.
  - apply rank_tied; assumption.
Qed.

(** X8. Every rank of the ranked matrix lies between 1 and the number of
    rows. *)
Theorem kruskal_ranks_range (design_matrix : list KruskalWallis.row)
        (r : KruskalWallis.row) (k : Q) :
  In (r, k) (KruskalWallis._rank design_matrix) ->
  1 <= k <= inject_Z (Z.of_nat (length design_matrix)).
Proof.
  intros H. apply in_kruskal_rank in H. destruct H as [I ->].
  pose proof (rank_range (map snd design_matrix) (snd r) I) as H.
  rewrite length_map in H. exact H.
Qed.

Lemma kruskal_ranks_follow_order_witness :
  (In ((1, 5), 2 # 2) (KruskalWallis._rank [(1, 5); (2, 7); (1, 7)]) /\
   In ((2, 7), 5 # 2) (KruskalWallis._rank [(1, 5); (2, 7); (1, 7)])) /\
  (snd (1, 5) < snd (2, 7) -> 2 # 2 < 5 # 2) /\
  (snd (1, 5) == snd (2, 7) -> 2 # 2 == 5 # 2).
Proof.
  assert (H1 : In ((1, 5), 2 # 2) (KruskalWallis._rank [(1, 5); (2, 7); (1, 7)]))
    by (left; reflexivity).
  assert (H2 : In ((2, 7), 5 # 2) (KruskalWallis._rank [(1, 5); (2, 7); (1, 7)]))
    by (right; left; reflexivity).
  split; [split; [exact H1 | exact H2]|].
  exact (kruskal_ranks_follow_order [(1, 5); (2, 7); (1, 7)] (1, 5) (2, 7)
           (2 # 2) (5 # 2) H1 H2).
Defined.

Lemma kruskal_ranks_range_witness :
  In ((2, 7), 5 # 2) (KruskalWallis._rank [(1, 5); (2, 7); (1, 7)]) /\
  1 <= 5 # 2 <= inject_Z (Z.of_nat (length [(1, 5); (2, 7); (1, 7)])).
Proof.
  assert (H : In ((2, 7), 5 # 2) (KruskalWallis._rank [(1, 5); (2, 7); (1, 7)]))
    by (right; left; reflexivity).
  split; [exact H|].
  exact (kruskal_ranks_range [(1, 5); (2, 7); (1, 7)] (2, 7) (5 # 2) H).
Defined.

(* ================================================================== *)
(** * tie_correction: the tie groups *)

Lemma filter_disjoint_length (f g : Q -> bool) (l : list Q) :
  (forall z, f z = true -> g z = false) ->
  length (filter (fun z => f z || g z) l)
  = (length (filter f l) + length (filter g l))%nat.
Proof.
  intros H. induction l as [|z l IH]; simpl; [reflexivity|].
  destruct (f z) eqn:E.
  - rewrite (H z E). simpl. rewrite IH. reflexivity.
  - simpl. destruct (g z); simpl; rewrite IH; lia.
Qed.

Lemma Qeq_bool_trans_l (x y z : Q) :
  x == y -> Qeq_bool z x = Qeq_bool z y.
Proof.
  intros E.
  destruct (Qeq_bool z x) eqn:E1, (Qeq_bool z y) eqn:E2; try reflexivity.
  - apply Qeq_bool_iff in E1. rewrite E in E1. apply Qeq_bool_iff in E1. congruence.
  - apply Qeq_bool_iff in E2. rewrite <- E in E2. apply Qeq_bool_iff in E2. congruence.
Qed.

(** The counts of the distinct values of an ascending list [s], taken in
    any list [l], add up to the number of elements of [l] that occur in
    [s]. *)
Lemma unique_counts_cover (l s : list Q) :
  ascending s ->
  list_sum (map (fun v => length (filter (Qeq_bool v) l)) (drop_repeats s))
  = length (filter (fun z => existsb (Qeq_bool z) s) l).
Proof.
  intros Hs. induction Hs as [|x t Hx Ht IH].
  - simpl. induction l; simpl; auto.
  - destruct t as [|y t'].
    + simpl. rewrite Nat.add_0_r. f_equal. apply filter_ext. intros z.
      rewrite orb_false_r. apply Qeq_bool_sym'.
    + change (drop_repeats (x :: y :: t'))
        with (if Qeq_bool x y then drop_repeats (y :: t')
              else x :: drop_repeats (y :: t')).
      change (fun z => existsb (Qeq_bool z) (x :: y :: t'))
        with (fun z => Qeq_bool z x || existsb (Qeq_bool z) (y :: t')).
      destruct (Qeq_bool x y) eqn:E.
      * rewrite IH. f_equal. apply filter_ext. intros z.
        apply Qeq_bool_iff in E. rewrite (Qeq_bool_trans_l x y z E).
        simpl. destruct (Qeq_bool z y); reflexivity.
      * change (list_sum (map (fun v => length (filter (Qeq_bool v) l))
                              (x :: drop_repeats (y :: t'))))
          with (length (filter (Qeq_bool x) l)
                + list_sum (map (fun v => length (filter (Qeq_bool v) l))
                                (drop_repeats (y :: t'))))%nat.
        rewrite IH.
        rewrite (filter_ext (Qeq_bool x) (fun z => Qeq_bool z x))
          by (intros z; apply Qeq_bool_sym').
        symmetry.
        apply (filter_disjoint_length (fun z => Qeq_bool z x)
                 (fun z => existsb (Qeq_bool z) (y :: t'))).
        intros z Hz. apply Qeq_bool_iff in Hz.
        apply not_true_is_false. intros Hex.
        apply existsb_exists in Hex. destruct Hex as (w & Hw & Hzw).
        apply Qeq_bool_iff in Hzw.
        assert (Hxy : x <= y) by (inversion Hx; assumption).
        assert (Hyw : y <= w).
        { destruct Hw as [<- | Hw]; [apply Qle_refl|].
          inversion Ht as [|? ? Hy' _]; subst.
          rewrite Forall_forall in Hy'. apply Hy'. exact Hw. }
        assert (Hxw : x == w) by (rewrite <- Hz; exact Hzw).
        assert (Hyx : y == x) by (apply Qle_antisym; [rewrite Hxw; exact Hyw | exact Hxy]).
        symmetry in Hyx. apply Qeq_bool_iff in Hyx. congruence.
Qed.

Lemma in_insert_sorted (z x : Q) (l : list Q) :
  In z (insert_sorted x l) <-> z = x \/ In z l.
Proof.
  induction l as [|y l IH]; simpl.
  - intuition.
  - destruct (Qle_bool x y); simpl; [intuition|].
    rewrite IH. intuition.
Qed.

Lemma in_sorted (z : Q) (a : list Q) : In z (sorted a) <-> In z a.
Proof.
  induction a as [|x a IH]; simpl; [tauto|].
  rewrite in_insert_sorted, IH. intuition.
Qed.

Lemma in_drop_repeats (z : Q) (s : list Q) : In z (drop_repeats s) -> In z s.
Proof.
  induction s as [|x t IH]; [tauto|].
  simpl. destruct t as [|y t'].
  - tauto.
  - destruct (Qeq_bool x y); simpl.
    + intros H. right. apply IH. exact H.
    + intros [H | H]; [left; exact H | right; apply IH; exact H].
Qed.

(** The tie groups partition the data. *)
Lemma unique_counts_total (a : list Q) :
  sum_Z (np_unique_counts a) = Z.of_nat (length a).
Proof.
  unfold np_unique_counts, np_unique.
  assert (E : sum_Z (map (fun v => Z.of_nat (length (filter (Qeq_bool v) a)))
                         (drop_repeats (sorted a)))
              = Z.of_nat (list_sum (map (fun v => length (filter (Qeq_bool v) a))
                                        (drop_repeats (sorted a))))).
  { induction (drop_repeats (sorted a)) as [|v d IH]; simpl; [reflexivity|].
    rewrite IH. lia. }
  rewrite E, unique_counts_cover by apply sorted_ascending.
  f_equal. f_equal.
  assert (H : forall l, (forall z, In z l -> In z a) ->
                        filter (fun z => existsb (Qeq_bool z) (sorted a)) l = l).
  { induction l as [|z l IH]; intros Hl; simpl; [reflexivity|].
    assert (Hz : existsb (Qeq_bool z) (sorted a) = true).
    { apply existsb_exists. exists z. split.
      - apply in_sorted. apply Hl. left. reflexivity.
      - apply Qeq_bool_refl. }
    rewrite Hz. f_equal. apply IH. intros w Hw. apply Hl. right. exact Hw. }
  apply H. auto.
Qed.

Lemma unique_counts_nonneg (a : list Q) :
  Forall (fun t => 0 <= t)%Z (np_unique_counts a).
Proof.
  unfold np_unique_counts. apply Forall_forall. intros t Ht.
  apply in_map_iff in Ht. destruct Ht as (v & <- & _). lia.
Qed.

Lemma cube (t : Z) : (t ^ 3 = t * t * t)%Z.
Proof. ring. Qed.

Lemma tied_cubes_bound (l : list Z) :
  Forall (fun t => 0 <= t)%Z l ->
  (0 <= sum_Z l /\
   0 <= sum_Z (map (fun t => t ^ 3 - t) (filter (fun t => 1 <? t) l))
     <= (sum_Z l) ^ 3 - sum_Z l)%Z.
Proof.
  intros H. induction H as [|t l Ht Hl IH].
  - simpl. lia.
  - destruct IH as (H0 & H1 & H2).
    change (sum_Z (t :: l)) with (t + sum_Z l)%Z.
    change (filter (fun t => 1 <? t)%Z (t :: l))
      with (if (1 <? t)%Z then t :: filter (fun t => 1 <? t)%Z l
            else filter (fun t => 1 <? t)%Z l).
    set (S := sum_Z l) in *.
    set (T := sum_Z (map (fun t => t ^ 3 - t)%Z (filter (fun t => 1 <? t)%Z l))) in *.
    rewrite cube in H2. rewrite (cube (t + S)).
    split; [lia|].
    destruct (1 <? t)%Z eqn:E.
    + apply Z.ltb_lt in E.
      change (sum_Z (map (fun t => t ^ 3 - t)%Z (t :: filter (fun t => 1 <? t)%Z l)))
        with (t ^ 3 - t + T)%Z.
      rewrite cube. nia.
    + apply Z.ltb_ge in E. nia.
Qed.

Lemma is_zero_inject_Z (k : Z) : k <> 0%Z -> @is_zero Q _ (inject_Z k) = false.
Proof.
  intros H. unfold is_zero.
  change (Qeq_bool (inject_Z k) (inject_Z 0) = false).
  apply not_true_is_false. intros E.
  apply Qeq_bool_iff in E. unfold Qeq in E. simpl in E. lia.
Qed.

Lemma wrap_int64_small (z : Z) :
  (- 2 ^ 63 <= z < 2 ^ 63)%Z -> wrap_int64 z = z.
Proof.
  intros H. unfold wrap_int64. rewrite Z.mod_small by lia. lia.
Qed.

Lemma sum_Z_bounds_member (l : list Z) (t : Z) :
  Forall (fun t => 0 <= t)%Z l -> In t l -> (0 <= t <= sum_Z l)%Z.
Proof.
  intros H. induction H as [|u l Hu Hl IH]; intros Ht; [contradiction|].
  assert (H0 : (0 <= sum_Z l)%Z).
  { clear IH Ht. induction Hl as [|v l Hv Hl IH]; simpl; lia. }
  change (sum_Z (u :: l)) with (u + sum_Z l)%Z.
  destruct Ht as [<- | Ht]; [lia|].
  specialize (IH Ht). lia.
Qed.

Lemma cube_small (t : Z) : (0 <= t < 2 ^ 21)%Z -> (0 <= t ^ 3 < 2 ^ 63)%Z.
Proof.
  intros H. rewrite cube.
  change (2 ^ 63)%Z with (2 ^ 21 * 2 ^ 21 * 2 ^ 21)%Z.
  assert (H1 : (0 <= t * t <= (2 ^ 21 - 1) * (2 ^ 21 - 1))%Z) by nia.
  nia.
Qed.

(** With fewer than [2^21] ranks no cube, difference or sum leaves the
    int64 range. *)
Lemma tied_cubes_no_wrap (l : list Z) :
  Forall (fun t => 0 <= t)%Z l -> (sum_Z l < 2 ^ 21)%Z ->
  sum_int64 (map (fun t => wrap_int64 (wrap_int64 (t ^ 3) - t))
                 (filter (fun t => 1 <? t)%Z l))
  = sum_Z (map (fun t => t ^ 3 - t)%Z (filter (fun t => 1 <? t)%Z l)).
Proof.
  intros Hl Hs.
  assert (E : map (fun t => wrap_int64 (wrap_int64 (t ^ 3) - t))
                  (filter (fun t => 1 <? t)%Z l)
              = map (fun t => t ^ 3 - t)%Z (filter (fun t => 1 <? t)%Z l)).
  { apply map_ext_in. intros t Ht. apply filter_In in Ht.
    destruct Ht as [Ht _].
    pose proof (sum_Z_bounds_member l t Hl Ht) as Hb.
    assert (Hc : (0 <= t ^ 3 < 2 ^ 63)%Z) by (apply cube_small; lia).
    rewrite (wrap_int64_small (t ^ 3)) by lia.
    apply wrap_int64_small. lia. }
  rewrite E. unfold sum_int64.
  destruct (tied_cubes_bound l Hl) as (H0 & H1 & H2).
  assert (Hc : (0 <= sum_Z l ^ 3 < 2 ^ 63)%Z) by (apply cube_small; lia).
  apply wrap_int64_small. lia.
Qed.

Lemma tie_correction_value (a : list Q) :
  (2 <= length a)%nat -> (Z.of_nat (length a) < 2 ^ 21)%Z ->
  exists c,
    tie_correction a = Ok (Fin c) /\
    c == 1 - inject_Z (sum_Z (map (fun t => t ^ 3 - t)%Z
                                   (filter (fun t => 1 <? t)%Z (np_unique_counts a))))
             / inject_Z (Z.of_nat (length a) ^ 3 - Z.of_nat (length a)) /\
    (0 < Z.of_nat (length a) ^ 3 - Z.of_nat (length a))%Z.
Proof.
  intros Hn Hsmall.
  assert (HD : (0 < Z.of_nat (length a) ^ 3 - Z.of_nat (length a))%Z).
  { rewrite cube. nia. }
  unfold tie_correction.
  rewrite tied_cubes_no_wrap
    by (apply unique_counts_nonneg || (rewrite unique_counts_total; exact Hsmall)).
  unfold fsub, fdiv, of_int. simpl kofZ.
  rewrite is_zero_inject_Z by lia.
  eexists. split; [reflexivity|]. split; [|exact HD].
  simpl. unfold Qminus. reflexivity.
Qed.

(** X9. For a rank vector of at least two and fewer than [2^21] elements
    (from [2^21] equal ranks on, the cube of a count leaves the int64
    range) the correction is a finite number between 0 and 1. *)
Theorem tie_correction_in_unit (rank_array : list Q) :
  (2 <= length rank_array)%nat ->
  (Z.of_nat (length rank_array) < 2 ^ 21)%Z ->
  exists c, tie_correction rank_array = Ok (Fin c) /\ 0 <= c <= 1.
Proof.
  intros Hn Hsmall.
  destruct (tie_correction_value rank_array Hn Hsmall) as (c & Hc & Ec & HD).
  exists c. split; [exact Hc|].
  destruct (tied_cubes_bound (np_unique_counts rank_array)
              (unique_counts_nonneg rank_array)) as (_ & H0 & H1).
  rewrite unique_counts_total in H1.
  set (S := sum_Z _) in *. set (D := (_ ^ 3 - _)%Z) in *.
  assert (HDq : 0 < inject_Z D) by (change 0 with (inject_Z 0); rewrite <- Zlt_Qlt; exact HD).
  assert (HS0 : 0 <= inject_Z S) by (change 0 with (inject_Z 0); rewrite <- Zle_Qle; exact H0).
  assert (HS1 : inject_Z S <= inject_Z D) by (rewrite <- Zle_Qle; exact H1).
  assert (Hq0 : 0 <= inject_Z S / inject_Z D).
  { apply Qle_shift_div_l; [exact HDq|]. lra. }
  assert (Hq1 : inject_Z S / inject_Z D <= 1).
  { apply Qle_shift_div_r; [exact HDq|]. lra. }
  rewrite Ec. split; lra.
Qed.

Lemma filter_all (f : Q -> bool) (l : list Q) :
  (forall z, In z l -> f z = true) -> filter f l = l.
Proof.
  induction l as [|z l IH]; intros H; simpl; [reflexivity|].
  rewrite (H z (or_introl eq_refl)). f_equal. apply IH.
  intros w Hw. apply H. right. exact Hw.
Qed.

Lemma sum_Z_const (c : Z) (l : list Q) :
  sum_Z (map (fun _ => c) l) = (c * Z.of_nat (length l))%Z.
Proof. induction l as [|x l IH]; simpl sum_Z; simpl length; [lia | rewrite IH; lia]. Qed.

Lemma all_tied_counts (a : list Q) :
  (2 <= length a)%nat ->
  (forall x y, In x a -> In y a -> x == y) ->
  np_unique_counts a = [Z.of_nat (length a)].
Proof.
  intros Hn H.
  assert (E : np_unique_counts a
              = map (fun _ => Z.of_nat (length a)) (np_unique a)).
  { unfold np_unique_counts. apply map_ext_in. intros v Hv.
    apply in_drop_repeats in Hv. apply (proj1 (in_sorted v a)) in Hv.
    rewrite filter_all; [reflexivity|].
    intros z Hz. apply Qeq_bool_iff. apply H; [exact Hv | exact Hz]. }
  pose proof (unique_counts_total a) as T. rewrite E, sum_Z_const in T.
  assert (L : length (np_unique a) = 1%nat) by nia.
  rewrite E. destruct (np_unique a) as [|v [|w u]]; simpl in L; try discriminate.
  reflexivity.
Qed.

(** X10. When all the ranks are equal, and there are at least two and
    fewer than [2^21] of them, the correction is 0. *)
Theorem tie_correction_all_tied (rank_array : list Q) :
  (2 <= length rank_array)%nat ->
  (Z.of_nat (length rank_array) < 2 ^ 21)%Z ->
  (forall x y, In x rank_array -> In y rank_array -> x == y) ->
  exists c, tie_correction rank_array = Ok (Fin c) /\ c == 0.
Proof.
  intros Hn Hsmall H.
  destruct (tie_correction_value rank_array Hn Hsmall) as (c & Hc & Ec & HD).
  exists c. split; [exact Hc|].
  rewrite Ec, all_tied_counts by assumption.
  set (N := Z.of_nat (length rank_array)) in *.
  assert (E : (1 <? N)%Z = true) by (apply Z.ltb_lt; unfold N; lia).
  simpl filter. rewrite E. simpl map. simpl sum_Z. rewrite Z.add_0_r.
  assert (HDq : ~ inject_Z (N ^ 3 - N) == 0).
  { assert (Hpos : 0 < inject_Z (N ^ 3 - N))
      by (change 0 with (inject_Z 0); rewrite <- Zlt_Qlt; exact HD).
    intros Hq. rewrite Hq in Hpos. exact (Qlt_irrefl 0 Hpos). }
  change (Z.pow_pos N 3) with (N ^ 3)%Z.
  set (d := inject_Z (N ^ 3 - N)) in *. clearbody d.
  field. exact HDq.
Qed.

Lemma tie_correction_all_tied_witness :
  ((2 <= length [5 # 2; 5 # 2; 5 # 2])%nat /\
   (Z.of_nat (length [5 # 2; 5 # 2; 5 # 2]) < 2 ^ 21)%Z /\
   (forall x y, In x [5 # 2; 5 # 2; 5 # 2] -> In y [5 # 2; 5 # 2; 5 # 2] -> x == y)) /\
  exists c, tie_correction [5 # 2; 5 # 2; 5 # 2] = Ok (Fin c) /\ c == 0.
Proof.
  assert (Hn : (2 <= length [5 # 2; 5 # 2; 5 # 2])%nat) by (simpl; lia).
  assert (H : forall x y, In x [5 # 2; 5 # 2; 5 # 2] ->
                          In y [5 # 2; 5 # 2; 5 # 2] -> x == y).
  { intros x y Hx Hy. simpl in Hx, Hy.
    destruct Hx as [<- | [<- | [<- | []]]];
      destruct Hy as [<- | [<- | [<- | []]]]; reflexivity. }
  assert (Hs : (Z.of_nat (length [5 # 2; 5 # 2; 5 # 2]) < 2 ^ 21)%Z)
    by reflexivity.
  split; [split; [exact Hn | split; [exact Hs | exact H]]|].
  exact (tie_correction_all_tied [5 # 2; 5 # 2; 5 # 2] Hn Hs H).
Defined.

Lemma tie_correction_in_unit_witness :
  ((2 <= length [1; 5 # 2; 5 # 2; 4]%Q)%nat /\
   (Z.of_nat (length [1; 5 # 2; 5 # 2; 4]%Q) < 2 ^ 21)%Z) /\
  exists c, tie_correction [1; 5 # 2; 5 # 2; 4] = Ok (Fin c) /\ 0 <= c <= 1.
Proof.
  assert (Hn : (2 <= length [1; 5 # 2; 5 # 2; 4]%Q)%nat) by (simpl; lia).
  assert (Hs : (Z.of_nat (length [1; 5 # 2; 5 # 2; 4]%Q) < 2 ^ 21)%Z)
    by reflexivity.
  split; [split; [exact Hn | exact Hs]|].
  exact (tie_correction_in_unit [1; 5 # 2; 5 # 2; 4] Hn Hs).
Defined.

Lemma drop_repeats_cover (z : Q) (s : list Q) :
  existsb (Qeq_bool z) (drop_repeats s) = existsb (Qeq_bool z) s.
Proof.
  induction s as [|x t IH]; [reflexivity|].
  destruct t as [|y t']; [reflexivity|].
  change (drop_repeats (x :: y :: t'))
    with (if Qeq_bool x y then drop_repeats (y :: t')
          else x :: drop_repeats (y :: t')).
  change (existsb (Qeq_bool z) (x :: y :: t'))
    with (Qeq_bool z x || existsb (Qeq_bool z) (y :: t')).
  destruct (Qeq_bool x y) eqn:E.
  - rewrite IH. apply Qeq_bool_iff in E. rewrite (Qeq_bool_trans_l x y z E).
    simpl. destruct (Qeq_bool z y); reflexivity.
  - change (existsb (Qeq_bool z) (x :: drop_repeats (y :: t')))
      with (Qeq_bool z x || existsb (Qeq_bool z) (drop_repeats (y :: t'))).
    rewrite IH. reflexivity.
Qed.

(** Every element of the data has a representative among the distinct
    values. *)
Lemma np_unique_cover (a : list Q) (x : Q) :
  In x a -> exists v, In v (np_unique a) /\ x == v.
Proof.
  intros Hx.
  assert (H : existsb (Qeq_bool x) (np_unique a) = true).
  { unfold np_unique. rewrite drop_repeats_cover.
    apply existsb_exists. exists x. split.
    - apply in_sorted. exact Hx.
    - apply Qeq_bool_refl. }
  apply existsb_exists in H. destruct H as (v & Hv & E).
  exists v. split; [exact Hv | apply Qeq_bool_iff; exact E].
Qed.

Lemma tied_cubes_zero (l : list Z) :
  Forall (fun t => 0 <= t)%Z l ->
  sum_Z (map (fun t => t ^ 3 - t)%Z (filter (fun t => 1 <? t)%Z l)) = 0%Z ->
  Forall (fun t => t <= 1)%Z l.
Proof.
  intros H. induction H as [|t l Ht Hl IH]; intros HS; [constructor|].
  change (filter (fun t => 1 <? t)%Z (t :: l))
    with (if (1 <? t)%Z then t :: filter (fun t => 1 <? t)%Z l
          else filter (fun t => 1 <? t)%Z l) in HS.
  destruct (tied_cubes_bound l Hl) as (_ & H0 & _).
  destruct (1 <? t)%Z eqn:E.
  - apply Z.ltb_lt in E.
    change (sum_Z (map (fun t => t ^ 3 - t)%Z (t :: filter (fun t => 1 <? t)%Z l)))
      with (t ^ 3 - t
            + sum_Z (map (fun t => t ^ 3 - t)%Z (filter (fun t => 1 <? t)%Z l)))%Z in HS.
    rewrite cube in HS. nia.
  - apply Z.ltb_ge in E. constructor; [exact E | apply IH; exact HS].
Qed.

Lemma filter_none (f : Z -> bool) (l : list Z) :
  Forall (fun t => f t = false) l -> filter f l = [].
Proof.
  intros H. induction H as [|t l Ht Hl IH]; simpl; [reflexivity|].
  rewrite Ht. exact IH.
Qed.

Lemma count_eq_morph (a : list Q) (x v : Q) :
  x == v -> filter (Qeq_bool x) a = filter (Qeq_bool v) a.
Proof.
  intros E. apply filter_ext. intros z.
  rewrite (Qeq_bool_sym' x z), (Qeq_bool_sym' v z).
  apply Qeq_bool_trans_l. exact E.
Qed.

Lemma count_eq_pos (a : list Q) (x : Q) :
  In x a -> (1 <= length (filter (Qeq_bool x) a))%nat.
Proof.
  induction a as [|y a IH]; simpl; [tauto|].
  intros [-> | H].
  - rewrite Qeq_bool_refl. simpl. lia.
  - specialize (IH H). destruct (Qeq_bool x y); simpl; lia.
Qed.

(** X11. For a rank vector of at least two and at most 100000 elements
    the correction is 1 exactly when no rank occurs twice.  (The bound keeps
    the quotient of a single tied pair, [6 / (N^3 - N)], well above the
    spacing of the doubles next to 1, so that the subtraction from 1 shows
    it.) *)
Theorem tie_correction_one_iff_no_ties (rank_array : list Q) :
  (2 <= length rank_array)%nat ->
  (Z.of_nat (length rank_array) <= 100000)%Z ->
  exists c,
    tie_correction rank_array = Ok (Fin c) /\
    (c == 1 <->
     forall x, In x rank_array ->
               length (filter (Qeq_bool x) rank_array) = 1%nat).
Proof.
  intros Hn Hsmall.
  assert (Hs : (Z.of_nat (length rank_array) < 2 ^ 21)%Z).
  { eapply Z.le_lt_trans; [exact Hsmall | reflexivity]. }
  destruct (tie_correction_value rank_array Hn Hs) as (c & Hc & Ec & HD).
  exists c. split; [exact Hc|].
  set (S := sum_Z _) in Ec. set (D := (_ ^ 3 - _)%Z) in *.
  assert (HDq : 0 < inject_Z D)
    by (change 0 with (inject_Z 0); rewrite <- Zlt_Qlt; exact HD).
  assert (HDn : ~ inject_Z D == 0)
    by (intros Hq; rewrite Hq in HDq; exact (Qlt_irrefl 0 HDq)).
  split.
  - intros E1 x Hx.
    assert (HS : S = 0%Z).
    { assert (Hq : inject_Z S == 0).
      { assert (Hd : inject_Z S / inject_Z D == 0) by (rewrite Ec in E1; lra).
        rewrite <- (Qmult_div_r (inject_Z S) (inject_Z D)) by exact HDn.
        rewrite Hd. ring. }
      unfold Qeq in Hq. simpl in Hq. lia. }
    pose proof (tied_cubes_zero (np_unique_counts rank_array)
                  (unique_counts_nonneg rank_array) HS) as Hle.
    destruct (np_unique_cover rank_array x Hx) as (v & Hv & Exv).
    rewrite (count_eq_morph rank_array x v Exv).
    assert (Hv1 : (Z.of_nat (length (filter (Qeq_bool v) rank_array)) <= 1)%Z).
    { rewrite Forall_forall in Hle. apply Hle.
      unfold np_unique_counts. apply in_map_iff. exists v. split; [reflexivity | exact Hv]. }
    pose proof (count_eq_pos rank_array x Hx) as Hp.
    rewrite (count_eq_morph rank_array x v Exv) in Hp. lia.
  - intros H.
    assert (HS : S = 0%Z).
    { unfold S. rewrite filter_none; [reflexivity|].
      apply Forall_forall. intros t Ht.
      unfold np_unique_counts in Ht. apply in_map_iff in Ht.
      destruct Ht as (v & <- & Hv).
      apply in_drop_repeats in Hv. apply (proj1 (in_sorted v rank_array)) in Hv.
      rewrite (H v Hv). reflexivity. }
    rewrite Ec, HS. change (inject_Z 0) with 0. field. exact HDn.
Qed.

Lemma tie_correction_one_iff_no_ties_witness :
  ((2 <= length [3; 1; 2]%Q)%nat /\
   (Z.of_nat (length [3; 1; 2]%Q) <= 100000)%Z) /\
  exists c,
    tie_correction [3; 1; 2] = Ok (Fin c) /\
    (c == 1 <->
     forall x, In x [3; 1; 2] -> length (filter (Qeq_bool x) [3; 1; 2]) = 1%nat).
Proof.
  assert (Hn : (2 <= length [3; 1; 2]%Q)%nat) by (simpl; lia).
  assert (Hs : (Z.of_nat (length [3; 1; 2]%Q) <= 100000)%Z)
    by (simpl; lia).
  split; [split; [exact Hn | exact Hs]|].
  exact (tie_correction_one_iff_no_ties [3; 1; 2] Hn Hs).
Defined.

(* ================================================================== *)
(** * ChiSquareTest: the statistic *)

Lemma is_zero_Q (e : Q) : ~ e == 0 -> @is_zero Q _ e = false.
Proof.
  intros H. unfold is_zero. change (Qeq_bool e 0 = false).
  apply not_true_is_false. intros E. apply Qeq_bool_iff in E. contradiction.
Qed.

Lemma is_zero_Q_true (e : Q) : e == 0 -> @is_zero Q _ e = true.
Proof.
  intros H. unfold is_zero. change (Qeq_bool e 0 = true).
  apply Qeq_bool_iff. exact H.
Qed.

Lemma is_neg_Q (e : Q) : 0 <= e -> @is_neg Q _ e = false.
Proof.
  intros H. unfold is_neg. change (negb (Qle_bool 0 e) = false).
  apply negb_false_iff. apply Qle_bool_iff. exact H.
Qed.

(** The numerator of a cell: [(|o - e| - 0.5 * continuity) ** 2]. *)
Lemma chi_numerator (continuity : bool) (o e : Q) :
  fpow (fsub (fabs (fsub (Fin o) (Fin e)))
             (fmul (Fin (1 # 2)) (of_int (if continuity then 1 else 0)%Z)))
       2
  = Fin ((Qabs (o - e) - (1 # 2) * inject_Z (if continuity then 1 else 0))
         * ((Qabs (o - e) - (1 # 2) * inject_Z (if continuity then 1 else 0)) * 1)).
Proof. reflexivity. Qed.

Lemma chi_cell_fin (continuity : bool) (o e : Q) :
  ~ e == 0 ->
  exists v,
    fdiv (fpow (fsub (fabs (fsub (Fin o) (Fin e)))
                     (fmul (Fin (1 # 2)) (of_int (if continuity then 1 else 0)%Z)))
               2)
         (Fin e)
    = Fin v /\
    v == (Qabs (o - e) - (1 # 2) * (if continuity then 1 else 0)) ^ 2 / e.
Proof.
  intros He. rewrite chi_numerator. unfold fdiv. rewrite is_zero_Q by exact He.
  eexists. split; [reflexivity|].
  change (kdiv ?a ?b) with (a / b).
  destruct continuity; simpl inject_Z; field; exact He.
Qed.

(** A zero expected count: numpy's division gives [inf], or [nan] when the
    numerator is zero as well. *)
Lemma chi_cell_zero (continuity : bool) (o e : Q) :
  e == 0 ->
  let cell :=
    fdiv (fpow (fsub (fabs (fsub (Fin o) (Fin e)))
                     (fmul (Fin (1 # 2)) (of_int (if continuity then 1 else 0)%Z)))
               2)
         (Fin e) in
  cell = PInf \/ cell = NaN.
Proof.
  intros He cell. unfold cell. rewrite chi_numerator. unfold fdiv.
  rewrite (is_zero_Q_true e He).
  set (d := Qabs (o - e) - (1 # 2) * inject_Z (if continuity then 1 else 0)).
  destruct (is_zero (d * (d * 1))); [right; reflexivity|].
  rewrite is_neg_Q; [left; reflexivity|].
  assert (H : d * (d * 1) == d * d) by ring. rewrite H.
  destruct (Qlt_le_dec d 0) as [Hd | Hd]; nra.
Qed.

Lemma shape0_astype (a : ChiSquareTest.ndarray) :
  ChiSquareTest.shape0 a = Z.of_nat (length (ChiSquareTest.astype_float a)).
Proof. destruct a; simpl; [rewrite length_map|]; reflexivity. Qed.

Lemma chisquare_init_given (observed expected : ChiSquareTest.ndarray)
      (continuity : bool) (degrees_freedom : Z) :
  length (ChiSquareTest.astype_float observed)
  = length (ChiSquareTest.astype_float expected) ->
  exists c,
    ChiSquareTest.__init__ observed (Some expected) continuity degrees_freedom
    = Ok c /\
    ChiSquareTest.chi_square c
    = fsum (ChiSquareTest.cells continuity (ChiSquareTest.astype_float observed)
                                (ChiSquareTest.astype_float expected)).
Proof.
  intros Hlen. unfold ChiSquareTest.__init__.
  rewrite !shape0_astype, Hlen, Z.eqb_refl. simpl.
  eexists. split; reflexivity.
Qed.

(** X12. The constructor raises exactly when an expected vector is given
    whose length differs from that of the observed one, and the exception is
    then a ValueError. *)
Theorem chisquare_init_raises_iff (observed : ChiSquareTest.ndarray)
        (expected : option ChiSquareTest.ndarray) (continuity : bool)
        (degrees_freedom : Z) :
  (forall e, ChiSquareTest.__init__ observed expected continuity degrees_freedom
             = Raise e -> exists msg, e = ValueError msg) /\
  ((exists e, ChiSquareTest.__init__ observed expected continuity degrees_freedom
              = Raise e) <->
   exists expected', expected = Some expected' /\
                     ChiSquareTest.shape0 observed <> ChiSquareTest.shape0 expected').
Proof.
  unfold ChiSquareTest.__init__. destruct expected as [ex|]; simpl.
  - destruct (ChiSquareTest.shape0 observed =? ChiSquareTest.shape0 ex)%Z eqn:E; simpl.
    + apply Z.eqb_eq in E. split; [intros e H; discriminate|].
      split; [intros [e H]; discriminate|].
      intros (ex' & Hex & Hne). injection Hex as <-. contradiction.
    + apply Z.eqb_neq in E. split.
      * intros e H. injection H as <-. eexists. reflexivity.
      * split; [intros _; exists ex; split; [reflexivity | exact E]
               | intros _; eexists; reflexivity].
  - split; [intros e H; discriminate|].
    split; [intros [e H]; discriminate | intros (ex' & Hex & _); discriminate].
Qed.

(** With finite data and positive expected counts every cell is finite and
    non-negative, and so is their sum. *)
Lemma cells_sum_nonneg (continuity : bool) (o e : list Q) :
  length o = length e -> Forall (fun x => 0 < x) e ->
  exists v,
    fsum (ChiSquareTest.cells continuity (map Fin o) (map Fin e)) = Fin v /\
    0 <= v.
Proof.
  revert e. induction o as [|x o IH]; intros [|y e] Hlen He;
    simpl in Hlen; try discriminate.
  - exists 0. split; [reflexivity | apply Qle_refl].
  - inversion He as [|? ? Hy He']; subst.
    destruct (IH e) as (v & Hv & Hv0); [lia | exact He'|].
    destruct (chi_cell_fin continuity x y) as (w & Hw & Ew); [lra|].
    exists (w + v). split.
    + change (fsum (ChiSquareTest.cells continuity (map Fin (x :: o)) (map Fin (y :: e))))
        with (fadd (fdiv (fpow (fsub (fabs (fsub (Fin x) (Fin y)))
                                     (fmul (Fin (1 # 2))
                                           (of_int (if continuity then 1 else 0)%Z)))
                               2)
                         (Fin y))
                   (fsum (ChiSquareTest.cells continuity (map Fin o) (map Fin e)))).
      rewrite Hw, Hv. reflexivity.
    + assert (Hw0 : 0 <= w).
      { rewrite Ew. apply Qle_shift_div_l; [exact Hy|].
        set (d := Qabs (x - y) - (1 # 2) * (if continuity then 1 else 0)).
        assert (E : d ^ 2 == d * d) by (simpl; ring).
        rewrite E. destruct (Qlt_le_dec d 0); nra. }
      lra.
Qed.

(** X13. For finite observed counts and positive expected counts of the
    same length the statistic is a finite number, and it is not negative. *)
Theorem chi_square_nonneg (observed expected : ChiSquareTest.ndarray)
        (o e : list Q) (continuity : bool) (degrees_freedom : Z) :
  ChiSquareTest.astype_float observed = map Fin o ->
  ChiSquareTest.astype_float expected = map Fin e ->
  length o = length e ->
  Forall (fun x => 0 < x) e ->
  exists c v,
    ChiSquareTest.__init__ observed (Some expected) continuity degrees_freedom
    = Ok c /\
    ChiSquareTest.chi_square c = Fin v /\ 0 <= v.
Proof.
  intros Ho He Hlen Hpos.
  destruct (chisquare_init_given observed expected continuity degrees_freedom)
    as (c & Hc & Hx).
  { rewrite Ho, He, !length_map. exact Hlen. }
  destruct (cells_sum_nonneg continuity o e Hlen Hpos) as (v & Hv & Hv0).
  exists c, v. split; [exact Hc|]. split; [|exact Hv0].
  rewrite Hx, Ho, He. exact Hv.
Qed.

Lemma chi_square_nonneg_witness :
  (ChiSquareTest.astype_float (ChiSquareTest.IntArray [10; 20; 30]%Z)
   = map Fin [10; 20; 30] /\
   ChiSquareTest.astype_float (ChiSquareTest.IntArray [20; 20; 20]%Z)
   = map Fin [20; 20; 20] /\
   length [10; 20; 30]%Q = length [20; 20; 20]%Q /\
   Forall (fun x => 0 < x) [20; 20; 20]) /\
  exists c v,
    ChiSquareTest.__init__ (ChiSquareTest.IntArray [10; 20; 30]%Z)
      (Some (ChiSquareTest.IntArray [20; 20; 20]%Z)) true 1 = Ok c /\
    ChiSquareTest.chi_square c = Fin v /\ 0 <= v.
Proof.
  assert (Ho : ChiSquareTest.astype_float (ChiSquareTest.IntArray [10; 20; 30]%Z)
               = map Fin [10; 20; 30]) by reflexivity.
  assert (He : ChiSquareTest.astype_float (ChiSquareTest.IntArray [20; 20; 20]%Z)
               = map Fin [20; 20; 20]) by reflexivity.
  assert (Hlen : length [10; 20; 30]%Q = length [20; 20; 20]%Q) by reflexivity.
  assert (Hpos : Forall (fun x => 0 < x) [20; 20; 20])
    by (repeat constructor).
  split; [split; [exact Ho | split; [exact He | split; [exact Hlen | exact Hpos]]]|].
  exact (chi_square_nonneg _ _ _ _ true 1 Ho He Hlen Hpos).
Defined.

(** What a sum of cells can be when the data are finite: never [-inf]. *)
Lemma cells_sum_class (continuity : bool) (o e : list Q) :
  length o = length e ->
  let x2 := fsum (ChiSquareTest.cells continuity (map Fin o) (map Fin e)) in
  ((exists v, x2 = Fin v) \/ x2 = PInf \/ x2 = NaN) /\
  (Exists (fun x => x == 0) e -> x2 = PInf \/ x2 = NaN).
Proof.
  revert e. induction o as [|x o IH]; intros [|y e] Hlen;
    simpl in Hlen; try discriminate.
  - simpl. split; [left; eexists; reflexivity|].
    intros H. inversion H.
  - intros x2.
    assert (Ex2 : x2 = fadd (fdiv (fpow (fsub (fabs (fsub (Fin x) (Fin y)))
                                     (fmul (Fin (1 # 2))
                                           (of_int (if continuity then 1 else 0)%Z)))
                               2)
                         (Fin y))
                   (fsum (ChiSquareTest.cells continuity (map Fin o) (map Fin e))))
      by reflexivity.
    destruct (IH e) as [Hc Hz]; [lia|]. cbv zeta in Hc, Hz.
    set (rest := fsum (ChiSquareTest.cells continuity (map Fin o) (map Fin e))) in *.
    destruct (Qeq_dec y 0) as [Hy | Hy].
    + assert (Hcell := chi_cell_zero continuity x y Hy). cbv zeta in Hcell.
      assert (R : x2 = PInf \/ x2 = NaN).
      { rewrite Ex2.
        destruct Hcell as [-> | ->];
          destruct Hc as [[v ->] | [-> | ->]]; simpl; auto. }
      split; [right; exact R | intros _; exact R].
    + destruct (chi_cell_fin continuity x y Hy) as (w & Hw & _).
      rewrite Hw in Ex2. split.
      * rewrite Ex2. destruct Hc as [[v ->] | [-> | ->]]; simpl; eauto.
      * intros H. inversion H as [? ? H0 | ? ? H0]; subst; [contradiction|].
        rewrite Ex2. destruct (Hz H0) as [-> | ->]; simpl; auto.
Qed.

(** X14. An expected count of zero does not raise: the object is built and
    its statistic is [inf] or [nan]. *)
Theorem chi_square_zero_expected (observed expected : ChiSquareTest.ndarray)
        (o e : list Q) (continuity : bool) (degrees_freedom : Z) :
  ChiSquareTest.astype_float observed = map Fin o ->
  ChiSquareTest.astype_float expected = map Fin e ->
  length o = length e ->
  Exists (fun x => x == 0) e ->
  exists c,
    ChiSquareTest.__init__ observed (Some expected) continuity degrees_freedom
    = Ok c /\
    (ChiSquareTest.chi_square c = PInf \/ ChiSquareTest.chi_square c = NaN).
Proof.
  intros Ho He Hlen Hz.
  destruct (chisquare_init_given observed expected continuity degrees_freedom)
    as (c & Hc & Hx).
  { rewrite Ho, He, !length_map. exact Hlen. }
  exists c. split; [exact Hc|].
  rewrite Hx, Ho, He.
  exact (proj2 (cells_sum_class continuity o e Hlen) Hz).
Qed.

Lemma chi_square_zero_expected_witness :
  (ChiSquareTest.astype_float (ChiSquareTest.IntArray [3; 0]%Z) = map Fin [3; 0] /\
   ChiSquareTest.astype_float (ChiSquareTest.IntArray [3; 0]%Z) = map Fin [3; 0] /\
   length [3; 0]%Q = length [3; 0]%Q /\
   Exists (fun x => x == 0) [3; 0]) /\
  exists c,
    ChiSquareTest.__init__ (ChiSquareTest.IntArray [3; 0]%Z)
      (Some (ChiSquareTest.IntArray [3; 0]%Z)) true 1 = Ok c /\
    (ChiSquareTest.chi_square c = PInf \/ ChiSquareTest.chi_square c = NaN).
Proof.
  assert (Ho : ChiSquareTest.astype_float (ChiSquareTest.IntArray [3; 0]%Z)
               = map Fin [3; 0]) by reflexivity.
  assert (Hlen : length [3; 0]%Q = length [3; 0]%Q) by reflexivity.
  assert (Hz : Exists (fun x => x == 0) [3; 0]).
  { apply Exists_cons_tl. apply Exists_cons_hd. reflexivity. }
  split; [split; [exact Ho | split; [exact Ho | split; [exact Hlen | exact Hz]]]|].
  exact (chi_square_zero_expected _ _ _ _ true 1 Ho Ho Hlen Hz).
Defined.

(** With observed equal to expected every cell is [0.25 / e] under the
    continuity correction and 0 without it. *)
Lemma cells_sum_perfect (continuity : bool) (e : list Q) :
  Forall (fun x => ~ x == 0) e ->
  exists v,
    fsum (ChiSquareTest.cells continuity (map Fin e) (map Fin e)) = Fin v /\
    v == if continuity then np_sum (map (fun x => (1 # 4) / x) e) else 0.
Proof.
  intros He. induction He as [|y e Hy He IH].
  - exists 0. split; [reflexivity|]. destruct continuity; reflexivity.
  - destruct IH as (v & Hv & Ev).
    destruct (chi_cell_fin continuity y y Hy) as (w & Hw & Ew).
    exists (w + v). split.
    + change (fsum (ChiSquareTest.cells continuity (map Fin (y :: e)) (map Fin (y :: e))))
        with (fadd (fdiv (fpow (fsub (fabs (fsub (Fin y) (Fin y)))
                                     (fmul (Fin (1 # 2))
                                           (of_int (if continuity then 1 else 0)%Z)))
                               2)
                         (Fin y))
                   (fsum (ChiSquareTest.cells continuity (map Fin e) (map Fin e)))).
      rewrite Hw, Hv. reflexivity.
    + assert (E0 : Qabs (y - y) == 0).
      { assert (E : y - y == 0) by ring. rewrite E. reflexivity. }
      rewrite Ew, Ev, E0. destruct continuity.
      * simpl np_sum. field. exact Hy.
      * field. exact Hy.
Qed.

(** X15. When the observed counts equal the expected ones, none of them
    zero, the statistic is 0 without the continuity correction, and the sum
    of [0.25 / e] over the cells with it. *)
Theorem chi_square_perfect_fit (observed : ChiSquareTest.ndarray) (e : list Q)
        (continuity : bool) (degrees_freedom : Z) :
  ChiSquareTest.astype_float observed = map Fin e ->
  Forall (fun x => ~ x == 0) e ->
  exists c v,
    ChiSquareTest.__init__ observed (Some observed) continuity degrees_freedom
    = Ok c /\
    ChiSquareTest.chi_square c = Fin v /\
    v == if continuity then np_sum (map (fun x => (1 # 4) / x) e) else 0.
Proof.
  intros Ho He.
  destruct (chisquare_init_given observed observed continuity degrees_freedom)
    as (c & Hc & Hx); [reflexivity|].
  destruct (cells_sum_perfect continuity e He) as (v & Hv & Ev).
  exists c, v. split; [exact Hc|]. split; [|exact Ev].
  rewrite Hx, Ho. exact Hv.
Qed.

Lemma chi_square_perfect_fit_witness :
  (ChiSquareTest.astype_float (ChiSquareTest.IntArray [5; 10]%Z) = map Fin [5; 10] /\
   Forall (fun x => ~ x == 0) [5; 10]) /\
  exists c v,
    ChiSquareTest.__init__ (ChiSquareTest.IntArray [5; 10]%Z)
      (Some (ChiSquareTest.IntArray [5; 10]%Z)) true 1 = Ok c /\
    ChiSquareTest.chi_square c = Fin v /\
    v == if true then np_sum (map (fun x => (1 # 4) / x) [5; 10]) else 0.
Proof.
  assert (Ho : ChiSquareTest.astype_float (ChiSquareTest.IntArray [5; 10]%Z)
               = map Fin [5; 10]) by reflexivity.
  assert (He : Forall (fun x => ~ x == 0) [5; 10]).
  { repeat constructor; intros H; discriminate H. }
  split; [split; [exact Ho | exact He]|].
  exact (chi_square_perfect_fit _ _ true 1 Ho He).
Defined.

Local Open Scope R_scope.

(* ================================================================== *)
(** * BinomialTest: what the constructor accepts *)

Section BinomialConstructor.
Variable norm_ppf : float R -> float R.
Variable beta_ppf : float R -> float R -> float R -> float R.
Variables np_sin np_arcsin : float R -> float R.

Lemma binomial_init_value_error (n x : Z) (p : R) (alternative : string)
      (alpha : float R) (continuity : bool) :
  (x > n)%Z \/ 1 < p \/
  str_in alternative ["two-sided"; "greater"; "lesser"]%string = false ->
  exists msg,
    BinomialTest.__init__ norm_ppf beta_ppf np_sin np_arcsin
      n x (Fin p) alternative alpha continuity = Raise (ValueError msg).
Proof.
  intros H. unfold BinomialTest.__init__.
  destruct (x >? n)%Z eqn:E1; [eexists; reflexivity|].
  change (flt (of_int 1) (Fin p)) with (if Rlt_dec 1 p then true else false).
  destruct (Rlt_dec 1 p) as [Hgt | Hle]; [eexists; reflexivity|].
  destruct (str_in alternative ["two-sided"; "greater"; "lesser"]%string) eqn:E3;
    [|eexists; reflexivity].
  exfalso. destruct H as [H | [H | H]].
  - rewrite Z.gtb_ltb in E1. apply Z.ltb_ge in E1. lia.
  - contradiction.
  - discriminate.
Qed.

Lemma binomial_init_agresti (n x : Z) (p : float R) (alternative : string)
      (alpha : float R) (continuity : bool) (b : BinomialTest.t) :
  BinomialTest.__init__ norm_ppf beta_ppf np_sin np_arcsin
    n x p alternative alpha continuity = Ok b ->
  BinomialTest.agresti_coull_interval b
  = BinomialTest._agresti_coull_interval n x
      (norm_ppf (fsub (of_int 1) (fdiv alpha (of_int 2)))).
Proof.
  unfold BinomialTest.__init__. intros H.
  apply bind_ok in H. destruct H as (u1 & H1 & H).
  apply bind_ok in H. destruct H as (u2 & H2 & H).
  apply bind_ok in H. destruct H as (u3 & H3 & H).
  apply bind_ok in H. destruct H as (pv & Hpv & H).
  apply bind_ok in H. destruct H as (cp & Hcp & H).
  apply bind_ok in H. destruct H as (ws & Hws & H).
  apply bind_ok in H. destruct H as (at' & Hat & H).
  injection H as <-. reflexivity.
Qed.

(** X16. What the constructor does on every input with [x >= 0], a finite
    [p >= 0] and at most a million trials (the arrays of [_p_value] have
    [n + 1] entries, and a larger [n] can exhaust memory or the range of a
    double): a ValueError exactly when [x > n], [p > 1] or the
    alternative is not one of the three names; a ZeroDivisionError exactly
    when, besides, there are no trials; an object in every other case.  (A
    negative [p] passes the checks, and [q ** (n - x)] can then raise
    OverflowError; so can a negative [x], through [p ** x].) *)
Theorem binomial_init_outcome (n x : Z) (p : R) (alternative : string)
        (alpha : float R) (continuity : bool) :
  (0 <= x)%Z -> 0 <= p -> (n <= 1000000)%Z ->
  let valid := str_in alternative ["two-sided"; "greater"; "lesser"]%string in
  let r := BinomialTest.__init__ norm_ppf beta_ppf np_sin np_arcsin
             n x (Fin p) alternative alpha continuity in
  ((exists msg, r = Raise (ValueError msg)) <->
   (x > n)%Z \/ 1 < p \/ valid = false) /\
  (r = Raise ZeroDivisionError <->
   (x <= n)%Z /\ p <= 1 /\ valid = true /\ n = 0%Z) /\
  ((exists b, r = Ok b) <->
   (x <= n)%Z /\ p <= 1 /\ valid = true /\ (1 <= n)%Z).
Proof.
  intros Hx Hp0 _ valid r.
  assert (FA : (x > n)%Z \/ 1 < p \/ valid = false ->
               exists msg, r = Raise (ValueError msg))
    by apply binomial_init_value_error.
  assert (FB : (x <= n)%Z /\ p <= 1 /\ valid = true /\ n = 0%Z ->
               r = Raise ZeroDivisionError).
  { intros (H1 & H2 & H3 & ->). assert (x = 0%Z) as -> by lia.
    apply binomial_init_no_trials; [split|]; assumption. }
  assert (FC : (x <= n)%Z /\ p <= 1 /\ valid = true /\ (1 <= n)%Z ->
               exists b, r = Ok b).
  { intros (H1 & H2 & H3 & H4).
    apply binomial_init_succeeds; [lia | assumption | split; assumption
                                  | assumption]. }
  assert (T : ((x > n)%Z \/ 1 < p \/ valid = false) \/
              ((x <= n)%Z /\ p <= 1 /\ valid = true /\ n = 0%Z) \/
              ((x <= n)%Z /\ p <= 1 /\ valid = true /\ (1 <= n)%Z)).
  { destruct (Z_lt_le_dec n x) as [H1 | H1]; [left; left; lia|].
    destruct (Rlt_le_dec 1 p) as [H2 | H2]; [left; right; left; exact H2|].
    destruct valid eqn:H3; [|left; right; right; reflexivity].
    destruct (Z.eq_dec n 0) as [H4 | H4].
    - right; left. repeat split; assumption.
    - right; right. repeat split; try assumption. lia. }
  clearbody r valid.
  split; [|split]; (split; [|auto]).
  - intros [msg Hr].
    destruct T as [T | [T | T]]; [exact T | |].
    + rewrite (FB T) in Hr. discriminate.
    + destruct (FC T) as [b Hb]. rewrite Hb in Hr. discriminate.
  - intros Hr.
    destruct T as [T | [T | T]]; [| exact T |].
    + destruct (FA T) as [msg Hm]. rewrite Hm in Hr. discriminate.
    + destruct (FC T) as [b Hb]. rewrite Hb in Hr. discriminate.
  - intros [b Hr].
    destruct T as [T | [T | T]]; [| | exact T].
    + destruct (FA T) as [msg Hm]. rewrite Hm in Hr. discriminate.
    + rewrite (FB T) in Hr. discriminate.
Qed.

(** X18. The Agresti-Coull interval of a valid test ([0 <= x <= n],
    [1 <= n <= 1000000], [0 <= p <= 1]) is finite for every finite quantile [z]: its
    centre [(x + z^2 / 2) / (n + z^2)] lies in [0, 1], the bounds are
    symmetric about it, and for [z >= 0] the lower one is the smaller. *)
Theorem agresti_coull_interval_finite (n x : Z) (p : R)
        (alternative : string) (alpha : float R) (continuity : bool) (z : R) :
  (0 <= x <= n)%Z -> (1 <= n <= 1000000)%Z -> 0 <= p <= 1 ->
  str_in alternative ["two-sided"; "greater"; "lesser"]%string = true ->
  norm_ppf (fsub (of_int 1) (fdiv alpha (of_int 2))) = Fin z ->
  exists b pt lo hi,
    BinomialTest.__init__ norm_ppf beta_ppf np_sin np_arcsin
      n x (Fin p) alternative alpha continuity = Ok b /\
    BinomialTest.agresti_coull_interval b
    = {| BinomialTest.probability_of_success := Fin pt;
         BinomialTest.lower_bound := Fin lo;
         BinomialTest.upper_bound := Fin hi |} /\
    pt = (IZR x + z * z / 2) / (IZR n + z * z) /\
    0 <= pt <= 1 /\
    lo + hi = 2 * pt /\
    (0 <= z -> lo <= pt <= hi).
Proof.
  intros Hx [Hn _] Hp Halt Hz.
  destruct (binomial_init_succeeds norm_ppf beta_ppf np_sin np_arcsin
              n x p alternative alpha continuity Hx Hn Hp Halt)
    as [b Hb].
  exists b. apply binomial_init_agresti in Hb as Hac. rewrite Hz in Hac.
  assert (HN : 1 <= IZR n) by (apply IZR_le in Hn; exact Hn).
  assert (HX : 0 <= IZR x <= IZR n) by (split; apply IZR_le; lia).
  assert (Hzz : 0 <= z * z) by nra.
  set (nbar := IZR n + z * z).
  assert (Hnbar : 0 < nbar) by (unfold nbar; lra).
  set (pt := (IZR x + z * z / 2) / nbar).
  assert (Hpt : 0 <= pt <= 1).
  { unfold pt. apply quotient_in_unit; unfold nbar; lra. }
  assert (Hrad : 0 <= pt / nbar * (1 - pt)).
  { apply Rmult_le_pos; [|lra]. unfold Rdiv. apply Rmult_le_pos; [lra|].
    apply Rlt_le, Rinv_0_lt_compat. exact Hnbar. }
  unfold BinomialTest._agresti_coull_interval in Hac.
  rewrite !of_int_R, fpow_2, !fadd_fin in Hac. fold nbar in Hac.
  rewrite !fdiv_fin in Hac by lra. rewrite fadd_fin, fmul_fin in Hac.
  replace (1 / nbar * (IZR x + z * z / 2)) with pt in Hac
    by (unfold pt; field; lra).
  rewrite fdiv_fin, fsub_fin, fmul_fin in Hac by lra.
  rewrite np_sqrt_fin in Hac by exact Hrad.
  rewrite fmul_fin, fsub_fin, fadd_fin in Hac.
  set (s := sqrt (pt / nbar * (1 - pt))) in *.
  assert (Hs : 0 <= s) by apply sqrt_pos.
  exists pt, (pt - z * s), (pt + z * s).
  split; [exact Hb|]. split; [exact Hac|]. split; [reflexivity|].
  split; [exact Hpt|]. split; [ring|].
  intros Hz0. assert (0 <= z * s) by (apply Rmult_le_pos; assumption). lra.
Qed.

End BinomialConstructor.

Lemma binomial_init_outcome_witness :
  ((0 <= 1)%Z /\ 0 <= 1 / 2 /\ (2 <= 1000000)%Z) /\
  ((exists msg,
      BinomialTest.__init__ (fun _ => Fin 2) (fun _ _ _ => NaN)
        (fun v => v) (fun v => v) 2 1 (Fin (1 / 2)) "two-sided"
        (Fin (5 / 100)) true = Raise (ValueError msg)) <->
   (1 > 2)%Z \/ 1 < 1 / 2 \/
   str_in "two-sided" ["two-sided"; "greater"; "lesser"]%string = false) /\
  (BinomialTest.__init__ (fun _ => Fin 2) (fun _ _ _ => NaN)
     (fun v => v) (fun v => v) 2 1 (Fin (1 / 2)) "two-sided"
     (Fin (5 / 100)) true = Raise ZeroDivisionError <->
   (1 <= 2)%Z /\ 1 / 2 <= 1 /\
   str_in "two-sided" ["two-sided"; "greater"; "lesser"]%string = true /\
   2%Z = 0%Z) /\
  ((exists b,
      BinomialTest.__init__ (fun _ => Fin 2) (fun _ _ _ => NaN)
        (fun v => v) (fun v => v) 2 1 (Fin (1 / 2)) "two-sided"
        (Fin (5 / 100)) true = Ok b) <->
   (1 <= 2)%Z /\ 1 / 2 <= 1 /\
   str_in "two-sided" ["two-sided"; "greater"; "lesser"]%string = true /\
   (1 <= 2)%Z).
Proof.
  assert (Hx : (0 <= 1)%Z) by lia.
  assert (Hp : 0 <= 1 / 2) by lra.
  assert (Hn : (2 <= 1000000)%Z) by lia.
  split; [split; [exact Hx | split; [exact Hp | exact Hn]]|].
  exact (binomial_init_outcome (fun _ => Fin 2) (fun _ _ _ => NaN)
           (fun v => v) (fun v => v) 2 1 (1 / 2) "two-sided" (Fin (5 / 100))
           true Hx Hp Hn).
Defined.

Lemma agresti_coull_interval_finite_witness :
  ((0 <= 1 <= 2)%Z /\ (1 <= 2 <= 1000000)%Z /\ 0 <= 1 / 2 <= 1 /\
   str_in "two-sided" ["two-sided"; "greater"; "lesser"]%string = true /\
   (fun _ : float R => Fin 2) (fsub (of_int 1) (fdiv (Fin (5 / 100)) (of_int 2)))
   = Fin 2) /\
  exists b pt lo hi,
    BinomialTest.__init__ (fun _ => Fin 2) (fun _ _ _ => NaN)
      (fun v => v) (fun v => v) 2 1 (Fin (1 / 2)) "two-sided"
      (Fin (5 / 100)) true = Ok b /\
    BinomialTest.agresti_coull_interval b
    = {| BinomialTest.probability_of_success := Fin pt;
         BinomialTest.lower_bound := Fin lo;
         BinomialTest.upper_bound := Fin hi |} /\
    pt = (IZR 1 + 2 * 2 / 2) / (IZR 2 + 2 * 2) /\
    0 <= pt <= 1 /\
    lo + hi = 2 * pt /\
    (0 <= 2 -> lo <= pt <= hi).
Proof.
  assert (Hx : (0 <= 1 <= 2)%Z) by lia.
  assert (Hn : (1 <= 2 <= 1000000)%Z) by lia.
  assert (Hp : 0 <= 1 / 2 <= 1) by lra.
  assert (Ha : str_in "two-sided" ["two-sided"; "greater"; "lesser"]%string = true)
    by reflexivity.
  assert (Hz : (fun _ : float R => Fin 2)
                 (fsub (of_int 1) (fdiv (Fin (5 / 100)) (of_int 2))) = Fin 2)
    by reflexivity.
  split; [split; [exact Hx | split; [exact Hn | split; [exact Hp | split; [exact Ha | exact Hz]]]]|].
  exact (agresti_coull_interval_finite (fun _ => Fin 2) (fun _ _ _ => NaN)
           (fun v => v) (fun v => v) 2 1 (1 / 2) "two-sided" (Fin (5 / 100))
           true 2 Hx Hn Hp Ha Hz).
Defined.

(* ================================================================== *)
(** * tTest: what the constructor accepts and computes *)

Lemma fadd_comm (a b : float R) : fadd a b = fadd b a.
Proof.
  destruct a, b; simpl; try reflexivity. f_equal. apply Rplus_comm.
Qed.

Lemma fneg_fsub (a b : float R) : fneg (fsub a b) = fsub b a.
Proof.
  unfold fsub. destruct a, b; simpl; try reflexivity. f_equal. ring.
Qed.

Lemma is_zero_R (x : R) : @is_zero R _ x = if Req_dec_T x 0 then true else false.
Proof. reflexivity. Qed.

Lemma is_neg_R (x : R) : @is_neg R _ x = if Rlt_dec x 0 then true else false.
Proof. reflexivity. Qed.

Lemma fneg_fdiv (a b : float R) : fneg (fdiv a b) = fdiv (fneg a) b.
Proof.
  destruct a as [x| | |], b as [y| | |]; try reflexivity.
  - unfold fneg at 2. unfold fdiv. rewrite !is_zero_R, !is_neg_R.
    destruct (Req_dec_T y 0) as [Hy | Hy].
    + destruct (Req_dec_T x 0) as [Hx | Hx];
        destruct (Req_dec_T (kopp x) 0) as [Hx' | Hx']; simpl in Hx';
        try lra; try reflexivity.
      destruct (Rlt_dec x 0), (Rlt_dec (kopp x) 0); simpl in *; try lra; reflexivity.
    + simpl. f_equal. unfold Rdiv. ring.
  - simpl. f_equal. ring.
  - simpl. f_equal. ring.
  - simpl. destruct (Rlt_dec y 0); reflexivity.
  - simpl. destruct (Rlt_dec y 0); reflexivity.
Qed.

Lemma py_truediv_zero (a : float R) : py_truediv a (Fin 0) = Raise ZeroDivisionError.
Proof.
  unfold py_truediv. rewrite is_zero_R.
  destruct (Req_dec_T 0 0); [reflexivity | contradiction].
Qed.

Lemma subtract_length (a b : list (float R)) :
  length a = length b -> length (tTest.subtract a b) = length a.
Proof.
  revert b. induction a as [|u a IH]; intros [|v b] H; simpl in *;
    try discriminate; [reflexivity|].
  f_equal. apply IH. lia.
Qed.

Section TTestChain.
Variable t_cdf : float R -> float R -> float R.
Variable t_ppf : float R -> float R -> float R.

(** Once the arguments are accepted, the constructor is the chain of the
    three computations on the sample statistics. *)
Lemma ttest_init_chain (y1 : list (float R)) (y2 : option (list (float R)))
      (mu : option (float R)) (var_equal paired : bool) (alternative : string)
      (alpha : float R) (d1 : list (float R)) (d2 : option (list (float R))) :
  str_in alternative ["two-sided"; "greater"; "less"]%string = true ->
  design_of y1 y2 paired d1 d2 ->
  exists mk : float R -> float R -> float R * float R -> tTest.t,
    tTest.__init__ t_cdf t_ppf y1 y2 mu var_equal paired alternative alpha
    = (df <- tTest._degrees_of_freedom (tTest._sample_stats d1)
               (option_map tTest._sample_stats d2) var_equal ;;
       ts <- tTest._test_statistic (tTest._sample_stats d1)
               (option_map tTest._sample_stats d2) var_equal mu ;;
       ci <- tTest._conf_int t_ppf (tTest._sample_stats d1)
               (option_map tTest._sample_stats d2) alpha df alternative ;;
       Ok (mk df ts ci)) /\
    forall df ts ci,
      tTest.y1 (mk df ts ci) = d1 /\ tTest.y2 (mk df ts ci) = d2 /\
      tTest.sample_statistics_y1 (mk df ts ci) = tTest._sample_stats d1 /\
      tTest.sample_statistics_y2 (mk df ts ci)
      = option_map tTest._sample_stats d2 /\
      tTest.parameter (mk df ts ci) = df /\
      tTest.t_statistic (mk df ts ci) = ts /\
      tTest.confidence_interval (mk df ts ci) = ci /\
      tTest.p_value (mk df ts ci) = tTest._pvalue t_cdf ts df alternative.
Proof.
  intros Halt Hd. unfold tTest.__init__. rewrite Halt. simpl raise_if.
  cbv beta iota delta [bind].
  destruct paired, y2 as [s|]; simpl in Hd.
  - destruct Hd as (Hlen & -> & ->).
    unfold tTest._paired. rewrite (proj2 (Nat.eqb_eq _ _) Hlen). simpl raise_if.
    cbv beta iota delta [bind].
    eexists (fun df ts ci => _). split; [reflexivity|].
    intros df ts ci. simpl. repeat split.
  - contradiction.
  - destruct Hd as (-> & ->).
    eexists (fun df ts ci => _). split; [reflexivity|].
    intros df ts ci. simpl. repeat split.
  - destruct Hd as (-> & ->).
    eexists (fun df ts ci => _). split; [reflexivity|].
    intros df ts ci. simpl. repeat split.
Qed.


Lemma enough_data_dec (d1 : list (float R)) (d2 : option (list (float R)))
      (var_equal : bool) :
  enough_data d1 d2 var_equal \/ ~ enough_data d1 d2 var_equal.
Proof.
  unfold enough_data. destruct d1 as [|u d1].
  - right. intros [H _]. apply H. reflexivity.
  - destruct d2 as [[|v s]|].
    + right. intros (_ & H & _). apply H. reflexivity.
    + destruct var_equal.
      * destruct (Nat.eq_dec (length (u :: d1) + length (v :: s)) 2) as [E | E].
        -- right. intros (_ & _ & H). apply (H eq_refl). exact E.
        -- left. split; [discriminate|]. split; [discriminate|]. intros _. exact E.
      * left. split; [discriminate|]. split; [discriminate|]. intros H. discriminate.
    + left. split; [discriminate | exact I].
Qed.

Lemma chain_ok (d1 : list (float R)) (d2 : option (list (float R)))
      (var_equal : bool) (mu : option (float R)) (alpha : float R)
      (alternative : string) :
  enough_data d1 d2 var_equal ->
  exists df ts ci,
    tTest._degrees_of_freedom (tTest._sample_stats d1)
      (option_map tTest._sample_stats d2) var_equal = Ok df /\
    tTest._test_statistic (tTest._sample_stats d1)
      (option_map tTest._sample_stats d2) var_equal mu = Ok ts /\
    tTest._conf_int t_ppf (tTest._sample_stats d1)
      (option_map tTest._sample_stats d2) alpha df alternative = Ok ci.
Proof.
  intros [H1 H2].
  assert (N1 : IZR (Z.of_nat (length d1)) <> 0).
  { apply not_0_IZR. destruct d1; [contradiction | simpl; lia]. }
  destruct d2 as [s|].
  - destruct H2 as [H2 H3].
    assert (N2 : IZR (Z.of_nat (length s)) <> 0).
    { apply not_0_IZR. destruct s; [contradiction | simpl; lia]. }
    unfold tTest._degrees_of_freedom, tTest._test_statistic, tTest._conf_int.
    simpl option_map. simpl tTest.obs.
    rewrite !of_int_R. rewrite !py_truediv_ok by assumption.
    cbv beta iota delta [bind].
    destruct var_equal.
    + rewrite !fsub_fin.
      assert (N3 : IZR (Z.of_nat (length d1) + Z.of_nat (length s)) - 2 <> 0).
      { rewrite <- minus_IZR. apply not_0_IZR. specialize (H3 eq_refl). lia. }
      rewrite !py_truediv_ok by assumption.
      cbv beta iota delta [bind].
      do 3 eexists. repeat split; reflexivity.
    + do 3 eexists. repeat split; reflexivity.
  - destruct (single_sample_tail t_ppf (tTest._sample_stats d1) var_equal mu
                alpha alternative) as (ts & ci & Hdf & Hts & Hci).
    { simpl. destruct d1; [contradiction | simpl; lia]. }
    simpl option_map. do 3 eexists. split; [exact Hdf|]. split; [exact Hts|].
    exact Hci.
Qed.

Lemma chain_fail {X : Type} (d1 : list (float R)) (d2 : option (list (float R)))
      (var_equal : bool) (mu : option (float R)) (alpha : float R)
      (alternative : string)
      (k : float R -> float R -> float R * float R -> result X) :
  ~ enough_data d1 d2 var_equal ->
  (df <- tTest._degrees_of_freedom (tTest._sample_stats d1)
           (option_map tTest._sample_stats d2) var_equal ;;
   ts <- tTest._test_statistic (tTest._sample_stats d1)
           (option_map tTest._sample_stats d2) var_equal mu ;;
   ci <- tTest._conf_int t_ppf (tTest._sample_stats d1)
           (option_map tTest._sample_stats d2) alpha df alternative ;;
   k df ts ci) = Raise ZeroDivisionError.
Proof.
  intros Hne.
  unfold tTest._degrees_of_freedom, tTest._test_statistic.
  destruct d2 as [s|]; simpl option_map;
    change (tTest.obs (tTest._sample_stats d1)) with (Z.of_nat (length d1));
    rewrite !of_int_R.
  - change (tTest.obs (tTest._sample_stats s)) with (Z.of_nat (length s)).
    destruct var_equal.
    + cbv beta iota delta [bind]. rewrite !fsub_fin.
      destruct (Z.eq_dec (Z.of_nat (length d1) + Z.of_nat (length s)) 2) as [E | E].
      * rewrite E. replace (2 - 2) with 0 by ring.
        rewrite py_truediv_zero. reflexivity.
      * assert (N3 : IZR (Z.of_nat (length d1) + Z.of_nat (length s)) - 2 <> 0).
        { rewrite <- minus_IZR. apply not_0_IZR. lia. }
        rewrite py_truediv_ok by exact N3.
        cbv beta iota delta [bind].
        destruct d1 as [|u d1];
          [change (Z.of_nat (length (@nil (float R)))) with 0%Z;
           rewrite py_truediv_zero; reflexivity|].
        assert (N1 : IZR (Z.of_nat (length (u :: d1))) <> 0)
          by (apply not_0_IZR; simpl; lia).
        rewrite py_truediv_ok by exact N1. cbv beta iota delta [bind].
        destruct s as [|v s];
          [change (Z.of_nat (length (@nil (float R)))) with 0%Z;
           rewrite py_truediv_zero; reflexivity|].
        exfalso. apply Hne. split; [discriminate|]. split; [discriminate|].
        intros _. lia.
    + destruct d1 as [|u d1];
          [change (Z.of_nat (length (@nil (float R)))) with 0%Z;
           rewrite py_truediv_zero; reflexivity|].
      assert (N1 : IZR (Z.of_nat (length (u :: d1))) <> 0)
        by (apply not_0_IZR; simpl; lia).
      rewrite !py_truediv_ok by exact N1. cbv beta iota delta [bind].
      destruct s as [|v s];
          [change (Z.of_nat (length (@nil (float R)))) with 0%Z;
           rewrite py_truediv_zero; reflexivity|].
      exfalso. apply Hne. split; [discriminate|]. split; [discriminate|].
      intros H. discriminate.
  - cbv beta iota delta [bind].
    destruct d1 as [|u d1];
          [change (Z.of_nat (length (@nil (float R)))) with 0%Z;
           rewrite py_truediv_zero; reflexivity|].
    exfalso. apply Hne. split; [discriminate | exact I].
Qed.


End TTestChain.

Section TTestProperties.
Variable t_cdf : float R -> float R -> float R.
Variable t_ppf : float R -> float R -> float R.

Lemma ttest_value_error (y1 : list (float R)) (y2 : option (list (float R)))
      (mu : option (float R)) (var_equal paired : bool) (alternative : string)
      (alpha : float R) :
  str_in alternative ["two-sided"; "greater"; "less"]%string = false \/
  (paired = true /\
   match y2 with
   | None => True
   | Some s => length y1 <> length s
   end) ->
  exists msg,
    tTest.__init__ t_cdf t_ppf y1 y2 mu var_equal paired alternative alpha
    = Raise (ValueError msg).
Proof.
  intros H. unfold tTest.__init__.
  destruct (str_in alternative ["two-sided"; "greater"; "less"]%string) eqn:E;
    [|eexists; reflexivity].
  destruct H as [H | [-> H]]; [discriminate|].
  simpl raise_if. cbv beta iota delta [bind].
  destruct y2 as [s|]; [|eexists; reflexivity].
  unfold tTest._paired. rewrite (proj2 (Nat.eqb_neq _ _) H).
  eexists. reflexivity.
Qed.

Lemma design_exists (y1 : list (float R)) (y2 : option (list (float R)))
      (paired : bool) :
  (paired = true /\
   match y2 with
   | None => True
   | Some s => length y1 <> length s
   end) \/
  exists d1 d2, design_of y1 y2 paired d1 d2 /\ length d1 = length y1.
Proof.
  unfold design_of. destruct paired.
  - destruct y2 as [s|]; [|left; split; [reflexivity | exact I]].
    destruct (Nat.eq_dec (length y1) (length s)) as [E | E].
    + right. exists (tTest.subtract y1 s), None.
      split; [repeat split; exact E | apply subtract_length; exact E].
    + left. split; [reflexivity | exact E].
  - right. exists y1, y2. repeat split.
Qed.

Lemma ttest_outcome_by_design (y1 : list (float R)) (y2 : option (list (float R)))
        (mu : option (float R)) (var_equal paired : bool)
        (alternative : string) (alpha : float R) :
  let valid := str_in alternative ["two-sided"; "greater"; "less"]%string in
  let r := tTest.__init__ t_cdf t_ppf y1 y2 mu var_equal paired alternative
                          alpha in
  ((exists msg, r = Raise (ValueError msg)) <->
   valid = false \/
   (paired = true /\
    match y2 with
    | None => True
    | Some s => length y1 <> length s
    end)) /\
  ((exists b, r = Ok b) <->
   valid = true /\
   exists d1 d2, design_of y1 y2 paired d1 d2 /\ enough_data d1 d2 var_equal) /\
  (forall e, r = Raise e -> (exists msg, e = ValueError msg) \/ e = ZeroDivisionError).
Proof.
  intros valid r.
  assert (FA : valid = false \/
               (paired = true /\
                match y2 with
                | None => True
                | Some s => length y1 <> length s
                end) -> exists msg, r = Raise (ValueError msg))
    by apply ttest_value_error.
  destruct valid eqn:Hv.
  - destruct (design_exists y1 y2 paired) as [Hbad | (d1 & d2 & Hd & Hlen)].
    + destruct (FA (or_intror Hbad)) as [msg Hm].
      split; [|split].
      * split; [intros _; right; exact Hbad | intros _; exists msg; exact Hm].
      * split; [intros [b Hb]; rewrite Hm in Hb; discriminate|].
        intros (_ & e1 & e2 & He & _). exfalso.
        destruct Hbad as [-> Hbad]. unfold design_of in He.
        destruct y2 as [s|]; [|exact He]. destruct He as [He _]. contradiction.
      * intros e He. rewrite Hm in He. injection He as <-. left. eexists. reflexivity.
    + assert (Hgood : ~ (paired = true /\
                         match y2 with
                         | None => True
                         | Some s => length y1 <> length s
                         end)).
      { intros [-> Hbad]. unfold design_of in Hd.
        destruct y2 as [s|]; [|exact Hd]. destruct Hd as [Hd _]. contradiction. }
      destruct (ttest_init_chain t_cdf t_ppf y1 y2 mu var_equal paired alternative
                  alpha d1 d2 Hv Hd) as (mk & Hr & _).
      fold r in Hr.
      destruct (enough_data_dec d1 d2 var_equal) as [Hen | Hen].
      * destruct (chain_ok t_ppf d1 d2 var_equal mu alpha alternative Hen)
          as (df & ts & ci & Hdf & Hts & Hci).
        rewrite Hdf, Hts in Hr. cbv beta iota delta [bind] in Hr.
        rewrite Hci in Hr.
        split; [|split].
        -- split; [intros [msg Hm]; rewrite Hr in Hm; discriminate|].
           intros [H | H]; [discriminate | contradiction].
        -- split; [intros _; split; [reflexivity|]; exists d1, d2; split; assumption|].
           intros _. eexists. exact Hr.
        -- intros e He. rewrite Hr in He. discriminate.
      * pose proof (chain_fail t_ppf d1 d2 var_equal mu alpha alternative
                      (fun df ts ci => Ok (mk df ts ci)) Hen) as Hf.
        rewrite Hf in Hr.
        split; [|split].
        -- split; [intros [msg Hm]; rewrite Hr in Hm; discriminate|].
           intros [H | H]; [discriminate | contradiction].
        -- split; [intros [b Hb]; rewrite Hr in Hb; discriminate|].
           intros (_ & e1 & e2 & He & Hen'). exfalso. apply Hen.
           assert (e1 = d1 /\ e2 = d2) as [-> ->]; [|exact Hen'].
           unfold design_of in Hd, He. destruct paired.
           ++ destruct y2 as [s|]; [|contradiction].
              destruct Hd as (_ & -> & ->). destruct He as (_ & -> & ->).
              split; reflexivity.
           ++ destruct Hd as (-> & ->). destruct He as (-> & ->). split; reflexivity.
        -- intros e He. rewrite Hr in He. injection He as <-. right. reflexivity.
  - destruct (FA (or_introl eq_refl)) as [msg Hm].
    split; [|split].
    + split; [intros _; left; reflexivity | intros _; exists msg; exact Hm].
    + split; [intros [b Hb]; rewrite Hm in Hb; discriminate|].
      intros [H _]. discriminate.
    + intros e He. rewrite Hm in He. injection He as <-. left. eexists. reflexivity.
Qed.

Lemma design_enough (y1 : list (float R)) (y2 : option (list (float R)))
      (var_equal paired : bool) :
  (exists d1 d2, design_of y1 y2 paired d1 d2 /\ enough_data d1 d2 var_equal) <->
  y1 <> [] /\
  match paired, y2 with
  | true, None => False
  | true, Some s => length y1 = length s
  | false, None => True
  | false, Some s =>
      s <> [] /\ (var_equal = true -> (length y1 + length s <> 2)%nat)
  end.
Proof.
  unfold design_of, enough_data. destruct paired.
  - destruct y2 as [s|].
    + split.
      * intros (d1 & d2 & (Hlen & -> & ->) & Hne & _).
        split; [|exact Hlen]. intros ->. apply Hne.
        destruct s; [reflexivity | discriminate].
      * intros [Hne Hlen]. exists (tTest.subtract y1 s), None.
        split; [repeat split; exact Hlen|]. split; [|exact I].
        intros E. apply Hne. pose proof (subtract_length y1 s Hlen) as L.
        rewrite E in L. destruct y1; [reflexivity | discriminate].
    + split; [intros (d1 & d2 & [] & _) | intros [_ []]].
  - split.
    + intros (d1 & d2 & (-> & ->) & Hne & H). split; [exact Hne|].
      destruct y2; exact H.
    + intros [Hne H]. exists y1, y2. split; [split; reflexivity|].
      split; [exact Hne|]. destruct y2; exact H.
Qed.

(** X19. What the constructor does on every input: a ValueError exactly for
    an unknown alternative or a paired test without a second sample of the
    same length; an object exactly when, besides, no sample is empty and a
    pooled test has more than two observations; a ZeroDivisionError in every
    other case. *)
Theorem ttest_init_outcome (y1 : list (float R)) (y2 : option (list (float R)))
        (mu : option (float R)) (var_equal paired : bool)
        (alternative : string) (alpha : float R) :
  let valid := str_in alternative ["two-sided"; "greater"; "less"]%string in
  let r := tTest.__init__ t_cdf t_ppf y1 y2 mu var_equal paired alternative
                          alpha in
  ((exists msg, r = Raise (ValueError msg)) <->
   valid = false \/
   (paired = true /\
    match y2 with
    | None => True
    | Some s => length y1 <> length s
    end)) /\
  ((exists b, r = Ok b) <->
   valid = true /\ y1 <> [] /\
   match paired, y2 with
   | true, None => False
   | true, Some s => length y1 = length s
   | false, None => True
   | false, Some s =>
       s <> [] /\ (var_equal = true -> (length y1 + length s <> 2)%nat)
   end) /\
  (forall e, r = Raise e ->
             (exists msg, e = ValueError msg) \/ e = ZeroDivisionError).
Proof.
  intros valid r.
  destruct (ttest_outcome_by_design y1 y2 mu var_equal paired alternative alpha)
    as (H1 & H2 & H3).
  split; [exact H1|]. split; [|exact H3].
  fold valid r in H2. rewrite H2.
  rewrite (design_enough y1 y2 var_equal paired). reflexivity.
Qed.

(** What a constructed object holds. *)
Lemma ttest_init_fields (y1 : list (float R)) (y2 : option (list (float R)))
      (mu : option (float R)) (var_equal paired : bool) (alternative : string)
      (alpha : float R) (b : tTest.t) :
  tTest.__init__ t_cdf t_ppf y1 y2 mu var_equal paired alternative alpha = Ok b ->
  design_of y1 y2 paired (tTest.y1 b) (tTest.y2 b) /\
  tTest.sample_statistics_y1 b = tTest._sample_stats (tTest.y1 b) /\
  tTest.sample_statistics_y2 b = option_map tTest._sample_stats (tTest.y2 b) /\
  tTest._degrees_of_freedom (tTest._sample_stats (tTest.y1 b))
    (option_map tTest._sample_stats (tTest.y2 b)) var_equal
  = Ok (tTest.parameter b) /\
  tTest._test_statistic (tTest._sample_stats (tTest.y1 b))
    (option_map tTest._sample_stats (tTest.y2 b)) var_equal mu
  = Ok (tTest.t_statistic b) /\
  tTest._conf_int t_ppf (tTest._sample_stats (tTest.y1 b))
    (option_map tTest._sample_stats (tTest.y2 b)) alpha (tTest.parameter b)
    alternative
  = Ok (tTest.confidence_interval b).
Proof.
  intros Hb.
  pose proof (ttest_init_inv t_cdf t_ppf _ _ _ _ _ _ _ _ Hb) as (Hv & _ & _).
  destruct (design_exists y1 y2 paired) as [Hbad | (d1 & d2 & Hd & _)].
  - destruct (ttest_value_error y1 y2 mu var_equal paired alternative alpha
                (or_intror Hbad)) as [msg Hm].
    rewrite Hm in Hb. discriminate.
  - destruct (ttest_init_chain t_cdf t_ppf y1 y2 mu var_equal paired alternative
                alpha d1 d2 Hv Hd) as (mk & Hr & Hmk).
    rewrite Hr in Hb.
    apply bind_ok in Hb. destruct Hb as (df & Hdf & Hb).
    apply bind_ok in Hb. destruct Hb as (ts & Hts & Hb).
    apply bind_ok in Hb. destruct Hb as (ci & Hci & Hb).
    injection Hb as <-.
    destruct (Hmk df ts ci) as (E1 & E2 & E3 & E4 & E5 & E6 & E7 & _).
    rewrite E1, E2, E3, E4, E5, E6, E7.
    repeat split; assumption.
Qed.

Lemma ttest_init_build (y1 : list (float R)) (y2 : option (list (float R)))
      (mu : option (float R)) (var_equal paired : bool) (alternative : string)
      (alpha : float R) (d1 : list (float R)) (d2 : option (list (float R)))
      (df ts : float R) (ci : float R * float R) :
  str_in alternative ["two-sided"; "greater"; "less"]%string = true ->
  design_of y1 y2 paired d1 d2 ->
  tTest._degrees_of_freedom (tTest._sample_stats d1)
    (option_map tTest._sample_stats d2) var_equal = Ok df ->
  tTest._test_statistic (tTest._sample_stats d1)
    (option_map tTest._sample_stats d2) var_equal mu = Ok ts ->
  tTest._conf_int t_ppf (tTest._sample_stats d1)
    (option_map tTest._sample_stats d2) alpha df alternative = Ok ci ->
  exists b,
    tTest.__init__ t_cdf t_ppf y1 y2 mu var_equal paired alternative alpha = Ok b /\
    tTest.y1 b = d1 /\ tTest.y2 b = d2 /\
    tTest.sample_statistics_y1 b = tTest._sample_stats d1 /\
    tTest.parameter b = df /\ tTest.t_statistic b = ts /\
    tTest.confidence_interval b = ci /\
    tTest.p_value b = tTest._pvalue t_cdf ts df alternative.
Proof.
  intros Hv Hd Hdf Hts Hci.
  destruct (ttest_init_chain t_cdf t_ppf y1 y2 mu var_equal paired alternative
              alpha d1 d2 Hv Hd) as (mk & Hr & Hmk).
  rewrite Hdf, Hts in Hr. cbv beta iota delta [bind] in Hr. rewrite Hci in Hr.
  exists (mk df ts ci). split; [exact Hr|].
  destruct (Hmk df ts ci) as (E1 & E2 & E3 & E4 & E5 & E6 & E7 & E8).
  repeat split; assumption.
Qed.

(** X20. The degrees of freedom the tests assert: [n1 + n2 - 2] for the
    pooled two-sample test, and [n - 1] for a one-sample or a paired test of
    [n] observations. *)
Theorem ttest_degrees_of_freedom (y1 : list (float R))
        (y2 : option (list (float R))) (mu : option (float R))
        (var_equal paired : bool) (alternative : string) (alpha : float R)
        (b : tTest.t) :
  tTest.__init__ t_cdf t_ppf y1 y2 mu var_equal paired alternative alpha = Ok b ->
  match paired, y2 with
  | false, Some s =>
      var_equal = true ->
      tTest.parameter b = of_int (Z.of_nat (length y1) + Z.of_nat (length s) - 2)
  | _, _ => tTest.parameter b = of_int (Z.of_nat (length y1) - 1)
  end.
Proof.
  intros Hb. apply ttest_init_fields in Hb.
  destruct Hb as (Hd & _ & _ & Hdf & _).
  unfold design_of in Hd. unfold tTest._degrees_of_freedom in Hdf.
  destruct paired.
  - destruct y2 as [s|]; [|contradiction].
    destruct Hd as (Hlen & E1 & E2). rewrite E1, E2 in Hdf.
    simpl in Hdf. injection Hdf as <-.
    rewrite (subtract_length y1 s Hlen). reflexivity.
  - destruct Hd as [E1 E2]. rewrite E1, E2 in Hdf.
    destruct y2 as [s|]; simpl in Hdf.
    + intros ->. injection Hdf as <-. reflexivity.
    + injection Hdf as <-. reflexivity.
Qed.

(** X21. A paired test of two vectors of the same length is the one-sample
    test of their differences: both calls fail alike, or both return, with
    the same sample statistics, degrees of freedom, statistic, p-value and
    confidence interval. *)
Theorem paired_is_one_sample_of_differences (y1 s : list (float R))
        (mu : option (float R)) (var_equal : bool) (alternative : string)
        (alpha : float R) :
  length y1 = length s ->
  match tTest.__init__ t_cdf t_ppf y1 (Some s) mu var_equal true alternative alpha,
        tTest.__init__ t_cdf t_ppf (tTest.subtract y1 s) None mu var_equal false
                       alternative alpha
  with
  | Ok b, Ok b' =>
      tTest.sample_statistics_y1 b = tTest.sample_statistics_y1 b' /\
      tTest.parameter b = tTest.parameter b' /\
      tTest.t_statistic b = tTest.t_statistic b' /\
      tTest.p_value b = tTest.p_value b' /\
      tTest.confidence_interval b = tTest.confidence_interval b'
  | Raise e, Raise e' => e = e'
  | _, _ => False
  end.
Proof.
  intros Hlen.
  destruct (str_in alternative ["two-sided"; "greater"; "less"]%string) eqn:Hv.
  - assert (D1 : design_of y1 (Some s) true (tTest.subtract y1 s) None)
      by (unfold design_of; repeat split; exact Hlen).
    assert (D2 : design_of (tTest.subtract y1 s) None false (tTest.subtract y1 s) None)
      by (unfold design_of; split; reflexivity).
    destruct (ttest_init_chain t_cdf t_ppf y1 (Some s) mu var_equal true
                alternative alpha _ _ Hv D1) as (mk & Hr & Hmk).
    destruct (ttest_init_chain t_cdf t_ppf (tTest.subtract y1 s) None mu var_equal
                false alternative alpha _ _ Hv D2) as (mk' & Hr' & Hmk').
    rewrite Hr, Hr'.
    destruct (tTest._degrees_of_freedom _ _ _) as [df | e]; [|reflexivity].
    cbv beta iota delta [bind].
    destruct (tTest._test_statistic _ _ _ _) as [ts | e]; [|reflexivity].
    destruct (tTest._conf_int _ _ _ _ _ _) as [ci | e]; [|reflexivity].
    destruct (Hmk df ts ci) as (_ & _ & E3 & _ & E5 & E6 & E7 & E8).
    destruct (Hmk' df ts ci) as (_ & _ & F3 & _ & F5 & F6 & F7 & F8).
    rewrite E3, E5, E6, E7, E8, F3, F5, F6, F7, F8. repeat split.
  - unfold tTest.__init__. rewrite Hv. reflexivity.
Qed.

Lemma np_mean_single (v : R) : tTest.np_mean [Fin v] = Fin v.
Proof.
  unfold tTest.np_mean. simpl length. simpl Z.of_nat.
  change (fsum [Fin v]) with (fadd (Fin v) (@of_int R _ 0)).
  rewrite !of_int_R, fadd_fin, fdiv_fin by lra. f_equal. field.
Qed.

Lemma np_var_single (v : R) : tTest.np_var [Fin v] = Fin 0.
Proof.
  unfold tTest.np_var. rewrite np_mean_single. simpl length. simpl Z.of_nat.
  simpl map.
  change (fsum [Fin ((v + - v) * (v + - v))])
    with (fadd (Fin ((v + - v) * (v + - v))) (@of_int R _ 0)).
  rewrite !of_int_R, fadd_fin, fdiv_fin by lra. f_equal. field.
Qed.

Lemma fdiv_zero_zero : fdiv (Fin 0) (Fin 0) = (NaN : float R).
Proof.
  unfold fdiv. rewrite is_zero_R.
  destruct (Req_dec_T 0 0); [reflexivity | contradiction].
Qed.

Lemma fdiv_nan_r (a : float R) : fdiv a NaN = NaN.
Proof. destruct a; reflexivity. Qed.

Lemma fadd_nan_l (a : float R) : fadd NaN a = NaN.
Proof. destruct a; reflexivity. Qed.

Lemma fadd_nan_r (a : float R) : fadd a NaN = NaN.
Proof. destruct a; reflexivity. Qed.

(** Welch's degrees of freedom when one of the samples is a single
    observation: its variance 0 is divided by [n - 1 = 0]. *)
Lemma welch_parameter_nan (d1 s : list (float R)) :
  d1 <> [] -> s <> [] ->
  (exists v, d1 = [Fin v]) \/ (exists v, s = [Fin v]) ->
  tTest._degrees_of_freedom (tTest._sample_stats d1)
    (Some (tTest._sample_stats s)) false = Ok NaN.
Proof.
  intros H1 H2 Hs.
  assert (N1 : IZR (Z.of_nat (length d1)) <> 0)
    by (apply not_0_IZR; destruct d1; [contradiction | simpl; lia]).
  assert (N2 : IZR (Z.of_nat (length s)) <> 0)
    by (apply not_0_IZR; destruct s; [contradiction | simpl; lia]).
  unfold tTest._degrees_of_freedom.
  change (tTest.obs (tTest._sample_stats d1)) with (Z.of_nat (length d1)).
  change (tTest.obs (tTest._sample_stats s)) with (Z.of_nat (length s)).
  change (tTest.variance (tTest._sample_stats d1)) with (tTest.np_var d1).
  change (tTest.variance (tTest._sample_stats s)) with (tTest.np_var s).
  rewrite !of_int_R. rewrite !py_truediv_ok by assumption.
  cbv beta iota delta [bind]. f_equal.
  destruct Hs as [[v ->] | [v ->]].
  - rewrite np_var_single. simpl length. simpl Z.of_nat.
    rewrite (fdiv_fin 0 1) by lra. replace (0 / 1) with 0 by field.
    rewrite (fpow_2 0). replace (0 * 0) with 0 by ring.
    replace (IZR (1 - 1)) with 0 by (simpl; reflexivity).
    rewrite fdiv_zero_zero, fadd_nan_l. apply fdiv_nan_r.
  - rewrite np_var_single. simpl length. simpl Z.of_nat.
    rewrite (fdiv_fin 0 1) by lra. replace (0 / 1) with 0 by field.
    rewrite (fpow_2 0). replace (0 * 0) with 0 by ring.
    replace (IZR (1 - 1)) with 0 by (simpl; reflexivity).
    rewrite fdiv_zero_zero, fadd_nan_r. apply fdiv_nan_r.
Qed.

(** X22. Welch's test accepts a sample that is a single finite
    observation, and its degrees of freedom are then [nan]. *)
Theorem welch_single_observation (y1 s : list (float R))
        (mu : option (float R)) (alternative : string) (alpha : float R) :
  str_in alternative ["two-sided"; "greater"; "less"]%string = true ->
  y1 <> [] -> s <> [] ->
  (exists v, y1 = [Fin v]) \/ (exists v, s = [Fin v]) ->
  exists b,
    tTest.__init__ t_cdf t_ppf y1 (Some s) mu false false alternative alpha
    = Ok b /\
    tTest.parameter b = NaN.
Proof.
  intros Hv H1 H2 Hs.
  assert (Hen : enough_data y1 (Some s) false).
  { split; [exact H1|]. split; [exact H2|]. intros H. discriminate. }
  destruct (chain_ok t_ppf y1 (Some s) false mu alpha alternative Hen)
    as (df & ts & ci & Hdf & Hts & Hci).
  simpl option_map in Hdf.
  rewrite (welch_parameter_nan y1 s H1 H2 Hs) in Hdf. injection Hdf as <-.
  destruct (ttest_init_build y1 (Some s) mu false false alternative alpha
              y1 (Some s) NaN ts ci Hv) as (b & Hb & _ & _ & _ & Hp & _).
  - unfold design_of. split; reflexivity.
  - apply welch_parameter_nan; assumption.
  - exact Hts.
  - exact Hci.
  - exists b. split; assumption.
Qed.

Lemma two_sample_swap_values (d1 s : list (float R)) (var_equal : bool)
      (mu : option (float R)) :
  enough_data d1 (Some s) var_equal ->
  exists df ts,
    tTest._degrees_of_freedom (tTest._sample_stats d1)
      (Some (tTest._sample_stats s)) var_equal = Ok df /\
    tTest._test_statistic (tTest._sample_stats d1)
      (Some (tTest._sample_stats s)) var_equal mu = Ok ts /\
    tTest._degrees_of_freedom (tTest._sample_stats s)
      (Some (tTest._sample_stats d1)) var_equal = Ok df /\
    tTest._test_statistic (tTest._sample_stats s)
      (Some (tTest._sample_stats d1)) var_equal mu = Ok (fneg ts).
Proof.
  intros (H1 & H2 & H3).
  assert (N1 : IZR (Z.of_nat (length d1)) <> 0)
    by (apply not_0_IZR; destruct d1; [contradiction | simpl; lia]).
  assert (N2 : IZR (Z.of_nat (length s)) <> 0)
    by (apply not_0_IZR; destruct s; [contradiction | simpl; lia]).
  unfold tTest._degrees_of_freedom, tTest._test_statistic.
  change (tTest.obs (tTest._sample_stats d1)) with (Z.of_nat (length d1)).
  change (tTest.obs (tTest._sample_stats s)) with (Z.of_nat (length s)).
  set (v1 := tTest.variance (tTest._sample_stats d1)).
  set (v2 := tTest.variance (tTest._sample_stats s)).
  set (m1 := tTest.mean (tTest._sample_stats d1)).
  set (m2 := tTest.mean (tTest._sample_stats s)).
  rewrite (Z.add_comm (Z.of_nat (length s)) (Z.of_nat (length d1))).
  rewrite !of_int_R. rewrite !py_truediv_ok by assumption.
  cbv beta iota delta [bind].
  destruct var_equal.
  - rewrite !fsub_fin.
    assert (N3 : IZR (Z.of_nat (length d1) + Z.of_nat (length s)) - 2 <> 0).
    { rewrite <- minus_IZR. apply not_0_IZR. specialize (H3 eq_refl). lia. }
    rewrite !py_truediv_ok by assumption.
    cbv beta iota delta [bind].
    do 2 eexists. split; [reflexivity|]. split; [reflexivity|].
    split; [reflexivity|].
    rewrite fneg_fdiv, fneg_fsub.
    rewrite (fadd_comm (fmul (Fin (IZR (Z.of_nat (length s)) - 1)) v2)).
    rewrite (fadd_comm (fdiv (Fin 1) (Fin (IZR (Z.of_nat (length s)))))).
    reflexivity.
  - do 2 eexists. split; [reflexivity|]. split; [reflexivity|].
    rewrite fneg_fdiv, fneg_fsub.
    rewrite (fadd_comm (fdiv v2 (Fin (IZR (Z.of_nat (length s)))))).
    rewrite (fadd_comm (fdiv (fpow (fdiv v2 (Fin (IZR (Z.of_nat (length s))))) 2)
                             (Fin (IZR (Z.of_nat (length s) - 1))))).
    split; reflexivity.
Qed.

(** X23. Exchanging the two samples of a two-sample test keeps the degrees
    of freedom and flips the sign of the statistic. *)
Theorem two_sample_swap (y1 s : list (float R)) (mu : option (float R))
        (var_equal : bool) (alternative : string) (alpha : float R)
        (b : tTest.t) :
  tTest.__init__ t_cdf t_ppf y1 (Some s) mu var_equal false alternative alpha
  = Ok b ->
  exists b',
    tTest.__init__ t_cdf t_ppf s (Some y1) mu var_equal false alternative alpha
    = Ok b' /\
    tTest.parameter b' = tTest.parameter b /\
    tTest.t_statistic b' = fneg (tTest.t_statistic b).
Proof.
  intros Hb.
  pose proof (ttest_init_inv t_cdf t_ppf _ _ _ _ _ _ _ _ Hb) as (Hv & _ & _).
  destruct (ttest_outcome_by_design y1 (Some s) mu var_equal false alternative
              alpha) as (_ & Hok & _).
  destruct (proj1 Hok (ex_intro _ b Hb)) as (_ & d1 & d2 & Hd & Hen).
  destruct Hd as [-> ->].
  apply ttest_init_fields in Hb. destruct Hb as (Hd & _ & _ & Hdf & Hts & _).
  destruct Hd as [E1 E2]. rewrite E1, E2 in Hdf, Hts. simpl option_map in Hdf, Hts.
  destruct (two_sample_swap_values y1 s var_equal mu Hen)
    as (df & ts & Kdf & Kts & Kdf' & Kts').
  rewrite Kdf in Hdf. injection Hdf as Hdf.
  rewrite Kts in Hts. injection Hts as Hts.
  assert (Hen' : enough_data s (Some y1) var_equal).
  { destruct Hen as (A & B & C). split; [exact B|]. split; [exact A|].
    intros H. specialize (C H). lia. }
  destruct (chain_ok t_ppf s (Some y1) var_equal mu alpha alternative Hen')
    as (df' & ts' & ci' & Ldf & Lts & Lci).
  simpl option_map in Ldf, Lts, Lci.
  destruct (ttest_init_build s (Some y1) mu var_equal false alternative alpha
              s (Some y1) df' ts' ci' Hv) as (b' & Hb' & _ & _ & _ & Hp & Ht & _);
    try assumption.
  { unfold design_of. split; reflexivity. }
  exists b'. split; [exact Hb'|].
  rewrite Kdf' in Ldf. injection Ldf as <-.
  rewrite Kts' in Lts. injection Lts as <-.
  rewrite Hp, Ht, <- Hdf, <- Hts. split; reflexivity.
Qed.

Lemma map_fin_sub (m : R) (ys : list R) :
  map (fun v => fsub v (Fin m)) (map Fin ys) = map Fin (map (fun y => y - m) ys).
Proof.
  rewrite !map_map. apply map_ext. intros y. apply fsub_fin.
Qed.

Lemma map_fin_square (ds : list R) :
  map (fun d => fmul d d) (map Fin ds) = map Fin (map (fun d => d * d) ds).
Proof.
  rewrite !map_map. apply map_ext. intros d. apply fmul_fin.
Qed.

Lemma sum_squares_nonneg (ds : list R) :
  0 <= fold_right Rplus 0 (map (fun d => d * d) ds).
Proof.
  induction ds as [|d ds IH]; simpl; [lra|]. nra.
Qed.

(** Mean and variance of a finite, non-empty vector. *)
Lemma sample_stats_finite (ys : list R) :
  ys <> [] ->
  let n := IZR (Z.of_nat (length ys)) in
  let m := fold_right Rplus 0 ys / n in
  let v := fold_right Rplus 0 (map (fun d => d * d) (map (fun y => y - m) ys)) / n in
  tTest._sample_stats (map Fin ys)
  = {| tTest.obs := Z.of_nat (length ys);
       tTest.variance := Fin v; tTest.mean := Fin m |} /\
  0 < n /\ 0 <= v.
Proof.
  intros Hne n m v.
  assert (Hn : 0 < n).
  { unfold n. apply IZR_lt. destruct ys; [contradiction | simpl; lia]. }
  assert (Hmean : tTest.np_mean (map Fin ys) = Fin m).
  { unfold tTest.np_mean. rewrite fsum_fin, length_map, of_int_R.
    rewrite fdiv_fin by (fold n; lra). reflexivity. }
  split; [|split; [exact Hn|]].
  - unfold tTest._sample_stats, tTest.np_var.
    rewrite Hmean, length_map. f_equal.
    rewrite map_fin_sub, map_fin_square, fsum_fin, of_int_R.
    rewrite fdiv_fin by (fold n; lra). reflexivity.
  - unfold v, Rdiv. apply Rmult_le_pos; [apply sum_squares_nonneg|].
    apply Rlt_le, Rinv_0_lt_compat. exact Hn.
Qed.

(** X24. The two-sided interval of a one-sample test of finite data is the
    mean plus and minus 1.96 standard errors, whatever [alpha] is, and its
    first component is the larger one. *)
Theorem one_sample_interval (ys : list R) (mu : option (float R))
        (var_equal : bool) (alpha : float R) :
  ys <> [] ->
  let n := IZR (Z.of_nat (length ys)) in
  let m := fold_right Rplus 0 ys / n in
  let v := fold_right Rplus 0 (map (fun d => d * d) (map (fun y => y - m) ys)) / n in
  let h := 196 / 100 * sqrt (v / n) in
  exists b,
    tTest.__init__ t_cdf t_ppf (map Fin ys) None mu var_equal false
                   "two-sided" alpha = Ok b /\
    tTest.mean (tTest.sample_statistics_y1 b) = Fin m /\
    tTest.confidence_interval b = (Fin (m + h), Fin (m - h)) /\
    0 <= h.
Proof.
  intros Hne n m v h.
  destruct (sample_stats_finite ys Hne) as (Hst & Hn & Hv).
  fold n m v in Hst, Hn, Hv.
  assert (Hq : 0 <= v / n).
  { unfold Rdiv. apply Rmult_le_pos; [exact Hv|].
    apply Rlt_le, Rinv_0_lt_compat. exact Hn. }
  assert (Hh : 0 <= h).
  { unfold h. apply Rmult_le_pos; [lra | apply sqrt_pos]. }
  assert (Hen : enough_data (map Fin ys) None var_equal).
  { split; [|exact I]. destruct ys; [contradiction | discriminate]. }
  destruct (chain_ok t_ppf (map Fin ys) None var_equal mu alpha "two-sided" Hen)
    as (df & ts & ci & Hdf & Hts & Hci).
  destruct (ttest_init_build (map Fin ys) None mu var_equal false "two-sided"
              alpha (map Fin ys) None df ts ci eq_refl)
    as (b & Hb & _ & _ & Hs & _ & _ & Hc & _); try assumption.
  { unfold design_of. split; reflexivity. }
  exists b. split; [exact Hb|]. rewrite Hs, Hc, Hst. split; [reflexivity|].
  split; [|exact Hh].
  simpl option_map in Hci. rewrite Hst in Hci.
  unfold tTest._conf_int in Hci. simpl tTest.obs in Hci.
  simpl tTest.variance in Hci. simpl tTest.mean in Hci.
  rewrite of_int_R in Hci. fold n in Hci.
  rewrite py_truediv_fin in Hci by lra.
  cbv beta iota delta [bind] in Hci.
  rewrite np_sqrt_fin in Hci by exact Hq.
  rewrite fmul_fin, fadd_fin, fsub_fin in Hci.
  simpl in Hci. injection Hci as <-. reflexivity.
Qed.

End TTestProperties.

Lemma ttest_degrees_of_freedom_witness :
  exists b,
    tTest.__init__ (fun _ _ => Fin (3 / 4)) (fun _ _ => Fin 2)
      [Fin 1; Fin 3] (Some [Fin 2; Fin 5; Fin 4]) None true false "two-sided"
      (Fin (5 / 100)) = Ok b /\
    (true = true ->
     tTest.parameter b
     = of_int (Z.of_nat (length [Fin 1; Fin 3])
               + Z.of_nat (length [Fin 2; Fin 5; Fin 4]) - 2)).
Proof.
  destruct (proj2 (proj1 (proj2
              (ttest_outcome_by_design (fun _ _ => Fin (3 / 4)) (fun _ _ => Fin 2)
                 [Fin 1; Fin 3] (Some [Fin 2; Fin 5; Fin 4]) None true false
                 "two-sided" (Fin (5 / 100))))))
    as [b Hb].
  { split; [reflexivity|]. exists [Fin 1; Fin 3], (Some [Fin 2; Fin 5; Fin 4]).
    split; [split; reflexivity|]. split; [discriminate|].
    split; [discriminate|]. intros _. simpl. lia. }
  exists b. split; [exact Hb|].
  exact (ttest_degrees_of_freedom (fun _ _ => Fin (3 / 4)) (fun _ _ => Fin 2)
           [Fin 1; Fin 3] (Some [Fin 2; Fin 5; Fin 4]) None true false
           "two-sided" (Fin (5 / 100)) b Hb).
Defined.

Lemma paired_is_one_sample_of_differences_witness :
  length [Fin 1; Fin 3] = length [Fin 2; Fin 5] /\
  match tTest.__init__ (fun _ _ => Fin (3 / 4)) (fun _ _ => Fin 2)
          [Fin 1; Fin 3] (Some [Fin 2; Fin 5]) None false true "two-sided"
          (Fin (5 / 100)),
        tTest.__init__ (fun _ _ => Fin (3 / 4)) (fun _ _ => Fin 2)
          (tTest.subtract [Fin 1; Fin 3] [Fin 2; Fin 5]) None None false false
          "two-sided" (Fin (5 / 100))
  with
  | Ok b, Ok b' =>
      tTest.sample_statistics_y1 b = tTest.sample_statistics_y1 b' /\
      tTest.parameter b = tTest.parameter b' /\
      tTest.t_statistic b = tTest.t_statistic b' /\
      tTest.p_value b = tTest.p_value b' /\
      tTest.confidence_interval b = tTest.confidence_interval b'
  | Raise e, Raise e' => e = e'
  | _, _ => False
  end.
Proof.
  assert (Hlen : length [Fin 1; Fin 3] = length [Fin 2; Fin 5] :> nat)
    by reflexivity.
  split; [exact Hlen|].
  exact (paired_is_one_sample_of_differences
           (fun _ _ => Fin (3 / 4)) (fun _ _ => Fin 2)
           [Fin 1; Fin 3] [Fin 2; Fin 5] None false "two-sided" (Fin (5 / 100))
           Hlen).
Defined.

Lemma welch_single_observation_witness :
  (str_in "two-sided" ["two-sided"; "greater"; "less"]%string = true /\
   [Fin 1] <> [] /\ [Fin 2; Fin 5] <> [] /\
   ((exists v, [Fin 1] = [Fin v]) \/ (exists v, [Fin 2; Fin 5] = [Fin v]))) /\
  exists b,
    tTest.__init__ (fun _ _ => Fin (3 / 4)) (fun _ _ => Fin 2)
      [Fin 1] (Some [Fin 2; Fin 5]) None false false "two-sided"
      (Fin (5 / 100)) = Ok b /\
    tTest.parameter b = NaN.
Proof.
  assert (Ha : str_in "two-sided" ["two-sided"; "greater"; "less"]%string = true)
    by reflexivity.
  assert (H1 : [Fin 1] <> (@nil (float R))) by discriminate.
  assert (H2 : [Fin 2; Fin 5] <> (@nil (float R))) by discriminate.
  assert (Hs : (exists v, [Fin 1] = [Fin v]) \/
               (exists v, [Fin 2; Fin 5] = [Fin v]))
    by (left; exists 1; reflexivity).
  split; [split; [exact Ha | split; [exact H1 | split; [exact H2 | exact Hs]]]|].
  exact (welch_single_observation (fun _ _ => Fin (3 / 4)) (fun _ _ => Fin 2)
           [Fin 1] [Fin 2; Fin 5] None "two-sided" (Fin (5 / 100))
           Ha H1 H2 Hs).
Defined.

Lemma two_sample_swap_witness :
  exists b,
    tTest.__init__ (fun _ _ => Fin (3 / 4)) (fun _ _ => Fin 2)
      [Fin 1; Fin 3] (Some [Fin 2; Fin 5; Fin 4]) None false false "two-sided"
      (Fin (5 / 100)) = Ok b /\
    exists b',
      tTest.__init__ (fun _ _ => Fin (3 / 4)) (fun _ _ => Fin 2)
        [Fin 2; Fin 5; Fin 4] (Some [Fin 1; Fin 3]) None false false
        "two-sided" (Fin (5 / 100)) = Ok b' /\
      tTest.parameter b' = tTest.parameter b /\
      tTest.t_statistic b' = fneg (tTest.t_statistic b).
Proof.
  destruct (proj2 (proj1 (proj2
              (ttest_outcome_by_design (fun _ _ => Fin (3 / 4)) (fun _ _ => Fin 2)
                 [Fin 1; Fin 3] (Some [Fin 2; Fin 5; Fin 4]) None false false
                 "two-sided" (Fin (5 / 100))))))
    as [b Hb].
  { split; [reflexivity|]. exists [Fin 1; Fin 3], (Some [Fin 2; Fin 5; Fin 4]).
    split; [split; reflexivity|]. split; [discriminate|].
    split; [discriminate|]. intros H. discriminate. }
  exists b. split; [exact Hb|].
  exact (two_sample_swap (fun _ _ => Fin (3 / 4)) (fun _ _ => Fin 2)
           [Fin 1; Fin 3] [Fin 2; Fin 5; Fin 4] None false "two-sided"
           (Fin (5 / 100)) b Hb).
Defined.

Lemma one_sample_interval_witness :
  [1; 3] <> [] /\
  let n := IZR (Z.of_nat (length [1; 3])) in
  let m := fold_right Rplus 0 [1; 3] / n in
  let v := fold_right Rplus 0
             (map (fun d => d * d) (map (fun y => y - m) [1; 3])) / n in
  let h := 196 / 100 * sqrt (v / n) in
  exists b,
    tTest.__init__ (fun _ _ => Fin (3 / 4)) (fun _ _ => Fin 2)
      (map Fin [1; 3]) None None false false "two-sided" (Fin (5 / 100))
    = Ok b /\
    tTest.mean (tTest.sample_statistics_y1 b) = Fin m /\
    tTest.confidence_interval b = (Fin (m + h), Fin (m - h)) /\
    0 <= h.
Proof.
  assert (Hne : [1; 3] <> (@nil R)) by discriminate.
  split; [exact Hne|].
  exact (one_sample_interval (fun _ _ => Fin (3 / 4)) (fun _ _ => Fin 2)
           [1; 3] None false (Fin (5 / 100)) Hne).
Defined.
